(** * Book embeddings pipeline: a shallow embedding of the retrieval core

    The development follows the Python sources module by module:
    - [PyStr], [PyList]: the fragments of [str], [re] and list slicing the
      code relies on;
    - [ContentChunk], [TextChunker]: [utils/chunker.py];
    - [Embedder]: [utils/embedder.py];
    - [QdrantStorage]: [utils/qdrant_storage.py];
    - [Validator]: [utils/validator.py];
    - [BookEmbeddingPipeline]: [main.py];
    - [NeonLogger], [Api]: [database/neon_logger.py], [api/main.py].

    Conventions.  Python [int] is [Z]; counters that only count up from 0
    are [nat].  Python [str] is [string], read as a sequence of ASCII code
    points.  Python [float] configuration values are the rationals they
    denote ([Q]); products are exact.  [while] loops that may fail to
    terminate take a fuel argument and return [None] when it runs out.
    External services (MD5, UUID5, the clock, the embedding provider, the
    vector database, the relational log) are parameters or small explicit
    state machines. *)

From Stdlib Require Import ZArith QArith Qround Lqa Ascii String List Lia.
From stdpp Require Import base option list gmap strings pretty.

Local Open Scope string_scope.
Local Open Scope Z_scope.

(* ===================================================================== *)
(** ** Python strings *)
(* ===================================================================== *)

Module PyStr.

(** [str.isspace] on ASCII: TAB..CR, FS..US and SPACE.  The same class is
    used by [str.strip], [str.split] and the regex escape [\s]. *)
Definition is_space (c : ascii) : bool :=
  let n := nat_of_ascii c in
  ((9 <=? n) && (n <=? 13) || (28 <=? n) && (n <=? 32))%nat.

Definition is_upper (c : ascii) : bool :=
  let n := nat_of_ascii c in ((65 <=? n) && (n <=? 90))%nat.

Definition is_lower (c : ascii) : bool :=
  let n := nat_of_ascii c in ((97 <=? n) && (n <=? 122))%nat.

Definition is_digit (c : ascii) : bool :=
  let n := nat_of_ascii c in ((48 <=? n) && (n <=? 57))%nat.

(** The regex escape [\w] on ASCII: letters, digits and underscore. *)
Definition is_word (c : ascii) : bool :=
  is_upper c || is_lower c || is_digit c || Ascii.eqb c "_"%char.

(** The regex atom [.] without DOTALL: anything but a line feed. *)
Definition is_dot_any (c : ascii) : bool :=
  negb (Ascii.eqb c "010"%char).

Definition is_empty (s : string) : bool :=
  match s with EmptyString => true | _ => false end.

Fixpoint lstrip (s : string) : string :=
  match s with
  | EmptyString => EmptyString
  | String c s' => if is_space c then lstrip s' else s
  end.

Fixpoint rstrip (s : string) : string :=
  match s with
  | EmptyString => EmptyString
  | String c s' =>
      let r := rstrip s' in
      if is_empty r && is_space c then EmptyString else String c r
  end.

(** [s.strip()] *)
Definition strip (s : string) : string := rstrip (lstrip s).

(** [s.split()] with no argument: the maximal runs of non-space
    characters, in order. *)
Fixpoint split (s : string) : list string :=
  match s with
  | EmptyString => []
  | String c s' =>
      if is_space c then split s'
      else match s' with
           | EmptyString => [String c EmptyString]
           | String c' _ =>
               if is_space c' then String c EmptyString :: split s'
               else match split s' with
                    | w :: ws => String c w :: ws
                    | [] => [String c EmptyString]
                    end
           end
  end.

(** [sep.join(l)] *)
Definition join (sep : string) (l : list string) : string :=
  String.concat sep l.

(** [s[:n]] for [n >= 0]. *)
Definition prefix (n : nat) (s : string) : string := substring 0 n s.

(** [s.startswith(p)] *)
Definition startswith (s p : string) : bool := String.prefix p s.

(** [p in s] for strings: [p] occurs in [s] as a substring. *)
Fixpoint contains (p s : string) : bool :=
  String.prefix p s
  || match s with
     | EmptyString => false
     | String _ s' => contains p s'
     end.

(** [s.lower()] on ASCII. *)
Definition lower_char (c : ascii) : ascii :=
  if is_upper c then ascii_of_nat (nat_of_ascii c + 32) else c.

Fixpoint lower (s : string) : string :=
  match s with
  | EmptyString => EmptyString
  | String c s' => String (lower_char c) (lower s')
  end.

(** [s.strip(ch)] for a single character [ch]. *)
Fixpoint lstrip_char (ch : ascii) (s : string) : string :=
  match s with
  | EmptyString => EmptyString
  | String c s' => if Ascii.eqb c ch then lstrip_char ch s' else s
  end.

Fixpoint rstrip_char (ch : ascii) (s : string) : string :=
  match s with
  | EmptyString => EmptyString
  | String c s' =>
      let r := rstrip_char ch s' in
      if is_empty r && Ascii.eqb c ch then EmptyString else String c r
  end.

Definition strip_char (ch : ascii) (s : string) : string :=
  rstrip_char ch (lstrip_char ch s).

(** [s.split(sep)] for a single character [sep]: every occurrence of
    [sep] separates two pieces, empty pieces included. *)
Fixpoint split_on (sep : ascii) (s : string) : list string :=
  match s with
  | EmptyString => [EmptyString]
  | String c s' =>
      if Ascii.eqb c sep then EmptyString :: split_on sep s'
      else match split_on sep s' with
           | w :: ws => String c w :: ws
           | [] => [String c EmptyString]
           end
  end.

End PyStr.

(* ===================================================================== *)
(** ** Python list slicing *)
(* ===================================================================== *)

Module PyList.

(** Index normalisation of [l[i:j]]: a negative bound counts from the
    end, and both bounds are clamped to [0 .. len]. *)
Definition clamp (len i : Z) : Z :=
  if i <? 0 then Z.max 0 (i + len) else Z.min i len.

(** [l[start:stop]] *)
Definition slice {A} (l : list A) (start stop : Z) : list A :=
  let len := Z.of_nat (length l) in
  let s := clamp len start in
  let e := clamp len stop in
  take (Z.to_nat (e - s)) (drop (Z.to_nat s) l).

(** [int(x)] for a float [x]: truncation towards zero. *)
Definition int_of_float (x : Q) : Z := Z.quot (Qnum x) (Zpos (Qden x)).

End PyList.

(* ===================================================================== *)
(** ** [utils/chunker.py] *)
(* ===================================================================== *)

Module ContentChunk.

(** [section_title] and [hierarchy_path] are declared [str]; they hold
    whatever the caller passes, and the pipeline passes the extractor's
    optional title and path. *)
Record t : Type := mk {
  id : string;
  content_id : string;
  chunk_text : string;
  chunk_index : nat;
  token_count : nat;
  section_title : option string;
  hierarchy_path : option string;
  overlap_with_next : Z;
  created_at : string;
  url : string
}.

End ContentChunk.

Module Config.

(** The processing settings of [config.py] that the modelled code reads. *)
Record t : Type := mk {
  CHUNK_SIZE : Z;
  CHUNK_OVERLAP : Q;
  RATE_LIMIT_DELAY : Q
}.

End Config.

Module TextChunker.

(** The sentence boundary regex
    [(?<!\w\.\w.)(?<![A-Z][a-z]\.)(?<=\.|\?|\!)\s]
    decided at one position: [before] holds the characters to the left
    of the position, nearest first, and [c] is the character at it. *)
Definition lookbehind_abbrev (before : list ascii) : bool :=
  match before with
  | p1 :: p2 :: p3 :: p4 :: _ =>
      PyStr.is_word p4 && Ascii.eqb p3 "."%char
      && PyStr.is_word p2 && PyStr.is_dot_any p1
  | _ => false
  end.

Definition lookbehind_title (before : list ascii) : bool :=
  match before with
  | p1 :: p2 :: p3 :: _ =>
      PyStr.is_upper p3 && PyStr.is_lower p2 && Ascii.eqb p1 "."%char
  | _ => false
  end.

Definition lookbehind_terminator (before : list ascii) : bool :=
  match before with
  | p1 :: _ =>
      Ascii.eqb p1 "."%char || Ascii.eqb p1 "?"%char || Ascii.eqb p1 "!"%char
  | [] => false
  end.

Definition sentence_pattern (before : list ascii) (c : ascii) : bool :=
  negb (lookbehind_abbrev before) && negb (lookbehind_title before)
  && lookbehind_terminator before && PyStr.is_space c.

(** [re.split(sentence_pattern, text)]: the first piece and the pieces
    after it.  Every match is one character long, so the pieces are the
    stretches between matching positions. *)
Fixpoint re_split_from (before : list ascii) (s : string)
  : string * list string :=
  match s with
  | EmptyString => (EmptyString, [])
  | String c s' =>
      let '(p, ps) := re_split_from (c :: before) s' in
      if sentence_pattern before c then (EmptyString, p :: ps)
      else (String c p, ps)
  end.

Definition re_split (s : string) : list string :=
  let '(p, ps) := re_split_from [] s in p :: ps.

Definition _split_into_sentences (text : string) : list string :=
  filter (fun s => PyStr.is_empty s = false)
         (map PyStr.strip (re_split text)).

Section Chunker.

(** [hashlib.md5(s.encode('utf-8')).hexdigest()] *)
Variable md5_hexdigest : string -> string.
(** [datetime.utcnow().isoformat()] at the creation of the chunk with
    the given index. *)
Variable utcnow_isoformat : nat -> string.
Variable cfg : Config.t.

Definition chunk_size : Z := Config.CHUNK_SIZE cfg.
Definition overlap : Q := Config.CHUNK_OVERLAP cfg.

(** The variables of the [while] loops: [chunks], [chunk_index] and
    [current_start] (named [start_idx] in the word-based variant). *)
Record loop_state : Type := LoopState {
  chunks : list ContentChunk.t;
  chunk_index : nat;
  current_start : Z
}.

Definition chunk_id (content_id chunk_text : string) (index : nat)
  : string :=
  content_id ++ "_chunk_" ++ PyStr.prefix 8 (md5_hexdigest chunk_text)
             ++ "_" ++ pretty index.

Section PerCall.

Variables (content_id url : string).
Variables (section_title hierarchy_path : option string).

(** [overlap_sentences = int(len(sentences) * self.overlap)] *)
Definition overlap_sentences (sentences : list string) : Z :=
  PyList.int_of_float
    (inject_Z (Z.of_nat (length sentences)) * overlap)%Q.

(** One pass through the body of the [while] loop of [chunk_text]. *)
Definition chunk_text_body (sentences : list string) (st : loop_state)
  : loop_state :=
  let len := Z.of_nat (length sentences) in
  let current_end := Z.min (current_start st + chunk_size) len in
  let chunk_sentences :=
    PyList.slice sentences (current_start st) current_end in
  let chunk_text := PyStr.strip (PyStr.join " " chunk_sentences) in
  if PyStr.is_empty chunk_text then
    LoopState (chunks st) (chunk_index st) current_end
  else
    let overlap_with_next :=
      if current_end <? len
      then Z.min (overlap_sentences sentences) (len - current_end)
      else 0 in
    let chunk :=
      ContentChunk.mk
        (chunk_id content_id chunk_text (chunk_index st))
        content_id chunk_text (chunk_index st)
        (length (PyStr.split chunk_text))
        section_title hierarchy_path overlap_with_next
        (utcnow_isoformat (chunk_index st)) url in
    LoopState (chunks st ++ [chunk]) (S (chunk_index st))
      (if current_end <? len
       then current_end - overlap_sentences sentences
       else current_end).

Fixpoint chunk_text_loop (fuel : nat) (sentences : list string)
  (st : loop_state) : option (list ContentChunk.t) :=
  if current_start st <? Z.of_nat (length sentences) then
    match fuel with
    | O => None
    | S fuel' =>
        chunk_text_loop fuel' sentences (chunk_text_body sentences st)
    end
  else Some (chunks st).

(** [TextChunker.chunk_text]; [None] means the loop was still running
    when the fuel ran out. *)
Definition chunk_text (fuel : nat) (text : string)
  : option (list ContentChunk.t) :=
  if PyStr.is_empty text || PyStr.is_empty (PyStr.strip text) then Some []
  else
    let sentences := _split_into_sentences text in
    match sentences with
    | [] => Some []
    | _ => chunk_text_loop fuel sentences (LoopState [] 0 0)
    end.

(** One pass through the body of the [while] loop of
    [chunk_with_sliding_window]. *)
Definition sliding_window_body (words : list string) (st : loop_state)
  : loop_state :=
  let len := Z.of_nat (length words) in
  let words_per_chunk := chunk_size in
  let overlap_words :=
    PyList.int_of_float (inject_Z words_per_chunk * overlap)%Q in
  let start_idx := current_start st in
  let end_idx := Z.min (start_idx + words_per_chunk) len in
  let chunk_words := PyList.slice words start_idx end_idx in
  let chunk_text := PyStr.join " " chunk_words in
  if PyStr.is_empty (PyStr.strip chunk_text) then
    LoopState (chunks st) (chunk_index st) end_idx
  else
    let overlap_with_next :=
      if end_idx <? len
      then Z.min overlap_words (len - end_idx)
      else 0 in
    let chunk :=
      ContentChunk.mk
        (chunk_id content_id chunk_text (chunk_index st))
        content_id chunk_text (chunk_index st)
        (length chunk_words)
        section_title hierarchy_path overlap_with_next
        (utcnow_isoformat (chunk_index st)) url in
    LoopState (chunks st ++ [chunk]) (S (chunk_index st))
      (if end_idx <? len then end_idx - overlap_words else end_idx).

Fixpoint sliding_window_loop (fuel : nat) (words : list string)
  (st : loop_state) : option (list ContentChunk.t) :=
  if current_start st <? Z.of_nat (length words) then
    match fuel with
    | O => None
    | S fuel' =>
        sliding_window_loop fuel' words (sliding_window_body words st)
    end
  else Some (chunks st).

Definition chunk_with_sliding_window (fuel : nat) (text : string)
  : option (list ContentChunk.t) :=
  if PyStr.is_empty text || PyStr.is_empty (PyStr.strip text) then Some []
  else
    let words := PyStr.split text in
    match words with
    | [] => Some []
    | _ => sliding_window_loop fuel words (LoopState [] 0 0)
    end.

End PerCall.

End Chunker.

End TextChunker.

(* ===================================================================== *)
(** ** Exceptions *)
(* ===================================================================== *)

Inductive py_exception : Type :=
| ValueError (msg : string)
| ProviderError (msg : string)
| HTTPException (status_code : Z) (detail : string).

Inductive result (A : Type) : Type :=
| Ok (a : A)
| Raise (e : py_exception).

Arguments Ok {A} a.
Arguments Raise {A} e.

(** An embedding vector ([List[float]]). *)
Definition embedding : Type := list Q.

(** [time.sleep(d)] returns for [d >= 0] and raises [ValueError] for a
    negative [d]; [sleep_returns d] tells which. *)
Definition sleep_returns (d : Q) : bool := Qle_bool 0 d.

(* ===================================================================== *)
(** ** [utils/embedder.py] *)
(* ===================================================================== *)

Module Embedder.

Definition model_name : string := "embed-multilingual-v2.0".
Definition max_batch_size : nat := 96.

Record model_info : Type := ModelInfo {
  info_model_name : string;
  dimensions : Z;
  info_max_batch_size : nat
}.

Definition get_model_info : model_info :=
  ModelInfo model_name 768 max_batch_size.

(** [range(0, stop, step)] for a positive [step]. *)
Definition py_range (stop step : nat) : list nat :=
  map (fun j => (j * step)%nat) (seq 0 ((stop + step - 1) / step)%nat).

Section Client.

(** [self.client.embed(texts=..., model=...)]: the provider's answer to
    the request with the given sequence number; [None] when the call
    raises, else [response.embeddings]. *)
Variable client_embed : nat -> list string -> option (list embedding).
Variable cfg : Config.t.

(** The fallback loop over the texts of a failed batch.  [calls] counts
    the requests sent so far. *)
Fixpoint embed_fallback (calls : nat) (batch : list string)
  (batch_fallback : list (option embedding))
  : nat * list (option embedding) :=
  match batch with
  | [] => (calls, batch_fallback)
  | text :: rest =>
      match client_embed calls [text] with
      | Some embeddings =>
          let extended := (batch_fallback ++ map Some embeddings)%list in
          if sleep_returns (Config.RATE_LIMIT_DELAY cfg * (1 # 10))%Q
          then embed_fallback (S calls) rest extended
          else embed_fallback (S calls) rest (extended ++ [None])%list
      | None =>
          embed_fallback (S calls) rest (batch_fallback ++ [None])%list
      end
  end.

Definition except_batch (calls : nat) (batch : list string)
  (all_embeddings : list embedding) : nat * list embedding :=
  let '(calls', batch_fallback) := embed_fallback calls batch [] in
  (calls', (all_embeddings ++ omap (fun e => e) batch_fallback)%list).

(** The body of the [for] loop of [embed_texts] for one batch. *)
Definition embed_batch (acc : nat * list embedding) (batch : list string)
  : nat * list embedding :=
  let '(calls, all_embeddings) := acc in
  match client_embed calls batch with
  | Some batch_embeddings =>
      let extended := (all_embeddings ++ batch_embeddings)%list in
      if sleep_returns (Config.RATE_LIMIT_DELAY cfg)
      then (S calls, extended)
      else except_batch (S calls) batch extended
  | None => except_batch (S calls) batch all_embeddings
  end.

(** [Embedder.embed_texts], threading the request counter. *)
Definition embed_texts (calls : nat) (texts : list string)
  : nat * option (list embedding) :=
  match texts with
  | [] => (calls, None)
  | _ =>
      let '(calls', all_embeddings) :=
        fold_left
          (fun acc i =>
             embed_batch acc
               (PyList.slice texts (Z.of_nat i)
                  (Z.of_nat i + Z.of_nat max_batch_size)))
          (py_range (length texts) max_batch_size) (calls, []) in
      (calls', Some all_embeddings)
  end.

(** [Embedder.embed_single_text] *)
Definition embed_single_text (calls : nat) (text : string)
  : nat * option embedding :=
  match client_embed calls [text] with
  | Some (e :: _) => (S calls, Some e)
  | Some [] => (S calls, None)
  | None => (S calls, None)
  end.

End Client.

End Embedder.

(* ===================================================================== *)
(** ** [utils/qdrant_storage.py] *)
(* ===================================================================== *)

Module QdrantStorage.

Record payload : Type := Payload {
  p_url : string;
  p_section : option string;
  p_hierarchy_path : option string;
  p_chunk_index : nat;
  p_token_count : nat;
  p_content : string;
  p_created_at : string;
  p_content_id : string
}.

Record PointStruct : Type := Point {
  point_id : string;
  vector : embedding;
  point_payload : payload
}.

(** The collection behind [self.client]: the stored points by point id,
    and the upsert requests sent so far, oldest first. *)
Record client : Type := Client {
  collection : gmap string (embedding * payload);
  upsert_requests : list (list PointStruct)
}.

Definition store_point (m : gmap string (embedding * payload))
  (p : PointStruct) : gmap string (embedding * payload) :=
  <[point_id p := (vector p, point_payload p)]> m.

Definition make_payload (chunk : ContentChunk.t) : payload :=
  Payload (ContentChunk.url chunk) (ContentChunk.section_title chunk)
    (ContentChunk.hierarchy_path chunk) (ContentChunk.chunk_index chunk)
    (ContentChunk.token_count chunk) (ContentChunk.chunk_text chunk)
    (ContentChunk.created_at chunk) (ContentChunk.content_id chunk).

Section Storage.

(** [str(uuid.uuid5(uuid.NAMESPACE_DNS, name))] *)
Variable uuid5_dns : string -> string.
(** Whether the database rejects the upsert request with the given
    sequence number, and with which error. *)
Variable upsert_error : nat -> option string.

(** [self.client.upsert(collection_name, points)]: every request is
    sent; an accepted one writes its points in order, a later point
    replacing an earlier one with the same id. *)
Definition client_upsert (c : client) (points : list PointStruct)
  : result unit * client :=
  let sent := (upsert_requests c ++ [points])%list in
  match upsert_error (length (upsert_requests c)) with
  | Some msg => (Raise (ProviderError msg), Client (collection c) sent)
  | None => (Ok tt, Client (fold_left store_point points (collection c)) sent)
  end.

Definition make_point (chunk : ContentChunk.t) (e : embedding)
  : PointStruct :=
  Point (uuid5_dns (ContentChunk.id chunk)) e (make_payload chunk).

(** [QdrantStorage.save_chunk_to_qdrant]: the [except] clause logs and
    re-raises. *)
Definition save_chunk_to_qdrant (c : client) (chunk : ContentChunk.t)
  (e : embedding) : result unit * client :=
  client_upsert c [make_point chunk e].

(** [QdrantStorage.save_chunks_batch] *)
Definition save_chunks_batch (c : client) (chunks : list ContentChunk.t)
  (embeddings : list embedding) : result unit * client :=
  if negb (length chunks =? length embeddings)%nat then
    (Raise (ValueError
              ("Number of chunks (" ++ pretty (length chunks)
               ++ ") must match number of embeddings ("
               ++ pretty (length embeddings) ++ ")")), c)
  else
    let points :=
      map (fun ce => make_point (fst ce) (snd ce))
          (zip chunks embeddings) in
    client_upsert c points.

End Storage.

(** One entry of the list returned by [search_similar]. *)
Record chunk_info : Type := ChunkInfo {
  ci_id : string;
  ci_score : Q;
  ci_payload : gmap string string;
  ci_content : string;
  ci_url : string;
  ci_section : string;
  ci_hierarchy_path : string
}.

Record ScoredPoint : Type := Scored {
  sp_id : string;
  sp_score : Q;
  sp_payload : gmap string string
}.

Definition payload_get (p : gmap string string) (key : string) : string :=
  default "" (p !! key).

Section Search.

(** [self.client.query_points(collection_name, query, limit).points];
    [None] when the call raises. *)
Variable query_points : embedding -> Z -> option (list ScoredPoint).

(** [QdrantStorage.search_similar] *)
Definition search_similar (query_embedding : embedding) (top_k : Z)
  : list chunk_info :=
  match query_points query_embedding top_k with
  | Some search_result =>
      map (fun r =>
             ChunkInfo (sp_id r) (sp_score r) (sp_payload r)
               (payload_get (sp_payload r) "content")
               (payload_get (sp_payload r) "url")
               (payload_get (sp_payload r) "section")
               (payload_get (sp_payload r) "hierarchy_path"))
          search_result
  | None => []
  end.

End Search.

(** The database as the administrative calls see it: the vector size of
    the collection named [self.collection_name] ([None] when there is no
    such collection), the client with its points, and the number of
    administrative requests served. *)
Record database : Type := Database {
  vector_size : option nat;
  points : client;
  admin_requests : nat
}.

Section Admin.

(** Whether the database fails the administrative request with the given
    sequence number, and with which error. *)
Variable admin_error : nat -> option string.

Definition served (db : database) : database :=
  Database (vector_size db) (points db) (S (admin_requests db)).

(** [self.client.get_collections()], answered by whether the collection
    is among the names listed. *)
Definition client_get_collections (db : database) : result bool * database :=
  match admin_error (admin_requests db) with
  | Some msg => (Raise (ProviderError msg), served db)
  | None => (Ok (bool_decide (is_Some (vector_size db))), served db)
  end.

(** [self.client.delete_collection(name)]: the collection and its points
    are gone. *)
Definition client_delete_collection (db : database) : result unit * database :=
  match admin_error (admin_requests db) with
  | Some msg => (Raise (ProviderError msg), served db)
  | None =>
      (Ok tt,
       Database None (Client ∅ (upsert_requests (points db)))
         (S (admin_requests db)))
  end.

(** [self.client.create_collection(name, vectors_config)]: refused when
    the collection exists, an empty collection otherwise. *)
Definition client_create_collection (db : database) (size : nat)
  : result unit * database :=
  match admin_error (admin_requests db), vector_size db with
  | Some msg, _ => (Raise (ProviderError msg), served db)
  | None, Some _ =>
      (Raise (ProviderError "collection already exists"), served db)
  | None, None =>
      (Ok tt,
       Database (Some size) (Client ∅ (upsert_requests (points db)))
         (S (admin_requests db)))
  end.

(** [self.client.count(collection_name).count]: refused when there is no
    such collection. *)
Definition client_count (db : database) : result nat * database :=
  match admin_error (admin_requests db), vector_size db with
  | Some msg, _ => (Raise (ProviderError msg), served db)
  | None, None => (Raise (ProviderError "collection not found"), served db)
  | None, Some _ => (Ok (size (collection (points db))), served db)
  end.

(** [QdrantStorage.create_collection]: the [except] clause logs and
    re-raises. *)
Definition create_collection (db : database) (vector_size : nat)
  : result unit * database :=
  match client_get_collections db with
  | (Raise e, db1) => (Raise e, db1)
  | (Ok exists_already, db1) =>
      let deleted :=
        if exists_already then client_delete_collection db1
        else (Ok tt, db1) in
      match deleted with
      | (Raise e, db2) => (Raise e, db2)
      | (Ok _, db2) => client_create_collection db2 vector_size
      end
  end.

(** [QdrantStorage.count_points] *)
Definition count_points (db : database) : nat * database :=
  match client_count db with
  | (Ok n, db') => (n, db')
  | (Raise _, db') => (O, db')
  end.

(** [QdrantStorage.collection_exists] *)
Definition collection_exists (db : database) : bool * database :=
  match client_get_collections db with
  | (Ok b, db') => (b, db')
  | (Raise _, db') => (false, db')
  end.

End Admin.

End QdrantStorage.

(* ===================================================================== *)
(** ** [utils/validator.py] *)
(* ===================================================================== *)

Module Validator.

Record quality_results : Type := QualityResults {
  embedding_count : nat;
  dimensions : nat;
  average_norm : Q;
  std_norm : Q;
  average_similarity_adjacent : Q;
  min_similarity_adjacent : Q;
  max_similarity_adjacent : Q;
  is_valid : bool
}.

(** The dictionary returned by [validate_embedding_quality]: either the
    statistics or [{"error": msg}]. *)
Inductive quality_report : Type :=
| Quality (r : quality_results)
| QualityError (error : string).

(** [report.get("is_valid", False)] *)
Definition get_is_valid (r : quality_report) : bool :=
  match r with
  | Quality q => is_valid q
  | QualityError _ => false
  end.

(** [np.array(embeddings).shape[1]]: the common length of the rows;
    [None] when the rows are ragged and the expression raises. *)
Definition shape_1 (embeddings : list embedding) : option nat :=
  match embeddings with
  | [] => None
  | e :: rest =>
      if forallb (fun e' => (length e' =? length e)%nat) rest
      then Some (length e) else None
  end.

Fixpoint adjacent_pairs {A} (l : list A) : list (A * A) :=
  match l with
  | a :: (b :: _) as tl => (a, b) :: adjacent_pairs tl
  | _ => []
  end.

Definition sum (l : list Q) : Q := fold_left Qplus l (0 # 1).

Section Quality.

Variable client_embed : nat -> list string -> option (list embedding).
Variable cfg : Config.t.
(** [x ** 0.5], [np.linalg.norm] of one row and the NumPy reductions
    over a list of floats, rounded however the platform rounds. *)
Variable pow_half : Q -> Q.
Variable np_linalg_norm : embedding -> Q.
Variables np_mean np_std np_min np_max : list Q -> Q.
(** The text of the exception NumPy raises on ragged rows. *)
Variable np_shape_error : string.

(** [Validator._cosine_similarity] *)
Definition _cosine_similarity (vec1 vec2 : embedding) : Q :=
  let dot_product :=
    sum (map (fun ab => (fst ab * snd ab)%Q) (zip vec1 vec2)) in
  let magnitude1 := pow_half (sum (map (fun a => (a * a)%Q) vec1)) in
  let magnitude2 := pow_half (sum (map (fun b => (b * b)%Q) vec2)) in
  if Qeq_bool magnitude1 0 || Qeq_bool magnitude2 0 then (0 # 1)
  else (dot_product / (magnitude1 * magnitude2))%Q.

(** [Validator.validate_embedding_quality] *)
Definition validate_embedding_quality (calls : nat)
  (test_texts : list string) : nat * quality_report :=
  match test_texts with
  | [] => (calls, QualityError "No test texts provided")
  | _ =>
      let '(calls', embeddings) :=
        Embedder.embed_texts client_embed cfg calls test_texts in
      let got := match embeddings with Some l => length l | None => O end in
      if (got =? 0)%nat || negb (got =? length test_texts)%nat then
        (calls',
         QualityError ("Mismatch in embeddings count: expected "
                       ++ pretty (length test_texts) ++ ", got "
                       ++ pretty got))
      else
        let embeddings := default [] embeddings in
        match shape_1 embeddings with
        | None => (calls', QualityError np_shape_error)
        | Some dimensions =>
            let norms := map np_linalg_norm embeddings in
            let similarities :=
              map (fun p => _cosine_similarity (fst p) (snd p))
                  (adjacent_pairs embeddings) in
            let stat (f : list Q -> Q) :=
              match similarities with [] => (0 # 1) | _ => f similarities end in
            (calls',
             Quality
               (QualityResults (length embeddings) dimensions
                  (np_mean norms) (np_std norms)
                  (stat np_mean) (stat np_min) (stat np_max)
                  (dimensions =? 1024)%nat))
        end
  end.

Variable retrieval_report : Type.
(** [self.storage.collection_exists()] and [self.storage.count_points()]
    catch every exception; [self.storage.client.scroll(limit=1)[0]]
    does not, the payloads of the records it returns are given with
    [Ok].  [validate_retrieval_accuracy] catches every exception. *)
Variable collection_exists : bool.
Variable count_points : Z.
Variable scroll : result (list (gmap string string)).
Variable validate_retrieval_accuracy :
  nat -> list string -> nat * retrieval_report.
Variable utcnow_isoformat : string.

Record validation_results : Type := ValidationResults {
  timestamp : string;
  v_collection_exists : bool;
  total_points : Z;
  embedding_validation : quality_report;
  retrieval_validation : option retrieval_report;
  v_overall_status : string
}.

Inductive validation_report : Type :=
| Validation (r : validation_results)
| ValidationError (error : string).

Definition overall_status (r : validation_report) : string :=
  match r with
  | Validation v => v_overall_status v
  | ValidationError _ => "error"
  end.

Definition sample_texts : list string :=
  [ "Physical AI and Humanoid Robotics fundamentals";
    "Machine learning applications in robotics";
    "Sensor fusion for robotic perception";
    "Motion planning algorithms for humanoid robots" ].

(** The retrieval self-test at the start of
    [run_comprehensive_validation]: the point count, and the retrieval
    report when a stored sample could be read. *)
Definition retrieval_self_test (calls : nat)
  : result (nat * Z * option retrieval_report) :=
  if collection_exists then
    if 0 <? count_points then
      match scroll with
      | Raise e => Raise e
      | Ok [] => Ok (calls, count_points, None)
      | Ok (sample :: _) =>
          let sample_content := QdrantStorage.payload_get sample "content" in
          if PyStr.is_empty sample_content then
            Ok (calls, count_points, None)
          else
            let '(calls', r) :=
              validate_retrieval_accuracy calls
                [PyStr.prefix 200 sample_content] in
            Ok (calls', count_points, Some r)
      end
    else Ok (calls, count_points, None)
  else Ok (calls, 0, None).

(** [Validator.run_comprehensive_validation] *)
Definition run_comprehensive_validation (calls : nat)
  : nat * validation_report :=
  match retrieval_self_test calls with
  | Raise e =>
      (calls,
       ValidationError
         (match e with
          | ValueError m | ProviderError m | HTTPException _ m => m
          end))
  | Ok (calls1, total, retrieval) =>
      let '(calls2, quality) :=
        validate_embedding_quality calls1 sample_texts in
      (calls2,
       Validation
         (ValidationResults utcnow_isoformat collection_exists total
            quality retrieval
            (if get_is_valid quality then "success" else "failed")))
  end.

End Quality.

Record accuracy_metric : Type := AccuracyMetric {
  query_index : nat;
  am_query : string;
  accuracy : Q;
  top_result_url : string;
  expected_url : string
}.

Record retrieval_results : Type := RetrievalResults {
  query_count : nat;
  successful_retrievals : nat;
  accuracy_metrics : list accuracy_metric;
  average_recall : Q
}.

(** The dictionary returned by [validate_retrieval_accuracy]. *)
Inductive retrieval_report : Type :=
| Retrieval (r : retrieval_results)
| RetrievalError (error : string).

(** The accuracy of one query: 1.0 when the expected URL occurs in the
    URL of the top result, else 1.0 or 0.0 according to whether it occurs
    in the URL of any result. *)
Definition query_accuracy (expected_url : string)
  (similar_chunks : list QdrantStorage.chunk_info) : Q :=
  match similar_chunks with
  | top_result :: _ =>
      if PyStr.contains expected_url (QdrantStorage.ci_url top_result)
      then (1 # 1)
      else if existsb
                (fun chunk =>
                   PyStr.contains expected_url (QdrantStorage.ci_url chunk))
                similar_chunks
           then (1 # 1) else (0 # 1)
  | [] =>
      if existsb
           (fun chunk =>
              PyStr.contains expected_url (QdrantStorage.ci_url chunk))
           similar_chunks
      then (1 # 1) else (0 # 1)
  end.

(** [query[:100] + "..." if len(query) > 100 else query] *)
Definition shorten (query : string) : string :=
  if (100 <? String.length query)%nat
  then (PyStr.prefix 100 query ++ "...")%string else query.

Section Retrieval.

Variable client_embed : nat -> list string -> option (list embedding).
Variable query_points :
  embedding -> Z -> option (list QdrantStorage.ScoredPoint).

(** The loop variables of [validate_retrieval_accuracy]: the request
    counter of the embedder, [results["successful_retrievals"]] and
    [results["accuracy_metrics"]]. *)
Record retrieval_state : Type := RetrievalState {
  rs_calls : nat;
  rs_successful : nat;
  rs_metrics : list accuracy_metric
}.

(** The body of the [for i, query in enumerate(test_queries)] loop. *)
Definition retrieval_body (expected_urls : option (list string))
  (st : retrieval_state) (i : nat) (query : string) : retrieval_state :=
  let '(calls, query_embedding) :=
    Embedder.embed_single_text client_embed (rs_calls st) query in
  match query_embedding with
  | None | Some [] => RetrievalState calls (rs_successful st) (rs_metrics st)
  | Some query_embedding =>
      match QdrantStorage.search_similar query_points query_embedding 5 with
      | [] => RetrievalState calls (rs_successful st) (rs_metrics st)
      | similar_chunks =>
          let metrics :=
            match expected_urls with
            | Some ((_ :: _) as expected) =>
                match nth_error expected i with
                | Some expected_url =>
                    (rs_metrics st
                     ++ [AccuracyMetric i (shorten query)
                           (query_accuracy expected_url similar_chunks)
                           (match similar_chunks with
                            | top :: _ => QdrantStorage.ci_url top
                            | [] => ""
                            end)
                           expected_url])%list
                | None => rs_metrics st
                end
            | _ => rs_metrics st
            end in
          RetrievalState calls (S (rs_successful st)) metrics
      end
  end.

Fixpoint retrieval_loop (expected_urls : option (list string))
  (st : retrieval_state) (i : nat) (queries : list string)
  : retrieval_state :=
  match queries with
  | [] => st
  | query :: rest =>
      retrieval_loop expected_urls
        (retrieval_body expected_urls st i query) (S i) rest
  end.

(** [Validator.validate_retrieval_accuracy], threading the request
    counter of the embedder. *)
Definition validate_retrieval_accuracy (calls : nat)
  (test_queries : list string) (expected_urls : option (list string))
  : nat * retrieval_report :=
  match test_queries with
  | [] => (calls, RetrievalError "No test queries provided")
  | _ =>
      let st :=
        retrieval_loop expected_urls (RetrievalState calls 0 []) 0
          test_queries in
      let metrics := rs_metrics st in
      (rs_calls st,
       Retrieval
         (RetrievalResults (length test_queries) (rs_successful st) metrics
            (match metrics with
             | [] => (0 # 1)
             | _ =>
                 (sum (map accuracy metrics)
                  / inject_Z (Z.of_nat (length metrics)))%Q
             end)))
  end.

End Retrieval.

End Validator.

(* ===================================================================== *)
(** ** [main.py] *)
(* ===================================================================== *)

Module BookEmbeddingPipeline.

(** The state a run of the pipeline mutates: [self.processed_content],
    the vector database behind [self.storage], and the number of
    requests [self.embedder] has sent. *)
Record state : Type := State {
  processed_content : gset string;
  storage : QdrantStorage.client;
  embed_calls : nat
}.

Section Pipeline.

Variable md5_hexdigest : string -> string.
Variable utcnow_isoformat : nat -> string.
Variable uuid5_dns : string -> string.
Variable upsert_error : nat -> option string.
Variable client_embed : nat -> list string -> option (list embedding).
Variable cfg : Config.t.
(** [TextExtractor.extract_text_from_url]: [(title, content,
    hierarchy_path)]; it catches every exception. *)
Variable extract_text_from_url :
  string -> option string * option string * option string.

Definition _generate_content_id (url content : string) : string :=
  "content_"
  ++ PyStr.prefix 12 (md5_hexdigest (url ++ PyStr.prefix 100 content)).

Definition _has_been_processed (st : state) (content_id : string) : bool :=
  bool_decide (content_id ∈ processed_content st).

Definition _mark_as_processed (st : state) (content_id : string) : state :=
  State ({[content_id]} ∪ processed_content st) (storage st)
    (embed_calls st).

(** The loop [for chunk, embedding in zip(chunks, embeddings)] of
    [process_single_url]: stops at the first upsert that raises. *)
Fixpoint save_all (c : QdrantStorage.client)
  (pairs : list (ContentChunk.t * embedding))
  : result unit * QdrantStorage.client :=
  match pairs with
  | [] => (Ok tt, c)
  | (chunk, e) :: rest =>
      match QdrantStorage.save_chunk_to_qdrant uuid5_dns upsert_error
              c chunk e with
      | (Ok _, c') => save_all c' rest
      | (Raise err, c') => (Raise err, c')
      end
  end.

(** [BookEmbeddingPipeline.process_single_url]; [None] when the
    chunking loop is still running after [fuel] passes. *)
Definition process_single_url (fuel : nat) (st : state) (url : string)
  : option (bool * state) :=
  let '(title, content, hierarchy_path) := extract_text_from_url url in
  match content with
  | None => Some (false, st)
  | Some content =>
      if PyStr.is_empty content then Some (false, st)
      else
        let content_id := _generate_content_id url content in
        if _has_been_processed st content_id then Some (true, st)
        else
          match TextChunker.chunk_text md5_hexdigest utcnow_isoformat cfg
                  content_id url title hierarchy_path fuel content with
          | None => None
          | Some [] => Some (false, st)
          | Some chunks =>
              let chunk_texts := map ContentChunk.chunk_text chunks in
              let '(calls, embeddings) :=
                Embedder.embed_texts client_embed cfg (embed_calls st)
                  chunk_texts in
              let st1 := State (processed_content st) (storage st) calls in
              match embeddings with
              | None => Some (false, st1)
              | Some embeddings =>
                  if (length embeddings =? 0)%nat
                     || negb (length embeddings =? length chunks)%nat then
                    Some (false, st1)
                  else
                    match save_all (storage st) (zip chunks embeddings) with
                    | (Raise _, c) =>
                        Some (false, State (processed_content st) c calls)
                    | (Ok _, c) =>
                        Some (true,
                              _mark_as_processed
                                (State (processed_content st) c calls)
                                content_id)
                    end
              end
          end
  end.

(** The [for i, url in enumerate(urls)] loop of [run_pipeline], with its
    counters [processed_count] and [failed_count].  The [time.sleep]
    after each URL is outside any [try]: a negative [RATE_LIMIT_DELAY]
    ends the run with its [ValueError]. *)
Fixpoint process_urls (fuel : nat) (st : state) (urls : list string)
  (processed_count failed_count : nat)
  : option (result (nat * nat) * state) :=
  match urls with
  | [] => Some (Ok (processed_count, failed_count), st)
  | url :: rest =>
      match process_single_url fuel st url with
      | None => None
      | Some (success, st') =>
          let '(processed_count', failed_count') :=
            if success then (S processed_count, failed_count)
            else (processed_count, S failed_count) in
          if sleep_returns (Config.RATE_LIMIT_DELAY cfg) then
            process_urls fuel st' rest processed_count' failed_count'
          else
            Some (Raise (ValueError "sleep length must be non-negative"),
                  st')
      end
  end.

(** [success_rate] of the summary of [run_pipeline], before it is
    formatted. *)
Definition success_rate (processed_count failed_count : nat) : Q :=
  let total_processed := (processed_count + failed_count)%nat in
  if (0 <? total_processed)%nat then
    (inject_Z (Z.of_nat processed_count)
     / inject_Z (Z.of_nat total_processed) * (100 # 1))%Q
  else (0 # 1).

End Pipeline.

End BookEmbeddingPipeline.

(* ===================================================================== *)
(** ** [database/neon_logger.py] *)
(* ===================================================================== *)

Module NeonLogger.

(** One entry of the [sources] list of an answer. *)
Record source : Type := Source {
  src_url : string;
  src_section : string;
  src_hierarchy_path : string;
  similarity_score : Q
}.

(** One row of the [conversations] table. *)
Record interaction : Type := Interaction {
  conversation_id : string;
  user_message : string;
  bot_response : string;
  sources : list source;
  user_ip : option string;
  metadata : list (string * string)
}.

(** [self.neon_url], whether [self.pool] is set, the rows of the table
    (oldest first) and the number of [INSERT] statements sent. *)
Record t : Type := mk {
  neon_url : option string;
  pool : bool;
  conversations : list interaction;
  inserts_sent : nat
}.

Definition url_set (l : t) : bool :=
  match neon_url l with
  | Some u => negb (PyStr.is_empty u)
  | None => false
  end.

Section Logger.

(** Whether the database rejects the [INSERT] with the given sequence
    number. *)
Variable insert_fails : nat -> bool.

(** [NeonLogger.log_interaction]: returns [None] in every case; a
    failed insert is logged and swallowed. *)
Definition log_interaction (l : t) (conversation_id user_message
  bot_response : string) (sources : option (list source))
  (user_ip : option string) (metadata : option (list (string * string)))
  : t :=
  if negb (pool l) || negb (url_set l) then l
  else
    let row :=
      Interaction conversation_id user_message bot_response
        (default [] sources) user_ip (default [] metadata) in
    if insert_fails (inserts_sent l) then
      mk (neon_url l) (pool l) (conversations l) (S (inserts_sent l))
    else
      mk (neon_url l) (pool l) (conversations l ++ [row])%list
        (S (inserts_sent l)).

End Logger.

(** One dictionary of the list [get_conversation_history] returns. *)
Record history_entry : Type := HistoryEntry {
  h_conversation_id : string;
  h_user_message : string;
  h_bot_response : string;
  h_timestamp : string;
  h_sources : list source;
  h_metadata : list (string * string)
}.

Section History.

(** The [timestamp] column of the row at the given position of the
    table; the rows are kept in the order of their timestamps. *)
Variable row_timestamp : nat -> string.
(** Whether the database fails the [SELECT] sent after the given number
    of [INSERT] statements. *)
Variable fetch_fails : nat -> bool.

Definition entry_of (position : nat) (row : interaction) : history_entry :=
  HistoryEntry (conversation_id row) (user_message row) (bot_response row)
    (row_timestamp position) (sources row) (metadata row).

(** [NeonLogger.get_conversation_history]: the rows of the conversation,
    newest first, at most [limit] of them; the empty list when logging is
    disabled or the query fails (a negative [LIMIT] is an error). *)
Definition get_conversation_history (l : t) (conversation_id : string)
  (limit : Z) : list history_entry :=
  if negb (pool l) || negb (url_set l) then []
  else if fetch_fails (inserts_sent l) || (limit <? 0) then []
  else
    take (Z.to_nat limit)
      (rev (filter (fun e => h_conversation_id e = conversation_id)
              (imap entry_of (conversations l)))).

End History.

End NeonLogger.

(* ===================================================================== *)
(** ** [api/main.py] *)
(* ===================================================================== *)

Module Api.

Record ChatMessage : Type := Chat {
  message : string;
  conversation_id : option string
}.

Record RAGResponse : Type := RAG {
  query : string;
  answer : string;
  sources : list NeonLogger.source;
  rag_conversation_id : string
}.

(** The module-level [embedder] and [neon_logger] as one request sees
    and leaves them. *)
Record state : Type := State {
  embed_calls : nat;
  neon_logger : NeonLogger.t
}.

Definition no_information : string :=
  "I couldn't find relevant information in the Physical AI Humanoid Robotics book to answer your question.".

Definition nl : string := String "010"%char EmptyString.

Definition prompt (context question : string) : string :=
  nl ++ "        Based on the following context from the Physical AI Humanoid Robotics book, please answer the question."
  ++ nl ++ nl ++ "        Context:" ++ nl ++ "        " ++ context
  ++ nl ++ nl ++ "        Question: " ++ question
  ++ nl ++ nl ++ "        Answer:" ++ nl ++ "        ".

Definition exception_text (e : py_exception) : string :=
  match e with
  | ValueError m | ProviderError m => m
  | HTTPException status detail => pretty status ++ ": " ++ detail
  end.

Section Ask.

Variable client_embed : nat -> list string -> option (list embedding).
Variable query_points :
  embedding -> Z -> option (list QdrantStorage.ScoredPoint).
Variable insert_fails : nat -> bool.
(** [str(uuid.uuid4())], [co.chat(...).text] and
    [datetime.now().isoformat()]. *)
Variable uuid4 : string.
Variable cohere_chat : string -> result string.
Variable now_isoformat : string.

(** The body of the [try] block of [ask_question].  [client_host] is
    [request.client.host if request.client else None]. *)
Definition ask_question_try (st : state) (client_host : option string)
  (chat_message : ChatMessage) : result RAGResponse * state :=
  let conversation_id :=
    match conversation_id chat_message with
    | Some c => if PyStr.is_empty c then uuid4 else c
    | None => uuid4
    end in
  let '(calls, query_embedding) :=
    Embedder.embed_single_text client_embed (embed_calls st)
      (message chat_message) in
  match query_embedding with
  | None | Some [] =>
      (Raise (HTTPException 500 "Failed to generate query embedding"),
       State calls (neon_logger st))
  | Some query_embedding =>
      let similar_chunks :=
        QdrantStorage.search_similar query_points query_embedding 5 in
      match similar_chunks with
      | [] =>
          let response :=
            RAG (message chat_message) no_information [] conversation_id in
          let logger :=
            NeonLogger.log_interaction insert_fails (neon_logger st)
              conversation_id (message chat_message) (answer response)
              (Some []) client_host None in
          (Ok response, State calls logger)
      | _ =>
          let used :=
            filter (fun c => PyStr.is_empty (QdrantStorage.ci_content c) = false)
                   similar_chunks in
          let context_parts := map QdrantStorage.ci_content used in
          let sources :=
            map (fun c =>
                   NeonLogger.Source (QdrantStorage.ci_url c)
                     (QdrantStorage.ci_section c)
                     (QdrantStorage.ci_hierarchy_path c)
                     (QdrantStorage.ci_score c)) used in
          let context := PyStr.join (nl ++ nl) context_parts in
          match cohere_chat (prompt context (message chat_message)) with
          | Raise e => (Raise e, State calls (neon_logger st))
          | Ok text =>
              let answer := PyStr.strip text in
              let rag_response :=
                RAG (message chat_message) answer sources conversation_id in
              let logger :=
                NeonLogger.log_interaction insert_fails (neon_logger st)
                  conversation_id (message chat_message) answer
                  (Some sources) client_host
                  (Some [ ("timestamp", now_isoformat);
                          ("context_length",
                           pretty (String.length context));
                          ("source_count", pretty (length sources)) ]) in
              (Ok rag_response, State calls logger)
          end
      end
  end.

(** [ask_question]: any exception of the [try] block becomes an
    [HTTPException] with status 500. *)
Definition ask_question (st : state) (client_host : option string)
  (chat_message : ChatMessage) : result RAGResponse * state :=
  match ask_question_try st client_host chat_message with
  | (Ok r, st') => (Ok r, st')
  | (Raise e, st') =>
      (Raise (HTTPException 500
                ("Error processing query: " ++ exception_text e)), st')
  end.

End Ask.

End Api.

(* ===================================================================== *)
(** ** [utils/url_manager.py] *)
(* ===================================================================== *)

Module URLManager.

Definition excluded_patterns : list string :=
  [ "/tag/"; "/category/"; "/author/"; "/feed"; "/rss";
    ".jpg"; ".jpeg"; ".png"; ".gif"; ".pdf"; ".zip"; ".exe" ].

Definition content_patterns : list string :=
  [ "/docs/"; "/blog/"; "/modules/"; "/research-articles"; "/intro" ].

(** [[p for p in path.strip('/').split('/') if p]] *)
Definition path_parts (path : string) : list string :=
  filter (fun p => PyStr.is_empty p = false)
         (PyStr.split_on "/"%char (PyStr.strip_char "/"%char path)).

Section Manager.

(** [self.target_base_url] and [urlparse(url).path]. *)
Variable target_base_url : string.
Variable url_path : string -> string.

(** [URLManager._is_valid_content_url] *)
Definition _is_valid_content_url (url : string) : bool :=
  if negb (PyStr.startswith url target_base_url) then false
  else if existsb (fun pattern => PyStr.contains pattern (PyStr.lower url))
            excluded_patterns then false
  else
    let has_content_pattern :=
      existsb (fun pattern => PyStr.contains pattern url) content_patterns in
    if negb has_content_pattern
       && (length (path_parts (url_path url)) =? 0)%nat
    then false else true.

(** [requests.get(url)] followed by the [href] of every link of the page,
    joined to [url] with [urljoin]; [None] when the request or the parse
    raises, the empty list when the status is not 200. *)
Variable page_links : string -> option (list string).

(** The state of the [while] loop of [crawl_for_urls]:
    [self.visited_urls], [urls] (a set, kept here in insertion order) and
    [to_crawl]. *)
Record crawl_state : Type := CrawlState {
  visited_urls : list string;
  urls : list string;
  to_crawl : list string
}.

Definition mem (x : string) (l : list string) : bool :=
  existsb (String.eqb x) l.

(** The [for link in soup.find_all('a', href=True)] loop, with its
    [break]. *)
Fixpoint scan_links (max_urls : Z) (links : list string)
  (urls to_crawl : list string) : list string * list string :=
  match links with
  | [] => (urls, to_crawl)
  | full_url :: rest =>
      let '(urls', to_crawl') :=
        if PyStr.startswith full_url target_base_url
           && _is_valid_content_url full_url
           && negb (mem full_url urls)
        then ((urls ++ [full_url])%list, (to_crawl ++ [full_url])%list)
        else (urls, to_crawl) in
      if max_urls <=? Z.of_nat (length urls') then (urls', to_crawl')
      else scan_links max_urls rest urls' to_crawl'
  end.

(** One pass through the body of the [while] loop, entered with
    [to_crawl = current_url :: rest]. *)
Definition crawl_body (max_urls : Z) (st : crawl_state)
  (current_url : string) (rest : list string) : crawl_state :=
  if mem current_url (visited_urls st)
     || negb (PyStr.startswith current_url target_base_url)
  then CrawlState (visited_urls st) (urls st) rest
  else
    let visited := (visited_urls st ++ [current_url])%list in
    match page_links current_url with
    | None => CrawlState visited (urls st) rest
    | Some links =>
        let '(urls', to_crawl') := scan_links max_urls links (urls st) rest in
        CrawlState visited urls' to_crawl'
    end.

Fixpoint crawl_loop (fuel : nat) (max_urls : Z) (st : crawl_state)
  : option crawl_state :=
  match to_crawl st with
  | [] => Some st
  | current_url :: rest =>
      if Z.of_nat (length (urls st)) <? max_urls then
        match fuel with
        | O => None
        | S fuel' =>
            crawl_loop fuel' max_urls (crawl_body max_urls st current_url rest)
        end
      else Some st
  end.

(** [URLManager.crawl_for_urls]: the URLs found, and [self.visited_urls]
    afterwards; [None] when the loop is still running after [fuel]
    passes.  The order of the list returned is the order of discovery,
    where Python returns the elements of a set in no particular order. *)
Definition crawl_for_urls (fuel : nat) (visited : list string)
  (start_url : string) (max_urls : Z)
  : option (list string * list string) :=
  match crawl_loop fuel max_urls (CrawlState visited [] [start_url]) with
  | Some st => Some (urls st, visited_urls st)
  | None => None
  end.

(** [URLManager.get_all_urls], given what [get_urls_from_sitemap]
    returns for the configured sitemap and the order in which
    [list(set(...))] lists a set.  The crawl, from the base URL and for
    at most 100 URLs, only runs when the sitemap has fewer than 10. *)
Variable list_of_set : list string -> list string.

Definition get_all_urls (fuel : nat) (visited : list string)
  (sitemap_urls : list string) : option (list string * list string) :=
  if (length sitemap_urls <? 10)%nat then
    match crawl_for_urls fuel visited target_base_url 100 with
    | None => None
    | Some (crawled_urls, visited') =>
        Some (List.filter _is_valid_content_url
                (list_of_set (sitemap_urls ++ crawled_urls)%list),
              visited')
    end
  else Some (List.filter _is_valid_content_url sitemap_urls, visited).

End Manager.

End URLManager.

(* ===================================================================== *)
(** ** [utils/text_extractor.py] *)
(* ===================================================================== *)

Module TextExtractor.

Section Extractor.

(** [urlparse(url).path] *)
Variable url_path : string -> string.

(** [TextExtractor._get_hierarchy_path] *)
Definition _get_hierarchy_path (url : string) : string :=
  let path_parts := URLManager.path_parts (url_path url) in
  if (1 <? length path_parts)%nat then
    PyStr.join "/" (take (length path_parts - 1) path_parts)
  else match path_parts with
       | [part] => part
       | _ => "root"
       end.

End Extractor.

End TextExtractor.

(* ===================================================================== *)
(** * Specification predicates and concrete scenarios *)
(* ===================================================================== *)

(** A word as [str.split] produces it: not empty and free of white space. *)
Fixpoint no_space (s : string) : Prop :=
  match s with
  | EmptyString => True
  | String c s' => PyStr.is_space c = false /\ no_space s'
  end.

Definition is_token (w : string) : Prop := w <> EmptyString /\ no_space w.

(** What every chunk of a returned list satisfies. *)
Definition chunk_ok (content_id url : string)
  (section_title hierarchy_path : option string) (c : ContentChunk.t) : Prop :=
  PyStr.strip (ContentChunk.chunk_text c) <> EmptyString
  /\ ContentChunk.token_count c
     = length (PyStr.split (ContentChunk.chunk_text c))
  /\ (1 <= ContentChunk.token_count c)%nat
  /\ ContentChunk.content_id c = content_id
  /\ ContentChunk.url c = url
  /\ ContentChunk.section_title c = section_title
  /\ ContentChunk.hierarchy_path c = hierarchy_path.

Definition chunk_list_ok (content_id url : string)
  (section_title hierarchy_path : option string)
  (cs : list ContentChunk.t) : Prop :=
  map ContentChunk.chunk_index cs = seq 0 (length cs)
  /\ Forall (chunk_ok content_id url section_title hierarchy_path) cs.

Definition state_ok (content_id url : string)
  (section_title hierarchy_path : option string)
  (st : TextChunker.loop_state) : Prop :=
  TextChunker.chunk_index st = length (TextChunker.chunks st)
  /\ chunk_list_ok content_id url section_title hierarchy_path
       (TextChunker.chunks st).

(** Stand-ins for the hash and the clock in the concrete scenarios. *)
Definition demo_md5 (s : string) : string :=
  "9e107d9d372bb6826bd81d3542a419d6".
Definition demo_clock (n : nat) : string := "2024-01-01T00:00:00".

(** [chunkSize = 2] with [overlap = 0.5], and with [overlap = 0.25]. *)
Definition cfg_half : Config.t := Config.mk 2 (1 # 2) (1 # 1).
Definition cfg_quarter : Config.t := Config.mk 2 (1 # 4) (1 # 1).

Definition abcd : string := "A. B. C. D.".

(** The batches [embed_texts] sends: the slices
    [texts[i:i + max_batch_size]] for [i] in
    [range(0, len(texts), max_batch_size)]. *)
Definition batches_of (step : nat) (texts : list string) : list (list string) :=
  map (fun i => PyList.slice texts (Z.of_nat i) (Z.of_nat i + Z.of_nat step))
      (Embedder.py_range (length texts) step).

(** What became of each text of a failed batch: the vector of its own
    retry, or [None] when the retry failed too.  [calls] is the sequence
    number of the first retry. *)
Fixpoint retry_outcomes (client_embed : nat -> list string -> option (list embedding))
  (calls : nat) (batch : list string) : list (option embedding) :=
  match batch with
  | [] => []
  | text :: rest =>
      match client_embed calls [text] with
      | Some (e :: _) => Some e
      | _ => None
      end :: retry_outcomes client_embed (S calls) rest
  end.

(** What became of each text, batch after batch: the vector at its
    position in the answer to its batch, or its retry outcome when the
    batch request failed. *)
Fixpoint embed_outcomes (client_embed : nat -> list string -> option (list embedding))
  (calls : nat) (batches : list (list string)) : list (option embedding) :=
  match batches with
  | [] => []
  | batch :: rest =>
      match client_embed calls batch with
      | Some vectors =>
          (map Some vectors ++ embed_outcomes client_embed (S calls) rest)%list
      | None =>
          (retry_outcomes client_embed (S calls) batch
           ++ embed_outcomes client_embed (S calls + length batch) rest)%list
      end
  end.

(** The provider answers a request it accepts with one vector per text. *)
Definition one_vector_per_text
  (client_embed : nat -> list string -> option (list embedding)) : Prop :=
  forall calls texts vectors,
    client_embed calls texts = Some vectors -> length vectors = length texts.

(** A provider that rejects every request of more than one text and the
    text "bad", and answers any other text with a vector that records the
    length of the text. *)
Definition demo_client (calls : nat) (texts : list string)
  : option (list embedding) :=
  match texts with
  | [text] =>
      if String.eqb text "bad" then None
      else Some [[inject_Z (Z.of_nat (String.length text)); 1 # 1]]
  | _ => None
  end.

(** A provider that answers every request with 768-dimensional vectors. *)
Definition client_768 (calls : nat) (texts : list string)
  : option (list embedding) :=
  Some (map (fun _ => repeat (0 # 1) 768) texts).

(** The three chunks of "A. B. C. D." under [cfg_quarter]. *)
Definition abcd_chunks : list ContentChunk.t :=
  Eval vm_compute in
    default []
      (TextChunker.chunk_text demo_md5 demo_clock cfg_quarter "content_9e107d9d372b"
         "https://example.org/docs/intro" (Some "Intro") (Some "docs") 4 abcd).

(** Stand-ins for UUID5 and for a database that accepts every request. *)
Definition demo_uuid5 (name : string) : string := "uuid5:" ++ name.
Definition accept_all (request : nat) : option string := None.

Definition empty_client : QdrantStorage.client := QdrantStorage.Client ∅ [].

(** One sentence per chunk, no overlap. *)
Definition cfg_single : Config.t := Config.mk 1 (0 # 1) (1 # 1).

(** A page whose second sentence the demo provider refuses to embed. *)
Definition demo_page : string := "Good one. bad".
Definition demo_extract (url : string)
  : option string * option string * option string :=
  (Some "Intro", Some demo_page, Some "docs").

Definition demo_page_chunks : list ContentChunk.t :=
  Eval vm_compute in
    default []
      (TextChunker.chunk_text demo_md5 demo_clock cfg_single
         (BookEmbeddingPipeline._generate_content_id demo_md5
            "https://example.org/docs/intro" demo_page)
         "https://example.org/docs/intro" (Some "Intro") (Some "docs") 2
         demo_page).

Definition fresh_pipeline : BookEmbeddingPipeline.state :=
  BookEmbeddingPipeline.State ∅ empty_client 0.

(** The configuration defaults of [config.py]. *)
Definition cfg_default : Config.t := Config.mk 512 (1 # 10) (1 # 1).

(** An empty collection for the validator to probe, and stand-ins for the
    parts of the validation run that do not touch the embeddings. *)
Definition no_retrieval_test (calls : nat) (queries : list string)
  : nat * unit := (calls, tt).


(** A chunk, and the same chunk (same text, content id and index, hence
    same id) created again later. *)
Definition demo_chunk : ContentChunk.t :=
  ContentChunk.mk "content_9e107d9d372b_chunk_9e107d9d_0"
    "content_9e107d9d372b" "A. B." 0 2 (Some "Intro") (Some "docs") 1
    "2024-01-01T00:00:00" "https://example.org/docs/intro".
Definition demo_chunk_again : ContentChunk.t :=
  ContentChunk.mk "content_9e107d9d372b_chunk_9e107d9d_0"
    "content_9e107d9d372b" "A. B." 0 2 (Some "Intro") (Some "docs") 1
    "2024-06-30T12:00:00" "https://example.org/docs/intro".



(** A text that begins with a character other than white space. *)
Definition starts_with_text (s : string) : Prop :=
  match s with
  | EmptyString => False
  | String c _ => PyStr.is_space c = false
  end.

(** The text of the chunk cut from the sentence window [start, stop). *)
Definition window_text (sentences : list string) (w : Z * Z) : string :=
  PyStr.strip (PyStr.join " " (PyList.slice sentences (fst w) (snd w))).

(** The sentence windows of the chunks the loop of [chunk_text] emits
    from [start] on; the loop with the chunk records left out. *)
Fixpoint chunk_windows (cfg : Config.t) (fuel : nat) (sentences : list string)
  (start : Z) : option (list (Z * Z)) :=
  let len := Z.of_nat (length sentences) in
  if start <? len then
    match fuel with
    | O => None
    | S fuel' =>
        let current_end := Z.min (start + Config.CHUNK_SIZE cfg) len in
        if PyStr.is_empty (window_text sentences (start, current_end)) then
          chunk_windows cfg fuel' sentences current_end
        else
          option_map (cons (start, current_end))
            (chunk_windows cfg fuel' sentences
               (if current_end <? len
                then current_end - TextChunker.overlap_sentences cfg sentences
                else current_end))
    end
  else Some [].

(** The part of each window that the window before it did not reach;
    [covered] is where the window before ended. *)
Fixpoint fresh_portions (sentences : list string) (covered : Z)
  (windows : list (Z * Z)) : list (list string) :=
  match windows with
  | [] => []
  | (start, stop) :: rest =>
      PyList.slice sentences (Z.max start covered) stop
      :: fresh_portions sentences stop rest
  end.

(** The overlap recorded in a loop state of [chunk_text]: within bounds
    for every chunk, and zero for the last one unless the loop has more
    to do. *)
Definition overlap_recorded (cfg : Config.t) (sentences : list string)
  (st : TextChunker.loop_state) : Prop :=
  Forall (fun c =>
            0 <= ContentChunk.overlap_with_next c
            <= TextChunker.overlap_sentences cfg sentences)
    (TextChunker.chunks st)
  /\ forall c,
       last (TextChunker.chunks st) = Some c ->
       ContentChunk.overlap_with_next c = 0
       \/ TextChunker.current_start st < Z.of_nat (length sentences).

(** [overlap_words = int(words_per_chunk * self.overlap)] *)
Definition overlap_words (cfg : Config.t) : Z :=
  PyList.int_of_float
    (inject_Z (Config.CHUNK_SIZE cfg) * Config.CHUNK_OVERLAP cfg)%Q.

(** The word windows of the chunks the loop of
    [chunk_with_sliding_window] emits from [start] on. *)
Fixpoint word_windows (cfg : Config.t) (fuel : nat) (words : list string)
  (start : Z) : option (list (Z * Z)) :=
  let len := Z.of_nat (length words) in
  if start <? len then
    match fuel with
    | O => None
    | S fuel' =>
        let end_idx := Z.min (start + Config.CHUNK_SIZE cfg) len in
        if PyStr.is_empty (window_text words (start, end_idx)) then
          word_windows cfg fuel' words end_idx
        else
          option_map (cons (start, end_idx))
            (word_windows cfg fuel' words
               (if end_idx <? len then end_idx - overlap_words cfg
                else end_idx))
    end
  else Some [].

(** What every entry of [accuracy_metrics] satisfies after the first [n]
    queries: its accuracy is 0 or 1, it is 1 when the URL of the top
    result contains the expected URL, and it belongs to one of those
    queries. *)
Definition metric_ok (n : nat) (m : Validator.accuracy_metric) : Prop :=
  (Validator.accuracy m = (0 # 1) \/ Validator.accuracy m = (1 # 1))
  /\ (Validator.query_index m < n)%nat
  /\ (PyStr.contains (Validator.expected_url m) (Validator.top_result_url m)
      = true -> Validator.accuracy m = (1 # 1)).

Definition retrieval_ok (n : nat) (st : Validator.retrieval_state) : Prop :=
  (Validator.rs_successful st <= n)%nat
  /\ (length (Validator.rs_metrics st) <= Validator.rs_successful st)%nat
  /\ Forall (metric_ok n) (Validator.rs_metrics st).

(** What the set [urls] of [crawl_for_urls] satisfies throughout the
    crawl: no URL twice (it is a set), only valid content URLs, and at
    most [max_urls] of them. *)
Definition crawl_ok (target_base_url : string) (url_path : string -> string)
  (max_urls : Z) (found : list string) : Prop :=
  NoDup found
  /\ Forall (fun u =>
               URLManager._is_valid_content_url target_base_url url_path u
               = true) found
  /\ (length found <= Z.to_nat max_urls)%nat.

(** What is left of a crawl: the URLs waiting in [to_crawl] plus the
    room left in [urls]. *)
Definition crawl_measure (max_urls : Z) (st : URLManager.crawl_state) : nat :=
  (length (URLManager.to_crawl st)
   + (Z.to_nat max_urls - length (URLManager.urls st)))%nat.

(** A URL as [get_all_urls] promises it: under the base URL and free of
    the excluded patterns, whatever the case of its letters. *)
Definition content_url (target_base_url url : string) : Prop :=
  PyStr.startswith url target_base_url = true
  /\ Forall (fun pattern => PyStr.contains pattern (PyStr.lower url) = false)
       URLManager.excluded_patterns.

(** A provider that accepts every request and answers each text with a
    vector that records the length of the text. *)
Definition accepting_client (calls : nat) (texts : list string)
  : option (list embedding) :=
  Some (map (fun text => [inject_Z (Z.of_nat (String.length text)); 1 # 1])
          texts).

(** The pipeline after it has processed the demo page with the accepting
    provider. *)
Definition processed_pipeline : BookEmbeddingPipeline.state :=
  Eval vm_compute in
    match BookEmbeddingPipeline.process_single_url demo_md5 demo_clock
            demo_uuid5 accept_all accepting_client cfg_single demo_extract 2
            fresh_pipeline "https://example.org/docs/intro" with
    | Some (_, st) => st
    | None => fresh_pipeline
    end.

(** A configuration whose [RATE_LIMIT_DELAY] is negative. *)
Definition cfg_negative_delay : Config.t := Config.mk 1 (0 # 1) (-1 # 1).

(** The pipeline after the demo page under [cfg_negative_delay]. *)
Definition hurried_pipeline : BookEmbeddingPipeline.state :=
  Eval vm_compute in
    match BookEmbeddingPipeline.process_single_url demo_md5 demo_clock
            demo_uuid5 accept_all accepting_client cfg_negative_delay
            demo_extract 2 fresh_pipeline "https://example.org/docs/intro" with
    | Some (_, st) => st
    | None => fresh_pipeline
    end.

(** A search that always finds the one point of the introduction, and
    the report of a retrieval check against it. *)
Definition demo_search (query : embedding) (limit : Z)
  : option (list QdrantStorage.ScoredPoint) :=
  Some [QdrantStorage.Scored "point-1" (9 # 10)
          (<["url" := "https://example.org/docs/intro"]>
             (<["content" := "A. B."]> ∅))].

Definition demo_retrieval : Validator.retrieval_results :=
  Eval vm_compute in
    match Validator.validate_retrieval_accuracy accepting_client demo_search 0
            ["what is A?"; "what is B?"] (Some ["/docs/intro"; "/docs/setup"])
    with
    | (_, Validator.Retrieval r) => r
    | (_, Validator.RetrievalError _) => Validator.RetrievalResults 0 0 [] (0 # 1)
    end.

(** A site of three pages: the base page links to the introduction
    (twice), to an image and to another site; the introduction links
    back to the base page and on to the set-up page, which cannot be
    fetched. *)
Definition demo_base : string := "https://example.org".
Definition demo_url_path (url : string) : string :=
  substring (String.length demo_base) (String.length url) url.
Definition demo_links (url : string) : option (list string) :=
  if String.eqb url demo_base then
    Some [ "https://example.org/docs/intro"; "https://example.org/docs/intro";
           "https://example.org/logo.png"; "https://other.org/docs/x" ]
  else if String.eqb url "https://example.org/docs/intro" then
    Some [ demo_base; "https://example.org/docs/setup" ]
  else None.

(* ===================================================================== *)
(** * Facts about the string primitives *)
(* ===================================================================== *)

Section StringFacts.

Lemma lstrip_head s c r :
  PyStr.lstrip s = String c r -> PyStr.is_space c = false.
Proof.
  induction s as [|a s IH]; simpl; [discriminate|].
  destruct (PyStr.is_space a) eqn:Ha; [exact IH|].
  intros [= <- _]. exact Ha.
Qed.

Lemma rstrip_cons_nonspace c r :
  PyStr.is_space c = false ->
  PyStr.rstrip (String c r) = String c (PyStr.rstrip r).
Proof. intros H. simpl. rewrite H, andb_false_r. reflexivity. Qed.

Lemma strip_head s c r :
  PyStr.strip s = String c r -> PyStr.is_space c = false.
Proof.
  unfold PyStr.strip. destruct (PyStr.lstrip s) as [|a l] eqn:E.
  - simpl. discriminate.
  - pose proof (lstrip_head _ _ _ E) as Ha.
    rewrite (rstrip_cons_nonspace _ _ Ha). intros [= <- _]. exact Ha.
Qed.

Lemma strip_cons_nonspace c r :
  PyStr.is_space c = false ->
  PyStr.strip (String c r) = String c (PyStr.rstrip r).
Proof.
  intros H. unfold PyStr.strip. cbn [PyStr.lstrip]. rewrite H.
  apply rstrip_cons_nonspace, H.
Qed.

Lemma split_cons_nonspace c r :
  PyStr.is_space c = false -> PyStr.split (String c r) <> [].
Proof.
  intros H. cbn [PyStr.split]. rewrite H.
  destruct r as [|a r]; [discriminate|].
  destruct (PyStr.is_space a); [discriminate|].
  destruct (PyStr.split (String a r)); discriminate.
Qed.

(** A stripped text that is not empty stays so when stripped again, and
    splits into at least one word. *)
Lemma stripped_nonempty s :
  PyStr.strip s <> EmptyString ->
  PyStr.strip (PyStr.strip s) <> EmptyString
  /\ (1 <= length (PyStr.split (PyStr.strip s)))%nat.
Proof.
  intros H. destruct (PyStr.strip s) as [|c r] eqn:E; [congruence|].
  pose proof (strip_head _ _ _ E) as Hc. split.
  - rewrite (strip_cons_nonspace _ _ Hc). discriminate.
  - pose proof (split_cons_nonspace c r Hc).
    destruct (PyStr.split (String c r)); [congruence|simpl; lia].
Qed.

(** The defining equations of [split], one per shape of the input. *)
Lemma split_space c s :
  PyStr.is_space c = true -> PyStr.split (String c s) = PyStr.split s.
Proof. intros H. cbn [PyStr.split]. rewrite H. reflexivity. Qed.

Lemma split_last c :
  PyStr.is_space c = false ->
  PyStr.split (String c EmptyString) = [String c EmptyString].
Proof. intros H. cbn [PyStr.split]. rewrite H. reflexivity. Qed.

Lemma split_before_space c c' s :
  PyStr.is_space c = false -> PyStr.is_space c' = true ->
  PyStr.split (String c (String c' s)) = String c EmptyString :: PyStr.split s.
Proof. intros H H'. cbn [PyStr.split]. rewrite H, H'. reflexivity. Qed.

Lemma split_before_char c c' s :
  PyStr.is_space c = false -> PyStr.is_space c' = false ->
  PyStr.split (String c (String c' s))
  = match PyStr.split (String c' s) with
    | w :: ws => String c w :: ws
    | [] => [String c EmptyString]
    end.
Proof.
  intros H H'. change (PyStr.split (String c (String c' s)))
    with (if PyStr.is_space c then PyStr.split (String c' s)
          else if PyStr.is_space c'
               then String c EmptyString :: PyStr.split (String c' s)
               else match PyStr.split (String c' s) with
                    | w :: ws => String c w :: ws
                    | [] => [String c EmptyString]
                    end).
  rewrite H, H'. reflexivity.
Qed.

Lemma split_tokens s : Forall is_token (PyStr.split s).
Proof.
  induction s as [|c s IH]; [constructor|].
  destruct (PyStr.is_space c) eqn:Hc.
  - rewrite (split_space _ _ Hc). exact IH.
  - destruct s as [|c' s0].
    + rewrite (split_last _ Hc). repeat constructor; [discriminate|exact Hc].
    + destruct (PyStr.is_space c') eqn:Hc'.
      * rewrite (split_before_space _ _ _ Hc Hc').
        rewrite (split_space _ _ Hc') in IH.
        constructor; [|exact IH]. repeat constructor; [discriminate|exact Hc].
      * rewrite (split_before_char _ _ _ Hc Hc').
        destruct (PyStr.split (String c' s0)) as [|w ws].
        -- repeat constructor; [discriminate|exact Hc].
        -- inversion IH as [|? ? [_ Hw] Hws]; subst.
           constructor; [|exact Hws]. split; [discriminate|].
           split; [exact Hc|exact Hw].
Qed.

Lemma split_token w : is_token w -> PyStr.split w = [w].
Proof.
  intros [Hne Hw]. induction w as [|c w IH]; [congruence|].
  destruct Hw as [Hc Hw]. destruct w as [|c' w0].
  - apply split_last, Hc.
  - destruct Hw as [Hc' Hw0].
    rewrite (split_before_char _ _ _ Hc Hc').
    rewrite IH; [reflexivity|discriminate|split; assumption].
Qed.

Lemma split_token_space w s :
  is_token w ->
  PyStr.split (w ++ String " "%char s) = w :: PyStr.split s.
Proof.
  intros [Hne Hw]. induction w as [|c w IH]; [congruence|].
  destruct Hw as [Hc Hw]. destruct w as [|c' w0].
  - apply (split_before_space c " "%char s); [exact Hc|reflexivity].
  - destruct Hw as [Hc' Hw0].
    change (PyStr.split (String c (String c' w0 ++ String " "%char s))
            = String c (String c' w0) :: PyStr.split s).
    change (String c' w0 ++ String " "%char s)
      with (String c' (w0 ++ String " "%char s)) in *.
    rewrite (split_before_char _ _ _ Hc Hc').
    rewrite IH; [reflexivity|discriminate|split; assumption].
Qed.

(** Joining words with single spaces and splitting again gives the
    words back. *)
Lemma split_join ws :
  Forall is_token ws -> PyStr.split (PyStr.join " " ws) = ws.
Proof.
  unfold PyStr.join. induction 1 as [|w ws Hw Hws IH]; [reflexivity|].
  destruct ws as [|w' ws'].
  - apply split_token, Hw.
  - change (String.concat " " (w :: w' :: ws'))
      with (w ++ String " "%char (String.concat " " (w' :: ws'))).
    rewrite (split_token_space _ _ Hw), IH. reflexivity.
Qed.

Lemma Forall_slice {A} (P : A -> Prop) (l : list A) (a b : Z) :
  Forall P l -> Forall P (PyList.slice l a b).
Proof. intros H. unfold PyList.slice. apply Forall_take, Forall_drop, H. Qed.

End StringFacts.

(* ===================================================================== *)
(** * The chunker *)
(* ===================================================================== *)

Section ChunkerInvariant.

Variable md5_hexdigest : string -> string.
Variable utcnow_isoformat : nat -> string.
Variable cfg : Config.t.
Variables (content_id url : string).
Variables (section_title hierarchy_path : option string).

Local Abbreviation body :=
  (TextChunker.chunk_text_body md5_hexdigest utcnow_isoformat cfg
     content_id url section_title hierarchy_path).
Local Abbreviation loop :=
  (TextChunker.chunk_text_loop md5_hexdigest utcnow_isoformat cfg
     content_id url section_title hierarchy_path).
Local Abbreviation wbody :=
  (TextChunker.sliding_window_body md5_hexdigest utcnow_isoformat cfg
     content_id url section_title hierarchy_path).
Local Abbreviation wloop :=
  (TextChunker.sliding_window_loop md5_hexdigest utcnow_isoformat cfg
     content_id url section_title hierarchy_path).
Local Abbreviation inv :=
  (state_ok content_id url section_title hierarchy_path).
Local Abbreviation good :=
  (chunk_list_ok content_id url section_title hierarchy_path).

Lemma is_empty_false s : PyStr.is_empty s = false -> s <> EmptyString.
Proof. destruct s; [discriminate|discriminate]. Qed.

(** Appending a chunk that carries the running index keeps the list
    well numbered. *)
Lemma state_ok_snoc st c start :
  inv st ->
  ContentChunk.chunk_index c = TextChunker.chunk_index st ->
  chunk_ok content_id url section_title hierarchy_path c ->
  inv (TextChunker.LoopState (TextChunker.chunks st ++ [c])
         (S (TextChunker.chunk_index st)) start).
Proof.
  intros (Hidx & Hseq & Hall) Hc Hok. unfold state_ok, chunk_list_ok.
  cbn [TextChunker.chunks TextChunker.chunk_index].
  rewrite length_app, map_app, seq_app, Hseq.
  cbn [map length seq Nat.add]. rewrite Hc, Hidx.
  repeat split.
  - lia.
  - apply Forall_app. split; [exact Hall|]. constructor; [exact Hok|constructor].
Qed.

Lemma chunk_text_body_ok sentences st : inv st -> inv (body sentences st).
Proof.
  intros Hst. unfold TextChunker.chunk_text_body. cbv zeta.
  destruct (PyStr.is_empty _) eqn:E.
  - exact Hst.
  - apply state_ok_snoc; [exact Hst|reflexivity|].
    apply is_empty_false, stripped_nonempty in E. destruct E as [E1 E2].
    unfold chunk_ok. cbn. repeat split; assumption.
Qed.

Lemma chunk_text_loop_ok fuel sentences : forall st cs,
  inv st -> loop fuel sentences st = Some cs -> good cs.
Proof.
  induction fuel as [|fuel IH]; intros st cs Hst; cbn;
    destruct (_ <? _); try discriminate.
  - intros [= <-]. apply Hst.
  - apply IH, chunk_text_body_ok, Hst.
  - intros [= <-]. apply Hst.
Qed.

Lemma sliding_window_body_ok words st :
  Forall is_token words -> inv st -> inv (wbody words st).
Proof.
  intros Hwords Hst. unfold TextChunker.sliding_window_body. cbv zeta.
  destruct (PyStr.is_empty _) eqn:E.
  - exact Hst.
  - apply state_ok_snoc; [exact Hst|reflexivity|].
    apply is_empty_false in E.
    set (ws := PyList.slice words _ _) in *.
    assert (Hws : Forall is_token ws) by apply Forall_slice, Hwords.
    unfold chunk_ok. cbn. rewrite (split_join _ Hws).
    repeat split; try assumption; try reflexivity.
    destruct ws; [exfalso; apply E; reflexivity|cbn; lia].
Qed.

Lemma sliding_window_loop_ok fuel words : forall st cs,
  Forall is_token words -> inv st ->
  wloop fuel words st = Some cs -> good cs.
Proof.
  induction fuel as [|fuel IH]; intros st cs Hw Hst; cbn;
    destruct (_ <? _); try discriminate.
  - intros [= <-]. apply Hst.
  - apply IH; [exact Hw|]. apply sliding_window_body_ok; assumption.
  - intros [= <-]. apply Hst.
Qed.

Lemma state_ok_init : inv (TextChunker.LoopState [] 0 0).
Proof. repeat split. constructor. Qed.

Lemma chunk_list_ok_nil : good [].
Proof. split; [reflexivity|constructor]. Qed.

(** C10.  Every list returned by [chunk_text] or by
    [chunk_with_sliding_window] numbers its chunks 0, 1, ..., n-1 in
    order; every chunk has a text that is not empty after stripping, a
    token count equal to the number of white-space separated words of
    that text and at least 1, and the content id, url, section title
    and hierarchy path the caller passed. *)
Theorem chunk_lists_well_formed (fuel : nat) (text : string)
  (cs : list ContentChunk.t) :
  TextChunker.chunk_text md5_hexdigest utcnow_isoformat cfg content_id url
    section_title hierarchy_path fuel text = Some cs
  \/ TextChunker.chunk_with_sliding_window md5_hexdigest utcnow_isoformat
       cfg content_id url section_title hierarchy_path fuel text = Some cs ->
  map ContentChunk.chunk_index cs = seq 0 (length cs)
  /\ Forall (fun c =>
               PyStr.strip (ContentChunk.chunk_text c) <> EmptyString
               /\ ContentChunk.token_count c
                  = length (PyStr.split (ContentChunk.chunk_text c))
               /\ (1 <= ContentChunk.token_count c)%nat
               /\ ContentChunk.content_id c = content_id
               /\ ContentChunk.url c = url
               /\ ContentChunk.section_title c = section_title
               /\ ContentChunk.hierarchy_path c = hierarchy_path) cs.
Proof.
  change (_ /\ _) with (good cs).
  unfold TextChunker.chunk_text, TextChunker.chunk_with_sliding_window.
  intros [H|H]; destruct (_ || _).
  - injection H as <-. apply chunk_list_ok_nil.
  - destruct (TextChunker._split_into_sentences text) eqn:E.
    + injection H as <-. apply chunk_list_ok_nil.
    + eapply chunk_text_loop_ok; [apply state_ok_init|exact H].
  - injection H as <-. apply chunk_list_ok_nil.
  - pose proof (split_tokens text) as Hw.
    destruct (PyStr.split text) eqn:E.
    + injection H as <-. apply chunk_list_ok_nil.
    + eapply sliding_window_loop_ok; [exact Hw|apply state_ok_init|exact H].
Qed.

End ChunkerInvariant.

Section ChunkerWindow.

Variable md5_hexdigest : string -> string.
Variable utcnow_isoformat : nat -> string.
Variables (content_id url : string).
Variables (section_title hierarchy_path : option string).

Local Abbreviation body cfg :=
  (TextChunker.chunk_text_body md5_hexdigest utcnow_isoformat cfg
     content_id url section_title hierarchy_path).
Local Abbreviation loop cfg :=
  (TextChunker.chunk_text_loop md5_hexdigest utcnow_isoformat cfg
     content_id url section_title hierarchy_path).




(** On four sentences with [chunkSize = 2] and [overlap = 0.5] a pass
    that starts at 0 emits the first two sentences and starts at 0 again. *)
Lemma half_body_at_zero rate cs idx :
  exists c,
    body (Config.mk 2 (1 # 2) rate) ["A."; "B."; "C."; "D."]
      (TextChunker.LoopState cs idx 0)
    = TextChunker.LoopState (cs ++ [c]) (S idx) 0
    /\ ContentChunk.chunk_text c = "A. B.".
Proof. eexists. split; reflexivity. Qed.

Lemma half_loop_never_returns rate fuel : forall cs idx,
  loop (Config.mk 2 (1 # 2) rate) fuel ["A."; "B."; "C."; "D."]
    (TextChunker.LoopState cs idx 0) = None.
Proof.
  induction fuel as [|fuel IH]; intros cs idx; [reflexivity|].
  destruct (half_body_at_zero rate cs idx) as (c & Hc & _).
  change (loop (Config.mk 2 (1 # 2) rate) (S fuel) ["A."; "B."; "C."; "D."]
            (TextChunker.LoopState cs idx 0))
    with (loop (Config.mk 2 (1 # 2) rate) fuel ["A."; "B."; "C."; "D."]
            (body (Config.mk 2 (1 # 2) rate) ["A."; "B."; "C."; "D."]
               (TextChunker.LoopState cs idx 0))).
  rewrite Hc. apply IH.
Qed.

(** C3 (failing input).  On the text "A. B. C. D." with [chunkSize = 2]
    and [overlap = 0.5] the loop of [chunk_text] is still running after
    any number of passes: no list of chunks is ever returned. *)
Theorem chunk_text_abcd_never_returns rate (fuel : nat) :
  TextChunker.chunk_text md5_hexdigest utcnow_isoformat
    (Config.mk 2 (1 # 2) rate) content_id url section_title hierarchy_path
    fuel "A. B. C. D." = None.
Proof.
  change (loop (Config.mk 2 (1 # 2) rate) fuel ["A."; "B."; "C."; "D."]
            (TextChunker.LoopState [] 0 0) = None).
  apply half_loop_never_returns.
Qed.

(** C8 (failing input).  On the same input every pass of the loop starts
    at sentence 0 again and every chunk emitted so far is "A. B.": the
    sentences "C." and "D." are in no chunk, however long the loop runs. *)
Theorem chunk_text_abcd_never_covers rate (passes : nat) :
  let st :=
    Nat.iter passes
      (body (Config.mk 2 (1 # 2) rate)
         (TextChunker._split_into_sentences "A. B. C. D."))
      (TextChunker.LoopState [] 0 0) in
  TextChunker.current_start st = 0
  /\ length (TextChunker.chunks st) = passes
  /\ Forall (fun c => ContentChunk.chunk_text c = "A. B.")
       (TextChunker.chunks st).
Proof.
  change (TextChunker._split_into_sentences "A. B. C. D.")
    with ["A."; "B."; "C."; "D."].
  cbv zeta. induction passes as [|k IH].
  - repeat split. constructor.
  - rewrite Nat.iter_succ.
    destruct (Nat.iter k _ _) as [cs idx start].
    cbn [TextChunker.current_start TextChunker.chunks] in IH.
    destruct IH as (-> & Hlen & Hall).
    destruct (half_body_at_zero rate cs idx) as (c & -> & Hc).
    cbn [TextChunker.current_start TextChunker.chunks].
    rewrite length_app, Hlen. cbn [length]. repeat split; [lia|].
    apply Forall_app. split; [exact Hall|]. repeat constructor. exact Hc.
Qed.

End ChunkerWindow.

Section ChunkerCoverage.

Variable md5_hexdigest : string -> string.
Variable utcnow_isoformat : nat -> string.
Variable cfg : Config.t.
Variables (content_id url : string).
Variables (section_title hierarchy_path : option string).
Variable sentences : list string.
Hypothesis sentences_ok : Forall starts_with_text sentences.

Local Abbreviation body :=
  (TextChunker.chunk_text_body md5_hexdigest utcnow_isoformat cfg
     content_id url section_title hierarchy_path sentences).
Local Abbreviation loop fuel :=
  (TextChunker.chunk_text_loop md5_hexdigest utcnow_isoformat cfg
     content_id url section_title hierarchy_path fuel sentences).
Local Abbreviation len := (Z.of_nat (length sentences)).
Local Abbreviation size := (Config.CHUNK_SIZE cfg).
Local Abbreviation shared := (TextChunker.overlap_sentences cfg sentences).

Lemma slice_inside (a b : Z) :
  0 <= a -> a <= b -> b <= len ->
  PyList.slice sentences a b
  = take (Z.to_nat (b - a)) (drop (Z.to_nat a) sentences).
Proof.
  intros Ha Hab Hb. unfold PyList.slice, PyList.clamp.
  destruct (Z.ltb_spec a 0); [lia|]. destruct (Z.ltb_spec b 0); [lia|].
  rewrite !Z.min_l by lia. reflexivity.
Qed.

Lemma join_starts_with_text (ws : list string) :
  ws <> [] -> Forall starts_with_text ws ->
  starts_with_text (PyStr.join " " ws).
Proof.
  intros Hne Hall. destruct ws as [|w rest]; [congruence|].
  inversion Hall as [|? ? Hw _]; subst.
  destruct rest as [|w' rest']; [exact Hw|].
  change (PyStr.join " " (w :: w' :: rest'))
    with (w ++ String " "%char (PyStr.join " " (w' :: rest')))%string.
  destruct w; [contradiction|exact Hw].
Qed.

Lemma strip_starts_with_text (s : string) :
  starts_with_text s -> PyStr.is_empty (PyStr.strip s) = false.
Proof.
  destruct s as [|c r]; [contradiction|]. intros H.
  rewrite (strip_cons_nonspace _ _ H). reflexivity.
Qed.

(** A window that holds at least one sentence gives a chunk. *)
Lemma window_text_nonempty (a b : Z) :
  0 <= a -> a < b -> b <= len ->
  PyStr.is_empty (window_text sentences (a, b)) = false.
Proof.
  intros Ha Hab Hb. unfold window_text. cbn [fst snd].
  apply strip_starts_with_text, join_starts_with_text.
  - rewrite slice_inside by lia. intros E.
    apply (f_equal (@length string)) in E.
    rewrite length_take, length_drop in E. cbn in E. lia.
  - apply Forall_slice, sentences_ok.
Qed.

(** The loop and its windows run in step. *)
Lemma loop_windows (fuel : nat) : forall st,
  option_map (map ContentChunk.chunk_text) (loop fuel st)
  = option_map
      (fun ws => map ContentChunk.chunk_text (TextChunker.chunks st)
                 ++ map (window_text sentences) ws)%list
      (chunk_windows cfg fuel sentences (TextChunker.current_start st)).
Proof.
  induction fuel as [|fuel IH]; intros st;
    cbn [TextChunker.chunk_text_loop chunk_windows];
    destruct (_ <? _); try reflexivity.
  - cbn. rewrite app_nil_r. reflexivity.
  - rewrite IH. unfold TextChunker.chunk_text_body, window_text. cbv zeta.
    cbn [fst snd]. destruct (PyStr.is_empty _); [reflexivity|].
    cbn [TextChunker.chunks TextChunker.current_start].
    unfold TextChunker.chunk_size.
    destruct (chunk_windows _ _ _ _) as [ws|]; [|reflexivity].
    cbn [option_map map]. rewrite map_app, <- app_assoc. reflexivity.
  - cbn. rewrite app_nil_r. reflexivity.
Qed.

(** With an overlap below the chunk size every pass moves on: the loop
    ends within one pass per sentence, and the parts of the windows that
    are new each time are the sentences from [covered] on. *)
Lemma windows_cover (fuel : nat) : forall start covered,
  1 <= size -> 0 <= shared -> shared < size ->
  (Z.to_nat (len - start) <= fuel)%nat ->
  0 <= start -> start <= covered -> covered < start + size ->
  covered <= len -> (start < len -> covered < len) ->
  (len <= start -> covered = len) ->
  exists ws,
    chunk_windows cfg fuel sentences start = Some ws
    /\ concat (fresh_portions sentences covered ws)
       = drop (Z.to_nat covered) sentences.
Proof.
  induction fuel as [|fuel IH]; intros start covered Hsize H0 Hlt Hfuel
    Hs Hsc Hcs Hcl Hrun Hend; cbn [chunk_windows];
    destruct (Z.ltb_spec start len) as [Hin|Hout]; try lia.
  - exists []. split; [reflexivity|]. rewrite drop_ge by lia. reflexivity.
  - set (stop := Z.min (start + size) len).
    rewrite (window_text_nonempty start stop) by (unfold stop; lia).
    destruct (IH (if stop <? len then stop - shared else stop) stop)
      as (ws & Hws & Hcover);
      try (destruct (Z.ltb_spec stop len); unfold stop in *; lia).
    exists ((start, stop) :: ws). rewrite Hws. split; [reflexivity|].
    cbn [fresh_portions concat]. rewrite Hcover.
    rewrite Z.max_r by lia. rewrite slice_inside by (unfold stop; lia).
    replace (Z.to_nat stop)
      with (Z.to_nat covered + Z.to_nat (stop - covered))%nat
      by (unfold stop; lia).
    rewrite <- drop_drop. apply take_drop.
  - exists []. split; [reflexivity|]. rewrite drop_ge by lia. reflexivity.
Qed.

(** When the overlap equals the chunk size and the text has more
    sentences than one chunk holds, every pass starts at sentence 0. *)
Lemma loop_stuck_at_zero (fuel : nat) : forall cs idx,
  1 <= size -> size < len -> shared = size ->
  loop fuel (TextChunker.LoopState cs idx 0) = None.
Proof.
  induction fuel as [|fuel IH]; intros cs idx Hsize Hlen Hshared;
    cbn [TextChunker.chunk_text_loop TextChunker.current_start];
    destruct (Z.ltb_spec 0 len); try lia; [reflexivity|].
  unfold TextChunker.chunk_text_body. cbv zeta.
  cbn [TextChunker.current_start]. unfold TextChunker.chunk_size.
  pose proof (window_text_nonempty 0 (Z.min (0 + size) len)) as Hw.
  unfold window_text in Hw. cbn [fst snd] in Hw. rewrite Hw by lia.
  destruct (Z.ltb_spec (Z.min (0 + size) len) len); [|lia].
  rewrite Hshared. replace (Z.min (0 + size) len - size) with 0 by lia.
  apply IH; assumption.
Qed.

End ChunkerCoverage.

Lemma sentences_start_with_text (text : string) :
  Forall starts_with_text (TextChunker._split_into_sentences text).
Proof.
  unfold TextChunker._split_into_sentences. apply Forall_forall.
  intros s Hs. apply list_elem_of_filter in Hs as [Hne Hs].
  apply list_elem_of_fmap in Hs as (piece & -> & _).
  destruct (PyStr.strip piece) as [|c r] eqn:E; [discriminate|].
  exact (strip_head _ _ _ E).
Qed.

Section ChunkerTotal.

Variable md5_hexdigest : string -> string.
Variable utcnow_isoformat : nat -> string.
Variable cfg : Config.t.
Variables (content_id url : string).
Variables (section_title hierarchy_path : option string).

Local Abbreviation chunk_text :=
  (TextChunker.chunk_text md5_hexdigest utcnow_isoformat cfg content_id url
     section_title hierarchy_path).

(** Where the overlap stays below the chunk size, [chunk_text] returns,
    and the new parts of its chunks, put end to end, are the sentences of
    the text. *)
Lemma chunk_text_covers_when_advancing (fuel : nat) (text : string) :
  let sentences := TextChunker._split_into_sentences text in
  PyStr.is_empty text || PyStr.is_empty (PyStr.strip text) = false ->
  1 <= Config.CHUNK_SIZE cfg ->
  0 <= TextChunker.overlap_sentences cfg sentences ->
  TextChunker.overlap_sentences cfg sentences < Config.CHUNK_SIZE cfg ->
  (length sentences <= fuel)%nat ->
  exists chunks windows,
    chunk_text fuel text = Some chunks
    /\ map ContentChunk.chunk_text chunks
       = map (window_text sentences) windows
    /\ concat (fresh_portions sentences 0 windows) = sentences.
Proof.
  intros sentences Htext Hsize H0 Hlt Hfuel.
  unfold TextChunker.chunk_text. rewrite Htext. fold sentences.
  destruct (windows_cover cfg sentences (sentences_start_with_text text)
              fuel 0 0) as (ws & Hws & Hcover); try lia.
  pose proof (loop_windows md5_hexdigest utcnow_isoformat cfg content_id url
                section_title hierarchy_path sentences fuel
                (TextChunker.LoopState [] 0 0)) as Hloop.
  cbn [TextChunker.chunks TextChunker.current_start] in Hloop.
  fold sentences in Hws, Hcover, Hloop. rewrite Hws in Hloop.
  destruct sentences as [|s0 rest] eqn:E.
  - exists [], []. repeat split; reflexivity.
  - destruct (TextChunker.chunk_text_loop _ _ _ _ _ _ _ _ _ _) as [cs|];
      [|discriminate].
    exists cs, ws. injection Hloop as Hloop. repeat split; assumption.
Qed.

(** Where the overlap equals the chunk size and the text has more
    sentences than a chunk, [chunk_text] does not return. *)
Lemma chunk_text_diverges_when_stuck (fuel : nat) (text : string) :
  let sentences := TextChunker._split_into_sentences text in
  PyStr.is_empty text || PyStr.is_empty (PyStr.strip text) = false ->
  1 <= Config.CHUNK_SIZE cfg ->
  Config.CHUNK_SIZE cfg < Z.of_nat (length sentences) ->
  TextChunker.overlap_sentences cfg sentences = Config.CHUNK_SIZE cfg ->
  chunk_text fuel text = None.
Proof.
  intros sentences Htext Hsize Hlen Hshared.
  pose proof (sentences_start_with_text text) as Hok.
  unfold TextChunker.chunk_text. rewrite Htext. subst sentences.
  destruct (TextChunker._split_into_sentences text) as [|s0 rest];
    [cbn in Hlen; lia|].
  apply loop_stuck_at_zero; assumption.
Qed.

End ChunkerTotal.

(* ===================================================================== *)
(** * The embedder *)
(* ===================================================================== *)

Local Open Scope list_scope.

Section Batching.

Context {A : Type}.

Lemma take_min_length (l : list A) (n : nat) :
  take (Nat.min n (length l)) l = take n l.
Proof.
  destruct (Nat.le_gt_cases n (length l)) as [H|H].
  - rewrite Nat.min_l by exact H. reflexivity.
  - rewrite Nat.min_r by lia. rewrite !take_ge by lia. reflexivity.
Qed.

(** A slice with natural bounds is a [take] of a [drop]. *)
Lemma slice_nat (l : list A) (i n : nat) :
  PyList.slice l (Z.of_nat i) (Z.of_nat i + Z.of_nat n) = take n (drop i l).
Proof.
  unfold PyList.slice, PyList.clamp.
  destruct (Z.ltb_spec (Z.of_nat i) 0) as [H|_]; [lia|].
  destruct (Z.ltb_spec (Z.of_nat i + Z.of_nat n) 0) as [H|_]; [lia|].
  destruct (Nat.le_gt_cases i (length l)) as [Hi|Hi].
  - replace (Z.to_nat (Z.min (Z.of_nat i) (Z.of_nat (length l)))) with i by lia.
    replace (Z.to_nat _) with (Nat.min n (length (drop i l)))
      by (rewrite length_drop; lia).
    apply take_min_length.
  - replace (Z.to_nat (_ - _)) with O by lia.
    rewrite (drop_ge l i) by lia. rewrite take_nil. apply take_0.
Qed.

Lemma concat_strides (l : list A) (step m : nat) :
  concat (map (fun j => take step (drop (j * step) l)) (seq 0 m))
  = take (m * step) l.
Proof.
  induction m as [|m IH]; [reflexivity|].
  rewrite seq_S, map_app, concat_app, IH. cbn [map concat Nat.add].
  rewrite app_nil_r, take_take_drop. f_equal. lia.
Qed.

Lemma strides_cover (n step : nat) :
  (0 < step)%nat -> (n <= (n + step - 1) / step * step)%nat.
Proof.
  intros H. pose proof (Nat.div_mod_eq (n + step - 1) step) as E.
  pose proof (Nat.mod_upper_bound (n + step - 1) step ltac:(lia)). nia.
Qed.

Lemma fold_left_map_arg {B C} (f : B -> C -> B) (g : A -> C) (l : list A) :
  forall b, fold_left (fun acc i => f acc (g i)) l b = fold_left f (map g l) b.
Proof. induction l as [|x l IH]; intros b; [reflexivity|apply IH]. Qed.


Lemma omap_map_Some (l : list A) : omap (fun e => e) (map Some l) = l.
Proof. induction l as [|x l IH]; [reflexivity|]. cbn. f_equal. exact IH. Qed.

End Batching.

Lemma batches_of_strides (step : nat) (texts : list string) :
  batches_of step texts
  = map (fun j => take step (drop (j * step) texts))
      (seq 0 ((length texts + step - 1) / step)).
Proof.
  unfold batches_of, Embedder.py_range. rewrite map_map.
  apply map_ext. intros j. apply slice_nat.
Qed.

Lemma batches_of_concat (step : nat) (texts : list string) :
  (0 < step)%nat -> concat (batches_of step texts) = texts.
Proof.
  intros H. rewrite batches_of_strides, concat_strides.
  apply take_ge, strides_cover, H.
Qed.


Section EmbedderFacts.

Variable client_embed : nat -> list string -> option (list embedding).
Variable cfg : Config.t.
Hypothesis contract : one_vector_per_text client_embed.
Hypothesis delay_ok : (0 <= Config.RATE_LIMIT_DELAY cfg)%Q.

Lemma sleep_between_batches :
  sleep_returns (Config.RATE_LIMIT_DELAY cfg) = true.
Proof. apply Qle_bool_iff, delay_ok. Qed.

Lemma sleep_between_retries :
  sleep_returns (Config.RATE_LIMIT_DELAY cfg * (1 # 10)) = true.
Proof.
  apply Qle_bool_iff, Qmult_le_0_compat; [exact delay_ok|discriminate].
Qed.

Lemma embed_fallback_outcomes (batch : list string) : forall calls fallback,
  Embedder.embed_fallback client_embed cfg calls batch fallback
  = ((calls + length batch)%nat,
     fallback ++ retry_outcomes client_embed calls batch).
Proof.
  induction batch as [|text rest IH]; intros calls fallback.
  - cbn. rewrite Nat.add_0_r, app_nil_r. reflexivity.
  - cbn [Embedder.embed_fallback retry_outcomes length].
    destruct (client_embed calls [text]) as [vectors|] eqn:E.
    + apply contract in E. destruct vectors as [|e [|? ?]]; try discriminate.
      rewrite sleep_between_retries, IH. cbn [map].
      rewrite <- app_assoc. f_equal. lia.
    + rewrite IH, <- app_assoc. f_equal. lia.
Qed.

Lemma fold_embed_batch (batches : list (list string)) : forall calls acc,
  snd (fold_left (Embedder.embed_batch client_embed cfg) batches (calls, acc))
  = acc ++ omap (fun e => e) (embed_outcomes client_embed calls batches).
Proof.
  induction batches as [|batch rest IH]; intros calls acc.
  - cbn. rewrite app_nil_r. reflexivity.
  - cbn [fold_left embed_outcomes Embedder.embed_batch].
    destruct (client_embed calls batch) as [vectors|] eqn:E.
    + rewrite sleep_between_batches, IH, omap_app, omap_map_Some.
      apply eq_sym, app_assoc.
    + unfold Embedder.except_batch. rewrite embed_fallback_outcomes.
      cbn [app]. rewrite IH, (omap_app _ (retry_outcomes _ _ _)).
      apply eq_sym, app_assoc.
Qed.




End EmbedderFacts.

(* ===================================================================== *)
(** * The vector store *)
(* ===================================================================== *)

Section StorageFacts.

Variable uuid5_dns : string -> string.
Variable upsert_error : nat -> option string.

Local Abbreviation save_one :=
  (QdrantStorage.save_chunk_to_qdrant uuid5_dns upsert_error).
Local Abbreviation save_batch :=
  (QdrantStorage.save_chunks_batch uuid5_dns upsert_error).
Local Abbreviation point := (QdrantStorage.make_point uuid5_dns).

(** C6.  With lists of unequal lengths [save_chunks_batch] raises its
    size-mismatch [ValueError] and leaves the client as it was: no request
    is sent and no point is written. *)
Theorem save_chunks_batch_size_mismatch (c : QdrantStorage.client)
  (chunks : list ContentChunk.t) (embeddings : list embedding) :
  length chunks <> length embeddings ->
  exists msg, save_batch c chunks embeddings = (Raise (ValueError msg), c).
Proof.
  intros H. unfold QdrantStorage.save_chunks_batch.
  destruct (Nat.eqb_spec (length chunks) (length embeddings)) as [E|_];
    [contradiction|].
  eexists. reflexivity.
Qed.

Lemma save_one_accepted c chunk e c' :
  save_one c chunk e = (Ok tt, c') ->
  QdrantStorage.collection c'
  = <[uuid5_dns (ContentChunk.id chunk)
      := (e, QdrantStorage.make_payload chunk)]> (QdrantStorage.collection c).
Proof.
  unfold QdrantStorage.save_chunk_to_qdrant, QdrantStorage.client_upsert.
  destruct (upsert_error _); [discriminate|]. intros [= <-]. reflexivity.
Qed.

Lemma size_insert_insert {V} (m : gmap string V) (k : string) (v1 v2 : V) :
  size (<[k := v2]> (<[k := v1]> m)) = size (<[k := v1]> m).
Proof.
  rewrite insert_insert_eq.
  destruct (m !! k) as [v|] eqn:E.
  - rewrite !map_size_insert_Some by (exists v; exact E). reflexivity.
  - rewrite !map_size_insert_None by exact E. reflexivity.
Qed.

(** C7.  The point id is [uuid5] of the chunk's logical id, in the single
    and in the batch upsert alike.  Two chunks with the same id get the
    same point id, so the second of two accepted upserts replaces the
    point of the first: the collection has as many points after it as
    before, exactly one if it was empty at the start. *)
Theorem equal_ids_overwrite (c c1 c2 : QdrantStorage.client)
  (chunk1 chunk2 : ContentChunk.t) (e1 e2 : embedding) :
  ContentChunk.id chunk1 = ContentChunk.id chunk2 ->
  save_one c chunk1 e1 = (Ok tt, c1) ->
  save_one c1 chunk2 e2 = (Ok tt, c2) ->
  QdrantStorage.point_id (point chunk1 e1) = uuid5_dns (ContentChunk.id chunk1)
  /\ QdrantStorage.point_id (point chunk1 e1)
     = QdrantStorage.point_id (point chunk2 e2)
  /\ save_batch c [chunk1] [e1] = save_one c chunk1 e1
  /\ QdrantStorage.collection c2
     = <[uuid5_dns (ContentChunk.id chunk2)
         := (e2, QdrantStorage.make_payload chunk2)]>
         (QdrantStorage.collection c)
  /\ size (QdrantStorage.collection c2) = size (QdrantStorage.collection c1)
  /\ (QdrantStorage.collection c = ∅ ->
      size (QdrantStorage.collection c2) = 1%nat)
  /\ (forall c', save_batch c [chunk1; chunk2] [e1; e2] = (Ok tt, c') ->
      QdrantStorage.collection c' = QdrantStorage.collection c2).
Proof.
  intros Hid H1 H2.
  apply save_one_accepted in H1 as E1. apply save_one_accepted in H2 as E2.
  rewrite E1, <- Hid in E2. rewrite <- Hid.
  split; [reflexivity|]. split; [cbn; rewrite Hid; reflexivity|].
  split; [reflexivity|].
  split; [rewrite E2; apply insert_insert_eq|].
  split; [rewrite E2, E1; apply size_insert_insert|].
  split.
  - intros Hempty. rewrite E2, insert_insert_eq, Hempty.
    rewrite map_size_insert_None by apply lookup_empty.
    rewrite map_size_empty. reflexivity.
  - intros c'. unfold QdrantStorage.save_chunks_batch,
      QdrantStorage.client_upsert. cbn [length Nat.eqb negb zip zip_with map
      fst snd fold_left].
    destruct (upsert_error _); [discriminate|]. intros [= <-].
    cbn [QdrantStorage.collection]. rewrite E2.
    unfold QdrantStorage.store_point, QdrantStorage.make_point.
    cbn [QdrantStorage.point_id QdrantStorage.vector
         QdrantStorage.point_payload].
    rewrite <- Hid. reflexivity.
Qed.

(** The requests of the upsert loop of [process_single_url] are the
    leading pairs of its argument, one point per request. *)
Lemma save_all_requests (pairs : list (ContentChunk.t * embedding)) :
  forall c r c',
    BookEmbeddingPipeline.save_all uuid5_dns upsert_error c pairs = (r, c') ->
    exists k,
      QdrantStorage.upsert_requests c'
      = QdrantStorage.upsert_requests c
        ++ map (fun ce => [point (fst ce) (snd ce)]) (take k pairs).
Proof.
  induction pairs as [|[chunk e] rest IH]; intros c r c' H.
  - injection H as _ <-. exists O. rewrite app_nil_r. reflexivity.
  - cbn [BookEmbeddingPipeline.save_all] in H.
    unfold QdrantStorage.save_chunk_to_qdrant,
      QdrantStorage.client_upsert in H.
    destruct (upsert_error _) as [msg|].
    + injection H as _ <-. exists 1%nat.
      cbn [QdrantStorage.upsert_requests take map fst snd].
      rewrite take_0. reflexivity.
    + apply IH in H as [k Hk]. exists (S k). rewrite Hk.
      cbn [QdrantStorage.upsert_requests take map fst snd].
      rewrite <- app_assoc. reflexivity.
Qed.

End StorageFacts.

(* ===================================================================== *)
(** * The orchestrator *)
(* ===================================================================== *)

Section PipelineFacts.

Variable md5_hexdigest : string -> string.
Variable utcnow_isoformat : nat -> string.
Variable uuid5_dns : string -> string.
Variable upsert_error : nat -> option string.
Variable client_embed : nat -> list string -> option (list embedding).
Variable cfg : Config.t.
Variable extract_text_from_url :
  string -> option string * option string * option string.

Local Abbreviation process :=
  (BookEmbeddingPipeline.process_single_url md5_hexdigest utcnow_isoformat
     uuid5_dns upsert_error client_embed cfg extract_text_from_url).

(** C1.  Take a run of [process_single_url] that reaches the embedding
    step with the chunks [chunks] and the answer [embeddings] of
    [embed_texts].  If [embeddings] is missing or its length is not the
    number of chunks, the run returns [False] and the vector store is as
    it was before.  In every case the run returns, and the upsert requests
    it has sent are, in order, single points made of the chunk and the
    embedding at one and the same position, for the first [k] positions. *)
Theorem process_single_url_alignment (fuel : nat)
  (st : BookEmbeddingPipeline.state) (url : string)
  (title hierarchy_path : option string) (content : string)
  (chunks : list ContentChunk.t) (calls : nat)
  (embeddings : option (list embedding)) :
  extract_text_from_url url = (title, Some content, hierarchy_path) ->
  PyStr.is_empty content = false ->
  BookEmbeddingPipeline._has_been_processed st
    (BookEmbeddingPipeline._generate_content_id md5_hexdigest url content)
  = false ->
  TextChunker.chunk_text md5_hexdigest utcnow_isoformat cfg
    (BookEmbeddingPipeline._generate_content_id md5_hexdigest url content)
    url title hierarchy_path fuel content = Some chunks ->
  chunks <> [] ->
  Embedder.embed_texts client_embed cfg
    (BookEmbeddingPipeline.embed_calls st)
    (map ContentChunk.chunk_text chunks) = (calls, embeddings) ->
  ((embeddings = None
    \/ exists l, embeddings = Some l /\ length l <> length chunks) ->
   process fuel st url
   = Some (false,
           BookEmbeddingPipeline.State
             (BookEmbeddingPipeline.processed_content st)
             (BookEmbeddingPipeline.storage st) calls))
  /\ exists b st' k,
       process fuel st url = Some (b, st')
       /\ QdrantStorage.upsert_requests (BookEmbeddingPipeline.storage st')
          = QdrantStorage.upsert_requests (BookEmbeddingPipeline.storage st)
            ++ map (fun ce =>
                      [QdrantStorage.make_point uuid5_dns (fst ce) (snd ce)])
                   (take k (zip chunks (default [] embeddings))).
Proof.
  intros Hextract Hcontent Hfresh Hchunks Hne Hembed.
  unfold BookEmbeddingPipeline.process_single_url.
  rewrite Hextract, Hcontent, Hfresh, Hchunks.
  destruct chunks as [|chunk0 chunks']; [congruence|].
  rewrite Hembed. clear Hextract Hchunks Hembed.
  set (chunks := chunk0 :: chunks') in *.
  destruct embeddings as [l|].
  - destruct ((length l =? 0)%nat || negb (length l =? length chunks)%nat)
      eqn:Hcheck.
    + split; [reflexivity|]. eexists _, _, O. split; [reflexivity|].
      cbn. rewrite app_nil_r. reflexivity.
    + split.
      * intros [H|(l' & [= <-] & H)]; [discriminate|].
        apply orb_false_elim in Hcheck as [_ Hcheck].
        apply negb_false_iff, Nat.eqb_eq in Hcheck. contradiction.
      * destruct (BookEmbeddingPipeline.save_all _ _ _ _) as [r c] eqn:Hsave.
        apply save_all_requests in Hsave as [k Hk].
        destruct r as [[]|err]; eexists _, _, k; (split; [reflexivity|]);
          cbn; exact Hk.
  - split; [reflexivity|]. eexists _, _, O. split; [reflexivity|].
    cbn. rewrite app_nil_r. reflexivity.
Qed.

End PipelineFacts.

(* ===================================================================== *)
(** * The validator *)
(* ===================================================================== *)

Section ValidatorFacts.

Variable client_embed : nat -> list string -> option (list embedding).
Variable cfg : Config.t.
Variable pow_half : Q -> Q.
Variable np_linalg_norm : embedding -> Q.
Variables np_mean np_std np_min np_max : list Q -> Q.
Variable np_shape_error : string.

Local Abbreviation validate :=
  (Validator.validate_embedding_quality client_embed cfg pow_half
     np_linalg_norm np_mean np_std np_min np_max np_shape_error).

(** What the quality check reports on rectangular embeddings, one per
    text: their dimensionality, and validity against the constant 1024. *)
Lemma validate_embedding_quality_report (calls calls' : nat)
  (texts : list string) (embeddings : list embedding) (d : nat) :
  texts <> [] ->
  Embedder.embed_texts client_embed cfg calls texts
  = (calls', Some embeddings) ->
  length embeddings = length texts ->
  Validator.shape_1 embeddings = Some d ->
  exists r,
    validate calls texts = (calls', Validator.Quality r)
    /\ Validator.dimensions r = d
    /\ Validator.is_valid r = (d =? 1024)%nat.
Proof.
  intros Hne Hembed Hlen Hshape. unfold Validator.validate_embedding_quality.
  destruct texts as [|t ts]; [congruence|]. rewrite Hembed, Hlen.
  rewrite Nat.eqb_refl. cbn [negb orb length Nat.eqb].
  change (default [] (Some embeddings)) with embeddings.
  rewrite Hshape. eexists. split; [reflexivity|]. split; reflexivity.
Qed.

(** Whatever the inputs, a report that carries statistics is valid
    exactly when its dimensionality is 1024. *)
Lemma is_valid_iff_1024 (calls calls' : nat) (texts : list string)
  (r : Validator.quality_results) :
  validate calls texts = (calls', Validator.Quality r) ->
  Validator.is_valid r = (Validator.dimensions r =? 1024)%nat.
Proof.
  unfold Validator.validate_embedding_quality.
  destruct texts as [|t ts]; [discriminate|].
  destruct (Embedder.embed_texts _ _ _ _) as [calls1 embeddings].
  destruct (_ || _); [discriminate|].
  destruct (Validator.shape_1 _); [|discriminate].
  intros [= _ <-]. reflexivity.
Qed.

(** The overall status follows the validity flag of the quality check;
    an exception of the retrieval self-test gives "error". *)
Lemma overall_status_follows_is_valid (retrieval_report : Type)
  (collection_exists : bool) (count_points : Z)
  (scroll : result (list (gmap string string)))
  (validate_retrieval_accuracy : nat -> list string -> nat * retrieval_report)
  (now : string) (calls : nat) :
  Validator.overall_status retrieval_report
    (snd (Validator.run_comprehensive_validation client_embed cfg pow_half
            np_linalg_norm np_mean np_std np_min np_max np_shape_error
            retrieval_report collection_exists count_points scroll
            validate_retrieval_accuracy now calls))
  = match Validator.retrieval_self_test retrieval_report collection_exists
            count_points scroll validate_retrieval_accuracy calls with
    | Raise _ => "error"
    | Ok (calls1, _, _) =>
        if Validator.get_is_valid (snd (validate calls1 Validator.sample_texts))
        then "success" else "failed"
    end.
Proof.
  unfold Validator.run_comprehensive_validation.
  destruct (Validator.retrieval_self_test _ _ _ _ _ _) as [[[calls1 n] r]|e];
    [|reflexivity].
  destruct (validate calls1 Validator.sample_texts) as [calls2 quality].
  reflexivity.
Qed.

End ValidatorFacts.

Lemma embed_sample_texts_768 (calls : nat) :
  Embedder.embed_texts client_768 cfg_default calls Validator.sample_texts
  = (S calls, Some (repeat (repeat (0 # 1) 768) 4)).
Proof. reflexivity. Qed.

(** C4 (failing input).  When the provider returns vectors of the 768
    dimensions that [get_model_info] declares, the quality check reports
    [dimensions = 768] and all the same [is_valid = False], and the
    comprehensive validation ends with status "failed". *)
Theorem validator_rejects_declared_dimension (pow_half : Q -> Q)
  (np_linalg_norm : embedding -> Q) (np_mean np_std np_min np_max : list Q -> Q)
  (np_shape_error now : string) (calls : nat) :
  exists r,
    Validator.validate_embedding_quality client_768 cfg_default pow_half
      np_linalg_norm np_mean np_std np_min np_max np_shape_error calls
      Validator.sample_texts = (S calls, Validator.Quality r)
    /\ Z.of_nat (Validator.dimensions r)
       = Embedder.dimensions Embedder.get_model_info
    /\ Validator.is_valid r = false
    /\ Validator.overall_status unit
         (snd (Validator.run_comprehensive_validation client_768 cfg_default
                 pow_half np_linalg_norm np_mean np_std np_min np_max
                 np_shape_error unit false 0 (Ok []) no_retrieval_test now
                 calls))
       = "failed".
Proof.
  destruct (validate_embedding_quality_report client_768 cfg_default pow_half
              np_linalg_norm np_mean np_std np_min np_max np_shape_error
              calls (S calls) Validator.sample_texts
              (repeat (repeat (0 # 1) 768) 4) 768)
    as (r & Hr & Hd & Hv);
    [discriminate|apply embed_sample_texts_768|reflexivity|
     vm_compute; reflexivity|].
  exists r. split; [exact Hr|]. split; [rewrite Hd; reflexivity|].
  split; [rewrite Hv; reflexivity|].
  unfold Validator.run_comprehensive_validation, Validator.retrieval_self_test.
  rewrite Hr. cbn [snd Validator.overall_status Validator.v_overall_status
                   Validator.get_is_valid].
  rewrite Hv. reflexivity.
Qed.

(* ===================================================================== *)
(** * The answer endpoint *)
(* ===================================================================== *)

Section ApiFacts.

Variable client_embed : nat -> list string -> option (list embedding).
Variable query_points :
  embedding -> Z -> option (list QdrantStorage.ScoredPoint).
Variable insert_fails : nat -> bool.
Variable uuid4 : string.
Variable cohere_chat : string -> result string.
Variable now_isoformat : string.

Local Abbreviation ask :=
  (Api.ask_question client_embed query_points insert_fails uuid4 cohere_chat
     now_isoformat).


End ApiFacts.

(* ===================================================================== *)
(** * Concrete scenarios *)
(* ===================================================================== *)

Lemma chunk_lists_well_formed_witness :
  map ContentChunk.chunk_index abcd_chunks = seq 0 (length abcd_chunks)
  /\ Forall (fun c =>
               PyStr.strip (ContentChunk.chunk_text c) <> EmptyString
               /\ ContentChunk.token_count c
                  = length (PyStr.split (ContentChunk.chunk_text c))
               /\ (1 <= ContentChunk.token_count c)%nat
               /\ ContentChunk.content_id c = "content_9e107d9d372b"
               /\ ContentChunk.url c = "https://example.org/docs/intro"
               /\ ContentChunk.section_title c = Some "Intro"
               /\ ContentChunk.hierarchy_path c = Some "docs") abcd_chunks.
Proof.
  apply (chunk_lists_well_formed demo_md5 demo_clock cfg_quarter
           "content_9e107d9d372b" "https://example.org/docs/intro"
           (Some "Intro") (Some "docs") 4 abcd abcd_chunks).
  left. vm_compute. reflexivity.
Defined.


Lemma demo_client_one_vector_per_text : one_vector_per_text demo_client.
Proof.
  intros calls texts vectors. unfold demo_client.
  destruct texts as [|text [|? ?]]; try discriminate.
  destruct (String.eqb text "bad"); [discriminate|].
  intros [= <-]. reflexivity.
Qed.


(** With a negative [RATE_LIMIT_DELAY] the [time.sleep] after a batch
    that succeeded raises inside the [try], and the fallback embeds the
    batch a second time. *)
Example embed_texts_negative_delay :
  option_map (@length embedding)
    (snd (Embedder.embed_texts client_768 (Config.mk 512 (1 # 10) (-1 # 1)) 0
            ["one text"]))
  = Some 2%nat.
Proof. reflexivity. Qed.

(** The overlap follows the sentence count of the text, not the chunk
    size: four sentences at [overlap = 0.5] overlap by two, whatever the
    chunk size, where half a chunk of two would be one. *)
Example overlap_scales_with_the_text :
  TextChunker.overlap_sentences cfg_half
    (TextChunker._split_into_sentences abcd) = 2
  /\ Qfloor (inject_Z (Config.CHUNK_SIZE cfg_half)
             * Config.CHUNK_OVERLAP cfg_half) = 1.
Proof. split; reflexivity. Qed.

Lemma save_chunks_batch_size_mismatch_witness :
  length abcd_chunks = 3%nat
  /\ exists msg,
       QdrantStorage.save_chunks_batch demo_uuid5 accept_all empty_client
         abcd_chunks [[1 # 1]; [2 # 1]]
       = (Raise (ValueError msg), empty_client).
Proof.
  split; [reflexivity|].
  apply (save_chunks_batch_size_mismatch demo_uuid5 accept_all empty_client
           abcd_chunks [[1 # 1]; [2 # 1]]).
  discriminate.
Defined.

Lemma equal_ids_overwrite_witness :
  ContentChunk.id demo_chunk = ContentChunk.id demo_chunk_again
  /\ size (QdrantStorage.collection
             (snd (QdrantStorage.save_chunk_to_qdrant demo_uuid5 accept_all
                     (snd (QdrantStorage.save_chunk_to_qdrant demo_uuid5
                             accept_all empty_client demo_chunk [1 # 1]))
                     demo_chunk_again [2 # 1]))) = 1%nat.
Proof.
  split; [reflexivity|].
  exact (proj1 (proj2 (proj2 (proj2 (proj2 (proj2
           (equal_ids_overwrite demo_uuid5 accept_all empty_client _ _
              demo_chunk demo_chunk_again [1 # 1] [2 # 1]
              eq_refl eq_refl eq_refl)))))) eq_refl).
Defined.

Lemma process_single_url_alignment_witness :
  length demo_page_chunks = 2%nat
  /\ Embedder.embed_texts demo_client cfg_single 0
       (map ContentChunk.chunk_text demo_page_chunks)
     = (3%nat, Some [[9 # 1; 1 # 1]])
  /\ BookEmbeddingPipeline.process_single_url demo_md5 demo_clock demo_uuid5
       accept_all demo_client cfg_single demo_extract 2 fresh_pipeline
       "https://example.org/docs/intro"
     = Some (false, BookEmbeddingPipeline.State ∅ empty_client 3).
Proof.
  split; [reflexivity|]. split; [reflexivity|].
  refine (proj1
            (process_single_url_alignment demo_md5 demo_clock demo_uuid5
               accept_all demo_client cfg_single demo_extract 2 fresh_pipeline
               "https://example.org/docs/intro" (Some "Intro") (Some "docs")
               demo_page demo_page_chunks 3 (Some [[9 # 1; 1 # 1]])
               eq_refl eq_refl eq_refl eq_refl _ eq_refl) _).
  - discriminate.
  - right. exists [[9 # 1; 1 # 1]]. split; [reflexivity|discriminate].
Defined.



(* ===================================================================== *)
(** * Further properties of the chunker *)
(* ===================================================================== *)

Lemma rstrip_idempotent (s : string) :
  PyStr.rstrip (PyStr.rstrip s) = PyStr.rstrip s.
Proof.
  induction s as [|c s IH]; [reflexivity|].
  cbn [PyStr.rstrip]. cbv zeta.
  destruct (PyStr.is_empty (PyStr.rstrip s) && PyStr.is_space c) eqn:E;
    [reflexivity|].
  cbn [PyStr.rstrip]. cbv zeta. rewrite IH, E. reflexivity.
Qed.

Lemma strip_idempotent (s : string) :
  PyStr.strip (PyStr.strip s) = PyStr.strip s.
Proof.
  destruct (PyStr.strip s) as [|c r] eqn:E; [reflexivity|].
  pose proof (strip_head _ _ _ E) as Hc.
  rewrite <- E. unfold PyStr.strip at 1. fold (PyStr.strip s). rewrite E.
  cbn [PyStr.lstrip]. rewrite Hc, <- E. unfold PyStr.strip.
  apply rstrip_idempotent.
Qed.

(** X1.  Every sentence [_split_into_sentences] returns is non-empty and
    carries no white space at either end: stripping it changes nothing. *)
Theorem sentences_are_stripped (text : string) :
  Forall (fun s => s <> EmptyString /\ PyStr.strip s = s)
    (TextChunker._split_into_sentences text).
Proof.
  unfold TextChunker._split_into_sentences. apply Forall_forall.
  intros s Hs. apply list_elem_of_filter in Hs as [Hne Hs].
  apply list_elem_of_fmap in Hs as (piece & -> & _).
  split; [apply is_empty_false, Hne|apply strip_idempotent].
Qed.

Lemma int_of_float_nonneg (x : Q) : (0 <= x)%Q -> 0 <= PyList.int_of_float x.
Proof.
  destruct x as [n d]. unfold Qle, PyList.int_of_float. cbn.
  intros H. apply Z.quot_pos; lia.
Qed.

Lemma overlap_sentences_nonneg cfg (sentences : list string) :
  (0 <= Config.CHUNK_OVERLAP cfg)%Q ->
  0 <= TextChunker.overlap_sentences cfg sentences.
Proof.
  intros H. unfold TextChunker.overlap_sentences, TextChunker.overlap.
  apply int_of_float_nonneg, Qmult_le_0_compat; [|exact H].
  unfold Qle, inject_Z. cbn. lia.
Qed.

Lemma slice_to_end_nonempty {A} (l : list A) (start : Z) :
  l <> [] -> start < Z.of_nat (length l) ->
  PyList.slice l start (Z.of_nat (length l)) <> [].
Proof.
  intros Hne H E. apply (f_equal (@length A)) in E. revert E.
  assert (0 < length l)%nat by (destruct l; [congruence|cbn; lia]).
  unfold PyList.slice, PyList.clamp. rewrite length_take, length_drop.
  destruct (Z.ltb_spec start 0), (Z.ltb_spec (Z.of_nat (length l)) 0);
    cbn [length]; lia.
Qed.

Section ChunkerRuns.

Variable md5_hexdigest : string -> string.
Variable utcnow_isoformat : nat -> string.
Variable cfg : Config.t.
Variables (content_id url : string).
Variables (section_title hierarchy_path : option string).

Local Abbreviation body :=
  (TextChunker.chunk_text_body md5_hexdigest utcnow_isoformat cfg
     content_id url section_title hierarchy_path).
Local Abbreviation loop :=
  (TextChunker.chunk_text_loop md5_hexdigest utcnow_isoformat cfg
     content_id url section_title hierarchy_path).
Local Abbreviation wbody :=
  (TextChunker.sliding_window_body md5_hexdigest utcnow_isoformat cfg
     content_id url section_title hierarchy_path).
Local Abbreviation wloop :=
  (TextChunker.sliding_window_loop md5_hexdigest utcnow_isoformat cfg
     content_id url section_title hierarchy_path).

(** A property of the loop state that every pass keeps holds of the
    state in which the loop exits. *)
Lemma chunk_text_loop_exit (I : TextChunker.loop_state -> Prop)
  (sentences : list string) :
  (forall st,
      TextChunker.current_start st < Z.of_nat (length sentences) ->
      I st -> I (body sentences st)) ->
  forall fuel st cs,
    I st -> loop fuel sentences st = Some cs ->
    exists st',
      I st' /\ TextChunker.chunks st' = cs
      /\ Z.of_nat (length sentences) <= TextChunker.current_start st'.
Proof.
  intros Hstep. induction fuel as [|fuel IH]; intros st cs Hst;
    cbn [TextChunker.chunk_text_loop];
    destruct (Z.ltb_spec (TextChunker.current_start st)
                (Z.of_nat (length sentences))) as [Hin|Hout];
    try discriminate.
  - intros [= <-]. exists st. repeat split; assumption.
  - apply IH, Hstep; assumption.
  - intros [= <-]. exists st. repeat split; assumption.
Qed.

Lemma sliding_window_loop_exit (I : TextChunker.loop_state -> Prop)
  (words : list string) :
  (forall st,
      TextChunker.current_start st < Z.of_nat (length words) ->
      I st -> I (wbody words st)) ->
  forall fuel st cs,
    I st -> wloop fuel words st = Some cs ->
    exists st',
      I st' /\ TextChunker.chunks st' = cs
      /\ Z.of_nat (length words) <= TextChunker.current_start st'.
Proof.
  intros Hstep. induction fuel as [|fuel IH]; intros st cs Hst;
    cbn [TextChunker.sliding_window_loop];
    destruct (Z.ltb_spec (TextChunker.current_start st)
                (Z.of_nat (length words))) as [Hin|Hout];
    try discriminate.
  - intros [= <-]. exists st. repeat split; assumption.
  - apply IH, Hstep; assumption.
  - intros [= <-]. exists st. repeat split; assumption.
Qed.

Lemma overlap_recorded_step (sentences : list string)
  (st : TextChunker.loop_state) :
  sentences <> [] ->
  Forall starts_with_text sentences ->
  0 <= TextChunker.overlap_sentences cfg sentences ->
  TextChunker.current_start st < Z.of_nat (length sentences) ->
  overlap_recorded cfg sentences st ->
  overlap_recorded cfg sentences (body sentences st).
Proof.
  intros Hne Hok Hov Hin [Hall Hlast].
  unfold TextChunker.chunk_text_body. cbv zeta.
  set (stop := Z.min (TextChunker.current_start st + TextChunker.chunk_size cfg)
                 (Z.of_nat (length sentences))).
  destruct (PyStr.is_empty _) eqn:E.
  - split; [exact Hall|]. intros c _. right.
    cbn [TextChunker.current_start].
    destruct (Z.eq_dec stop (Z.of_nat (length sentences))) as [Hstop|Hstop];
      [|unfold stop in *; lia].
    rewrite Hstop in E. exfalso.
    rewrite strip_starts_with_text in E; [discriminate|].
    apply join_starts_with_text;
      [apply slice_to_end_nonempty; [exact Hne|exact Hin]
      |apply Forall_slice, Hok].
  - split; cbn [TextChunker.chunks TextChunker.current_start].
    + apply Forall_app. split; [exact Hall|]. repeat constructor;
        cbn [ContentChunk.overlap_with_next];
        destruct (Z.ltb_spec stop (Z.of_nat (length sentences))); lia.
    + intros c. rewrite last_snoc. intros [= <-].
      cbn [ContentChunk.overlap_with_next].
      destruct (Z.ltb_spec stop (Z.of_nat (length sentences)));
        [right; lia|left; reflexivity].
Qed.

(** X2.  In every list [chunk_text] returns under a non-negative overlap
    fraction, each chunk's [overlap_with_next] lies between 0 and
    [overlap_sentences], and that of the last chunk is 0. *)
Theorem overlap_with_next_bounds (fuel : nat) (text : string)
  (cs : list ContentChunk.t) :
  (0 <= Config.CHUNK_OVERLAP cfg)%Q ->
  TextChunker.chunk_text md5_hexdigest utcnow_isoformat cfg content_id url
    section_title hierarchy_path fuel text = Some cs ->
  Forall (fun c =>
            0 <= ContentChunk.overlap_with_next c
            <= TextChunker.overlap_sentences cfg
                 (TextChunker._split_into_sentences text)) cs
  /\ forall c, last cs = Some c -> ContentChunk.overlap_with_next c = 0.
Proof.
  intros Hov. unfold TextChunker.chunk_text.
  destruct (_ || _); [intros [= <-]; split; [constructor|discriminate]|].
  pose proof (sentences_start_with_text text) as Hok.
  pose proof (overlap_sentences_nonneg cfg
                (TextChunker._split_into_sentences text) Hov) as Hnn.
  destruct (TextChunker._split_into_sentences text) as [|s0 rest] eqn:E;
    [intros [= <-]; split; [constructor|discriminate]|].
  intros Hrun.
  destruct (chunk_text_loop_exit (overlap_recorded cfg (s0 :: rest))
              (s0 :: rest)
              (fun st Hin =>
                 overlap_recorded_step (s0 :: rest) st ltac:(discriminate)
                   Hok Hnn Hin)
              fuel (TextChunker.LoopState [] 0 0) cs
              ltac:(split; [constructor|discriminate]) Hrun)
    as (st' & [Hall Hlast] & <- & Hexit).
  split; [exact Hall|]. intros c Hc.
  destruct (Hlast c Hc) as [H|H]; [exact H|lia].
Qed.

End ChunkerRuns.

Lemma append_inv_head (a b c : string) :
  (a ++ b)%string = (a ++ c)%string -> b = c.
Proof.
  induction a as [|x a IH]; [trivial|].
  change (String x a ++ b)%string with (String x (a ++ b)%string).
  change (String x a ++ c)%string with (String x (a ++ c)%string).
  intros [= H]. apply IH, H.
Qed.

Lemma append_inv_length (a b c d : string) :
  String.length a = String.length c ->
  (a ++ b)%string = (c ++ d)%string -> a = c /\ b = d.
Proof.
  revert c. induction a as [|x a IH]; intros [|y c] Hlen; try discriminate.
  - intros H. split; [reflexivity|exact H].
  - change (String x a ++ b)%string with (String x (a ++ b)%string).
    change (String y c ++ d)%string with (String y (c ++ d)%string).
    intros [= -> H]. injection Hlen as Hlen.
    destruct (IH c Hlen H) as [-> ->]. split; reflexivity.
Qed.

Lemma length_prefix (n : nat) (s : string) :
  String.length (PyStr.prefix n s) = Nat.min n (String.length s).
Proof.
  unfold PyStr.prefix. revert s.
  induction n as [|n IH]; intros [|c s]; cbn; try reflexivity.
  rewrite IH. reflexivity.
Qed.

(** With digests of a fixed length, the chunk id determines the index. *)
Lemma chunk_id_index (md5_hexdigest : string -> string)
  (content_id text1 text2 : string) (i j : nat) :
  (forall s, String.length (md5_hexdigest s) = 32%nat) ->
  TextChunker.chunk_id md5_hexdigest content_id text1 i
  = TextChunker.chunk_id md5_hexdigest content_id text2 j ->
  i = j.
Proof.
  intros Hmd5 H. unfold TextChunker.chunk_id in H.
  apply append_inv_head, append_inv_head in H.
  apply append_inv_length in H as [_ H];
    [|rewrite !length_prefix, !Hmd5; reflexivity].
  apply append_inv_head in H. exact (pretty_nat_inj _ _ H).
Qed.

Lemma NoDup_map_through {A B C} (f : A -> B) (g : A -> C) (l : list A) :
  (forall x y, x ∈ l -> y ∈ l -> f x = f y -> g x = g y) ->
  NoDup (map g l) -> NoDup (map f l).
Proof.
  induction l as [|a l IH]; intros Hfg Hg; [constructor|].
  cbn [map] in *. apply NoDup_cons in Hg as [Ha Hg]. apply NoDup_cons. split.
  - intros Hin. apply list_elem_of_fmap in Hin as (y & Hy & Hyl).
    apply Ha, list_elem_of_fmap. exists y. split; [|exact Hyl].
    apply Hfg; [left|right; exact Hyl|exact Hy].
  - apply IH; [|exact Hg]. intros x y Hx Hy.
    apply Hfg; right; assumption.
Qed.

Section ChunkIds.

Variable md5_hexdigest : string -> string.
Variable utcnow_isoformat : nat -> string.
Variable cfg : Config.t.
Variables (content_id url : string).
Variables (section_title hierarchy_path : option string).
Hypothesis md5_length : forall s, String.length (md5_hexdigest s) = 32%nat.

Local Abbreviation id_built :=
  (fun c =>
     ContentChunk.id c
     = TextChunker.chunk_id md5_hexdigest content_id
         (ContentChunk.chunk_text c) (ContentChunk.chunk_index c)).

Lemma numbered_chunks_distinct (cs : list ContentChunk.t) :
  Forall id_built cs ->
  map ContentChunk.chunk_index cs = seq 0 (length cs) ->
  NoDup (map ContentChunk.id cs).
Proof.
  intros Hids Hseq.
  apply (NoDup_map_through _ ContentChunk.chunk_index);
    [|rewrite Hseq; apply NoDup_seq].
  intros x y Hx Hy Hxy.
  rewrite Forall_forall in Hids.
  rewrite (Hids x Hx), (Hids y Hy) in Hxy.
  exact (chunk_id_index _ _ _ _ _ _ md5_length Hxy).
Qed.

(** X3.  MD5 digests being 32 characters long, the ids of the chunks of
    one returned list are pairwise distinct, for the sentence-based and
    for the word-based chunker. *)
Theorem chunk_ids_distinct (fuel : nat) (text : string)
  (cs : list ContentChunk.t) :
  TextChunker.chunk_text md5_hexdigest utcnow_isoformat cfg content_id url
    section_title hierarchy_path fuel text = Some cs
  \/ TextChunker.chunk_with_sliding_window md5_hexdigest utcnow_isoformat
       cfg content_id url section_title hierarchy_path fuel text = Some cs ->
  NoDup (map ContentChunk.id cs).
Proof.
  unfold TextChunker.chunk_text, TextChunker.chunk_with_sliding_window.
  intros [H|H]; destruct (_ || _); try (injection H as <-; constructor).
  - destruct (TextChunker._split_into_sentences text) as [|s0 rest] eqn:E;
      [injection H as <-; constructor|].
    pose proof (chunk_text_loop_ok _ _ _ _ _ _ _ _ _ _ _
                  (state_ok_init content_id url section_title hierarchy_path)
                  H) as [Hseq _].
    destruct (chunk_text_loop_exit md5_hexdigest utcnow_isoformat cfg
                content_id url section_title hierarchy_path
                (fun st => Forall id_built (TextChunker.chunks st))
                (s0 :: rest)) with (fuel := fuel)
                (st := TextChunker.LoopState [] 0 0) (cs := cs)
      as (st' & Hall & <- & _); [|constructor|exact H|].
    + intros st _ Hst. unfold TextChunker.chunk_text_body. cbv zeta.
      destruct (PyStr.is_empty _); [exact Hst|].
      apply Forall_app. split; [exact Hst|]. repeat constructor.
    + apply numbered_chunks_distinct; assumption.
  - pose proof (split_tokens text) as Hw.
    destruct (PyStr.split text) as [|w0 rest] eqn:E;
      [injection H as <-; constructor|].
    pose proof (sliding_window_loop_ok _ _ _ _ _ _ _ _ _ _ _ Hw
                  (state_ok_init content_id url section_title hierarchy_path)
                  H) as [Hseq _].
    destruct (sliding_window_loop_exit md5_hexdigest utcnow_isoformat cfg
                content_id url section_title hierarchy_path
                (fun st => Forall id_built (TextChunker.chunks st))
                (w0 :: rest)) with (fuel := fuel)
                (st := TextChunker.LoopState [] 0 0) (cs := cs)
      as (st' & Hall & <- & _); [|constructor|exact H|].
    + intros st _ Hst. unfold TextChunker.sliding_window_body. cbv zeta.
      destruct (PyStr.is_empty _); [exact Hst|].
      apply Forall_app. split; [exact Hst|]. repeat constructor.
    + apply numbered_chunks_distinct; assumption.
Qed.

End ChunkIds.

Lemma strip_empty_split (s : string) :
  PyStr.strip s = EmptyString -> PyStr.split s = [].
Proof.
  induction s as [|c s IH]; [reflexivity|].
  destruct (PyStr.is_space c) eqn:Hc.
  - rewrite (split_space _ _ Hc). unfold PyStr.strip in *.
    cbn [PyStr.lstrip]. rewrite Hc. exact IH.
  - rewrite (strip_cons_nonspace _ _ Hc). discriminate.
Qed.

Lemma token_starts_with_text (w : string) : is_token w -> starts_with_text w.
Proof. intros [Hne Hw]. destruct w; [congruence|apply Hw]. Qed.

Lemma overlap_words_bounds (cfg : Config.t) :
  1 <= Config.CHUNK_SIZE cfg ->
  (0 <= Config.CHUNK_OVERLAP cfg)%Q -> (Config.CHUNK_OVERLAP cfg < 1)%Q ->
  0 <= overlap_words cfg < Config.CHUNK_SIZE cfg.
Proof.
  intros Hsize H0 H1. unfold overlap_words.
  destruct (Config.CHUNK_OVERLAP cfg) as [n d].
  unfold Qle, Qlt in *. cbn in *.
  unfold PyList.int_of_float. cbn [Qnum Qden Qmult inject_Z].
  rewrite Z.quot_div_nonneg by nia. split.
  - apply Z.div_pos; nia.
  - apply Z.div_lt_upper_bound; nia.
Qed.

Section SlidingCoverage.

Variable md5_hexdigest : string -> string.
Variable utcnow_isoformat : nat -> string.
Variable cfg : Config.t.
Variables (content_id url : string).
Variables (section_title hierarchy_path : option string).
Variable words : list string.
Hypothesis words_ok : Forall is_token words.

Local Abbreviation wloop fuel :=
  (TextChunker.sliding_window_loop md5_hexdigest utcnow_isoformat cfg
     content_id url section_title hierarchy_path fuel words).
Local Abbreviation len := (Z.of_nat (length words)).
Local Abbreviation size := (Config.CHUNK_SIZE cfg).

Lemma words_start_with_text : Forall starts_with_text words.
Proof. eapply Forall_impl; [exact words_ok|apply token_starts_with_text]. Qed.

Lemma wloop_windows (fuel : nat) : forall st,
  option_map (map ContentChunk.chunk_text) (wloop fuel st)
  = option_map
      (fun ws => map ContentChunk.chunk_text (TextChunker.chunks st)
                 ++ map (fun w => PyStr.join " "
                                    (PyList.slice words (fst w) (snd w))) ws)
      (word_windows cfg fuel words (TextChunker.current_start st)).
Proof.
  induction fuel as [|fuel IH]; intros st;
    cbn [TextChunker.sliding_window_loop word_windows];
    destruct (_ <? _); try reflexivity.
  - cbn. rewrite app_nil_r. reflexivity.
  - rewrite IH. unfold TextChunker.sliding_window_body, window_text.
    cbv zeta. cbn [fst snd]. destruct (PyStr.is_empty _); [reflexivity|].
    cbn [TextChunker.chunks TextChunker.current_start].
    unfold TextChunker.chunk_size, TextChunker.overlap.
    fold (overlap_words cfg).
    destruct (word_windows _ _ _ _) as [ws|]; [|reflexivity].
    cbn [option_map map fst snd]. rewrite map_app, <- app_assoc. reflexivity.
  - cbn. rewrite app_nil_r. reflexivity.
Qed.

Lemma word_windows_cover (fuel : nat) : forall start covered,
  1 <= size -> 0 <= overlap_words cfg -> overlap_words cfg < size ->
  (Z.to_nat (len - start) <= fuel)%nat ->
  0 <= start -> start <= covered -> covered < start + size ->
  covered <= len -> (start < len -> covered < len) ->
  (len <= start -> covered = len) ->
  exists ws,
    word_windows cfg fuel words start = Some ws
    /\ concat (fresh_portions words covered ws)
       = drop (Z.to_nat covered) words.
Proof.
  induction fuel as [|fuel IH]; intros start covered Hsize H0 Hlt Hfuel
    Hs Hsc Hcs Hcl Hrun Hend; cbn [word_windows];
    destruct (Z.ltb_spec start len) as [Hin|Hout]; try lia.
  - exists []. split; [reflexivity|]. rewrite drop_ge by lia. reflexivity.
  - set (stop := Z.min (start + size) len).
    rewrite (window_text_nonempty words words_start_with_text start stop)
      by (unfold stop; lia).
    destruct (IH (if stop <? len then stop - overlap_words cfg else stop) stop)
      as (ws & Hws & Hcover);
      try (destruct (Z.ltb_spec stop len); unfold stop in *; lia).
    exists ((start, stop) :: ws). rewrite Hws. split; [reflexivity|].
    cbn [fresh_portions concat]. rewrite Hcover.
    rewrite Z.max_r by lia. rewrite slice_inside by (unfold stop; lia).
    replace (Z.to_nat stop)
      with (Z.to_nat covered + Z.to_nat (stop - covered))%nat
      by (unfold stop; lia).
    rewrite <- drop_drop. apply take_drop.
  - exists []. split; [reflexivity|]. rewrite drop_ge by lia. reflexivity.
Qed.

End SlidingCoverage.

Section SlidingTotal.

Variable md5_hexdigest : string -> string.
Variable utcnow_isoformat : nat -> string.
Variable cfg : Config.t.
Variables (content_id url : string).
Variables (section_title hierarchy_path : option string).

(** X4.  With a chunk size of at least 1 and an overlap fraction in
    [0, 1), [chunk_with_sliding_window] returns within one pass per word.
    The words of each chunk are a window of [text.split()], and the parts
    of the windows that are new each time, put end to end, are
    [text.split()]. *)
Theorem sliding_window_covers (fuel : nat) (text : string) :
  1 <= Config.CHUNK_SIZE cfg ->
  (0 <= Config.CHUNK_OVERLAP cfg)%Q -> (Config.CHUNK_OVERLAP cfg < 1)%Q ->
  (length (PyStr.split text) <= fuel)%nat ->
  exists chunks windows,
    TextChunker.chunk_with_sliding_window md5_hexdigest utcnow_isoformat cfg
      content_id url section_title hierarchy_path fuel text = Some chunks
    /\ map (fun c => PyStr.split (ContentChunk.chunk_text c)) chunks
       = map (fun w => PyList.slice (PyStr.split text) (fst w) (snd w))
           windows
    /\ concat (fresh_portions (PyStr.split text) 0 windows)
       = PyStr.split text.
Proof.
  intros Hsize H0 H1 Hfuel.
  destruct (overlap_words_bounds cfg Hsize H0 H1) as [Hw0 Hw1].
  unfold TextChunker.chunk_with_sliding_window.
  destruct (PyStr.is_empty text || PyStr.is_empty (PyStr.strip text)) eqn:Hblank.
  - assert (Hs : PyStr.split text = []).
    { apply strip_empty_split. apply orb_true_iff in Hblank as [H|H].
      - destruct text; [reflexivity|discriminate].
      - destruct (PyStr.strip text); [reflexivity|discriminate]. }
    exists [], []. rewrite Hs. repeat split; reflexivity.
  - pose proof (split_tokens text) as Hok.
    destruct (word_windows_cover cfg (PyStr.split text) Hok fuel 0 0)
      as (ws & Hws & Hcover); try lia.
    pose proof (wloop_windows md5_hexdigest utcnow_isoformat cfg content_id
                  url section_title hierarchy_path (PyStr.split text) fuel
                  (TextChunker.LoopState [] 0 0)) as Hloop.
    cbn [TextChunker.chunks TextChunker.current_start map app] in Hloop.
    rewrite Hws in Hloop. cbn [option_map] in Hloop.
    assert (Hwin : Forall (fun w => Forall is_token
                             (PyList.slice (PyStr.split text) (fst w) (snd w)))
                     ws)
      by (apply Forall_forall; intros w _; apply Forall_slice, Hok).
    destruct (PyStr.split text) as [|w0 rest] eqn:E.
    + exists [], []. repeat split; reflexivity.
    + destruct (TextChunker.sliding_window_loop _ _ _ _ _ _ _ _ _ _)
        as [cs|]; [|discriminate].
      exists cs, ws. split; [reflexivity|]. split; [|exact Hcover].
      injection Hloop as Hloop.
      rewrite <- (map_map ContentChunk.chunk_text PyStr.split), Hloop, map_map.
      clear -Hwin. induction Hwin as [|w ws Hw _ IH]; [reflexivity|].
      cbn [map]. rewrite (split_join _ Hw), IH. reflexivity.
Qed.

End SlidingTotal.

(* ===================================================================== *)
(** * Further properties of the embedder *)
(* ===================================================================== *)

Section EmbedderRuns.

Variable client_embed : nat -> list string -> option (list embedding).
Variable cfg : Config.t.

Lemma embed_fallback_calls (batch : list string) : forall calls fallback,
  fst (Embedder.embed_fallback client_embed cfg calls batch fallback)
  = (calls + length batch)%nat.
Proof.
  induction batch as [|text rest IH]; intros calls fallback; cbn; [lia|].
  destruct (client_embed calls [text]); [destruct (sleep_returns _)|];
    rewrite IH; lia.
Qed.

Lemma embed_batch_calls (calls : nat) (acc : list embedding)
  (batch : list string) :
  (S calls <= fst (Embedder.embed_batch client_embed cfg (calls, acc) batch)
   <= S calls + length batch)%nat.
Proof.
  unfold Embedder.embed_batch, Embedder.except_batch.
  destruct (client_embed calls batch); [destruct (sleep_returns _)|];
    try (cbn; lia);
    pose proof (embed_fallback_calls batch (S calls) []) as H;
    destruct (Embedder.embed_fallback _ _ _ _ _) as [calls' fallback];
    cbn [fst] in *; lia.
Qed.

Lemma fold_embed_batch_calls (batches : list (list string)) : forall calls acc,
  (calls + length batches
   <= fst (fold_left (Embedder.embed_batch client_embed cfg) batches
             (calls, acc))
   <= calls + length batches + length (concat batches))%nat.
Proof.
  induction batches as [|batch rest IH]; intros calls acc;
    cbn [fold_left concat length]; [cbn; lia|].
  pose proof (embed_batch_calls calls acc batch) as Hb.
  destruct (Embedder.embed_batch _ _ _ _) as [calls1 acc1]. cbn [fst] in Hb.
  specialize (IH calls1 acc1). rewrite length_app. lia.
Qed.

(** X5.  [embed_texts] sends one request per batch of 96 texts and at most
    one more per text: no text is sent more than twice, whatever the
    provider answers. *)
Theorem embed_texts_request_count (calls : nat) (texts : list string) :
  let sent :=
    (fst (Embedder.embed_texts client_embed cfg calls texts) - calls)%nat in
  let batches := ((length texts + 95) / 96)%nat in
  (calls <= fst (Embedder.embed_texts client_embed cfg calls texts))%nat
  /\ (batches <= sent <= batches + length texts)%nat.
Proof.
  cbv zeta. unfold Embedder.embed_texts.
  destruct texts as [|t ts]; [cbn; lia|].
  rewrite (fold_left_map_arg (Embedder.embed_batch client_embed cfg)
             (fun i => PyList.slice (t :: ts) (Z.of_nat i)
                         (Z.of_nat i + Z.of_nat Embedder.max_batch_size))).
  fold (batches_of Embedder.max_batch_size (t :: ts)).
  pose proof (fold_embed_batch_calls
                (batches_of Embedder.max_batch_size (t :: ts)) calls []) as H.
  rewrite batches_of_concat in H by (unfold Embedder.max_batch_size; lia).
  replace (length (batches_of Embedder.max_batch_size (t :: ts)))
    with ((length (t :: ts) + 95) / 96)%nat in H
    by (unfold batches_of, Embedder.py_range, Embedder.max_batch_size;
        rewrite !length_map, length_seq; f_equal; lia).
  destruct (fold_left _ _ _) as [calls' all_embeddings]. cbn [fst] in *. lia.
Qed.

Hypothesis contract : one_vector_per_text client_embed.
Hypothesis delay_ok : (0 <= Config.RATE_LIMIT_DELAY cfg)%Q.



End EmbedderRuns.

Section BatchFallbackEquivalence.

(** A provider whose answer depends on the texts alone. *)
Variable embed : list string -> option (list embedding).
Variable cfg : Config.t.
Hypothesis contract : forall texts vectors,
  embed texts = Some vectors -> length vectors = length texts.
Hypothesis delay_ok : (0 <= Config.RATE_LIMIT_DELAY cfg)%Q.

Local Abbreviation client := (fun (_ : nat) texts => embed texts).

Lemma retry_outcomes_single (batch : list string) : forall calls,
  retry_outcomes client calls batch
  = map (fun t => snd (Embedder.embed_single_text client 0 t)) batch.
Proof.
  induction batch as [|t rest IH]; intros calls; [reflexivity|].
  cbn [retry_outcomes map]. rewrite IH. f_equal.
  unfold Embedder.embed_single_text.
  destruct (embed [t]) as [[|e ?]|]; reflexivity.
Qed.

Lemma embed_outcomes_all_rejected (batches : list (list string)) :
  Forall (fun b => embed b = None) batches ->
  forall calls,
    embed_outcomes client calls batches
    = map (fun t => snd (Embedder.embed_single_text client 0 t))
        (concat batches).
Proof.
  induction 1 as [|batch rest Hb _ IH]; intros calls; [reflexivity|].
  cbn [embed_outcomes concat]. rewrite Hb, retry_outcomes_single, IH, map_app.
  reflexivity.
Qed.

Lemma omap_map {A B} (f : A -> option B) (l : list A) :
  omap (fun e => e) (map f l) = omap f l.
Proof.
  induction l as [|x l IH]; [reflexivity|]. cbn. rewrite IH. reflexivity.
Qed.

(** X7.  When every batch request is rejected, [embed_texts] returns what
    embedding each text on its own with [embed_single_text] returns: the
    vectors of the texts that can be embedded, in order. *)
Theorem batch_fallback_equivalence (calls : nat) (texts : list string) :
  texts <> [] ->
  Forall (fun b => embed b = None)
    (batches_of Embedder.max_batch_size texts) ->
  snd (Embedder.embed_texts client cfg calls texts)
  = Some (omap (fun t => snd (Embedder.embed_single_text client 0 t)) texts).
Proof.
  intros Hne Hrej.
  assert (Hc : one_vector_per_text client)
    by (intros ? ? ?; apply contract).
  unfold Embedder.embed_texts. destruct texts as [|t ts]; [congruence|].
  rewrite (fold_left_map_arg (Embedder.embed_batch client cfg)
             (fun i => PyList.slice (t :: ts) (Z.of_nat i)
                         (Z.of_nat i + Z.of_nat Embedder.max_batch_size))).
  fold (batches_of Embedder.max_batch_size (t :: ts)).
  pose proof (fold_embed_batch client cfg Hc delay_ok
                (batches_of Embedder.max_batch_size (t :: ts)) calls []) as H.
  destruct (fold_left _ _ _) as [calls' all_embeddings].
  cbn [snd app] in *. rewrite H, (embed_outcomes_all_rejected _ Hrej).
  rewrite batches_of_concat by (unfold Embedder.max_batch_size; lia).
  rewrite omap_map. reflexivity.
Qed.

End BatchFallbackEquivalence.

(* ===================================================================== *)
(** * Further properties of the vector store *)
(* ===================================================================== *)

Section StorageRuns.

Variable uuid5_dns : string -> string.
Variable upsert_error : nat -> option string.

Local Abbreviation save_one :=
  (QdrantStorage.save_chunk_to_qdrant uuid5_dns upsert_error).
Local Abbreviation save_batch :=
  (QdrantStorage.save_chunks_batch uuid5_dns upsert_error).
Local Abbreviation point := (QdrantStorage.make_point uuid5_dns).
Local Abbreviation stored := (fold_left QdrantStorage.store_point).







Lemma save_all_stored (pairs : list (ContentChunk.t * embedding)) :
  forall c c',
    BookEmbeddingPipeline.save_all uuid5_dns upsert_error c pairs
    = (Ok tt, c') ->
    QdrantStorage.collection c'
    = stored (map (fun ce => point (fst ce) (snd ce)) pairs)
        (QdrantStorage.collection c)
    /\ QdrantStorage.upsert_requests c'
       = QdrantStorage.upsert_requests c
         ++ map (fun ce => [point (fst ce) (snd ce)]) pairs.
Proof.
  induction pairs as [|[chunk e] rest IH]; intros c c' H.
  - injection H as <-. rewrite app_nil_r. split; reflexivity.
  - cbn [BookEmbeddingPipeline.save_all] in H.
    unfold QdrantStorage.save_chunk_to_qdrant,
      QdrantStorage.client_upsert in H.
    destruct (upsert_error _); [discriminate|].
    apply IH in H as [Hc Hr]. rewrite Hc, Hr. cbn. split; [reflexivity|].
    rewrite <- app_assoc. reflexivity.
Qed.

(** X10.  Upserting the pairs one by one, as [process_single_url] does,
    and upserting them in one batch leave the same collection when the
    database accepts the requests: the two differ only in the number of
    requests, one per pair against one. *)
Theorem batch_equals_one_by_one (c c1 c2 : QdrantStorage.client)
  (chunks : list ContentChunk.t) (embeddings : list embedding) :
  BookEmbeddingPipeline.save_all uuid5_dns upsert_error c
    (zip chunks embeddings) = (Ok tt, c1) ->
  save_batch c chunks embeddings = (Ok tt, c2) ->
  QdrantStorage.collection c1 = QdrantStorage.collection c2
  /\ length (QdrantStorage.upsert_requests c1)
     = (length (QdrantStorage.upsert_requests c) + length chunks)%nat
  /\ length (QdrantStorage.upsert_requests c2)
     = S (length (QdrantStorage.upsert_requests c)).
Proof.
  intros H1 H2. apply save_all_stored in H1 as [Hc1 Hr1].
  unfold QdrantStorage.save_chunks_batch in H2.
  destruct (Nat.eqb_spec (length chunks) (length embeddings)) as [Hlen|];
    [|discriminate].
  cbn [negb] in H2. unfold QdrantStorage.client_upsert in H2.
  destruct (upsert_error _); [discriminate|]. injection H2 as <-.
  cbn [QdrantStorage.collection QdrantStorage.upsert_requests].
  split; [exact Hc1|]. rewrite Hr1, !length_app, length_map, length_zip.
  cbn. lia.
Qed.

End StorageRuns.

(* ===================================================================== *)
(** * Further properties of the orchestrator *)
(* ===================================================================== *)

Section PipelineRuns.

Variable md5_hexdigest : string -> string.
Variable utcnow_isoformat : nat -> string.
Variable uuid5_dns : string -> string.
Variable upsert_error : nat -> option string.
Variable client_embed : nat -> list string -> option (list embedding).
Variable cfg : Config.t.

Local Abbreviation process extract :=
  (BookEmbeddingPipeline.process_single_url md5_hexdigest utcnow_isoformat
     uuid5_dns upsert_error client_embed cfg extract).
Local Abbreviation content_id_of :=
  (BookEmbeddingPipeline._generate_content_id md5_hexdigest).

Lemma run_marks_or_leaves
  (extract : string -> option string * option string * option string)
  (fuel : nat) (st st' : BookEmbeddingPipeline.state) (url : string)
  (title hierarchy_path : option string) (content : string) (b : bool) :
  extract url = (title, Some content, hierarchy_path) ->
  PyStr.is_empty content = false ->
  process extract fuel st url = Some (b, st') ->
  (b = true
   /\ content_id_of url content ∈ BookEmbeddingPipeline.processed_content st'
   /\ BookEmbeddingPipeline.processed_content st
      ⊆ BookEmbeddingPipeline.processed_content st')
  \/ (b = false
      /\ (content_id_of url content
          ∉ BookEmbeddingPipeline.processed_content st')
      /\ BookEmbeddingPipeline.processed_content st'
         = BookEmbeddingPipeline.processed_content st).
Proof.
  intros Hextract Hcontent.
  unfold BookEmbeddingPipeline.process_single_url.
  rewrite Hextract, Hcontent.
  unfold BookEmbeddingPipeline._has_been_processed.
  destruct (bool_decide_reflect
              (content_id_of url content
               ∈ BookEmbeddingPipeline.processed_content st)) as [Hin|Hout].
  { intros [= <- <-]. left. repeat split; auto. }
  destruct (TextChunker.chunk_text _ _ _ _ _ _ _ _ _) as [[|chunk0 chunks]|];
    [| |discriminate].
  { intros [= <- <-]. right. repeat split; auto. }
  destruct (Embedder.embed_texts _ _ _ _) as [calls [embeddings|]];
    [|intros [= <- <-]; right; repeat split; auto].
  destruct (_ || _); [intros [= <- <-]; right; repeat split; auto|].
  destruct (BookEmbeddingPipeline.save_all _ _ _ _) as [[[]|err] c];
    intros [= <- <-]; [|right; repeat split; auto].
  left. unfold BookEmbeddingPipeline._mark_as_processed. cbn.
  repeat split; set_solver.
Qed.

(** X11.  For a page with content, [process_single_url] returns [True]
    exactly when the content id is in [processed_content] afterwards; a
    run that returns [False] leaves [processed_content] as it was, and no
    run removes an id from it. *)
Theorem processed_iff_success
  (extract : string -> option string * option string * option string)
  (fuel : nat) (st st' : BookEmbeddingPipeline.state) (url : string)
  (title hierarchy_path : option string) (content : string) (b : bool) :
  extract url = (title, Some content, hierarchy_path) ->
  PyStr.is_empty content = false ->
  process extract fuel st url = Some (b, st') ->
  (b = true
   <-> content_id_of url content
       ∈ BookEmbeddingPipeline.processed_content st')
  /\ BookEmbeddingPipeline.processed_content st
     ⊆ BookEmbeddingPipeline.processed_content st'
  /\ (b = false ->
      BookEmbeddingPipeline.processed_content st'
      = BookEmbeddingPipeline.processed_content st).
Proof.
  intros Hextract Hcontent Hrun.
  destruct (run_marks_or_leaves _ _ _ _ _ _ _ _ _ Hextract Hcontent Hrun)
    as [(-> & Hin & Hsub)|(-> & Hout & Heq)].
  - repeat split; auto. discriminate.
  - split; [split; [discriminate|intros H; contradiction]|].
    rewrite Heq. split; [reflexivity|trivial].
Qed.


(** X13.  Once a URL has been processed with success, a later run on the
    same URL returns [True] at once and changes nothing, provided the
    page still has the same first 100 characters: the rest of the page
    may have changed and is not looked at. *)
Theorem reprocessing_is_skipped
  (extract1 extract2 :
     string -> option string * option string * option string)
  (fuel1 fuel2 : nat) (st st1 : BookEmbeddingPipeline.state) (url : string)
  (title1 title2 path1 path2 : option string) (content1 content2 : string) :
  extract1 url = (title1, Some content1, path1) ->
  extract2 url = (title2, Some content2, path2) ->
  PyStr.is_empty content2 = false ->
  PyStr.prefix 100 content1 = PyStr.prefix 100 content2 ->
  process extract1 fuel1 st url = Some (true, st1) ->
  process extract2 fuel2 st1 url = Some (true, st1).
Proof.
  intros H1 H2 Hne Hsame Hrun.
  assert (Hne1 : PyStr.is_empty content1 = false).
  { revert Hrun. unfold BookEmbeddingPipeline.process_single_url.
    rewrite H1. destruct (PyStr.is_empty content1); [discriminate|trivial]. }
  destruct (run_marks_or_leaves extract1 fuel1 st st1 url title1 path1
              content1 true H1 Hne1 Hrun)
    as [(_ & Hin & _)|(Hb & _)]; [|discriminate].
  unfold BookEmbeddingPipeline.process_single_url. rewrite H2, Hne.
  unfold BookEmbeddingPipeline._has_been_processed,
    BookEmbeddingPipeline._generate_content_id in *.
  rewrite <- Hsame. rewrite bool_decide_eq_true_2 by exact Hin. reflexivity.
Qed.

End PipelineRuns.

Section AdminRuns.

Variable admin_error : nat -> option string.
Hypothesis healthy : forall request, admin_error request = None.

(** X14.  With a database that serves every administrative request,
    [create_collection] succeeds whether or not the collection existed,
    and leaves a collection of the requested vector size with no point in
    it: [collection_exists] then answers [True] and [count_points] 0,
    whatever was stored before. *)
Theorem create_collection_recreates (db : QdrantStorage.database)
  (vector_size : nat) :
  let out := QdrantStorage.create_collection admin_error db vector_size in
  fst out = Ok tt
  /\ QdrantStorage.vector_size (snd out) = Some vector_size
  /\ QdrantStorage.collection (QdrantStorage.points (snd out)) = ∅
  /\ QdrantStorage.upsert_requests (QdrantStorage.points (snd out))
     = QdrantStorage.upsert_requests (QdrantStorage.points db)
  /\ fst (QdrantStorage.collection_exists admin_error (snd out)) = true
  /\ fst (QdrantStorage.count_points admin_error (snd out)) = O.
Proof.
  cbv zeta. unfold QdrantStorage.create_collection,
    QdrantStorage.collection_exists, QdrantStorage.count_points,
    QdrantStorage.client_get_collections, QdrantStorage.client_count,
    QdrantStorage.client_delete_collection,
    QdrantStorage.client_create_collection.
  destruct db as [[size|] [col reqs] n]; cbn; rewrite !healthy; cbn;
    rewrite ?healthy; cbn; rewrite ?healthy; cbn;
    repeat split; try reflexivity; apply map_size_empty.
Qed.

End AdminRuns.

(** A database that fails its first administrative request makes
    [create_collection] raise, where [collection_exists] and
    [count_points] fall back on [False] and 0. *)
Example admin_failure_propagates_or_degrades :
  let failing := fun request : nat => Some "connection refused" in
  let db := QdrantStorage.Database (Some 768%nat) empty_client 0 in
  fst (QdrantStorage.create_collection failing db 768)
  = Raise (ProviderError "connection refused")
  /\ fst (QdrantStorage.collection_exists failing db) = false
  /\ fst (QdrantStorage.count_points failing db) = O.
Proof. repeat split. Qed.

(* ===================================================================== *)
(** * Further properties of the validator *)
(* ===================================================================== *)

Lemma Qmult_comm_eq (x y : Q) : (x * y)%Q = (y * x)%Q.
Proof.
  destruct x, y. unfold Qmult. cbn. rewrite Z.mul_comm, Pos.mul_comm.
  reflexivity.
Qed.

Lemma dot_product_comm (v1 : embedding) : forall (v2 : embedding) (acc : Q),
  fold_left Qplus (map (fun ab => (fst ab * snd ab)%Q) (zip v1 v2)) acc
  = fold_left Qplus (map (fun ab => (fst ab * snd ab)%Q) (zip v2 v1)) acc.
Proof.
  induction v1 as [|a v1 IH]; intros [|b v2] acc; try reflexivity.
  cbn. rewrite (Qmult_comm_eq a b). apply IH.
Qed.

(** X15.  [_cosine_similarity] is symmetric in its two vectors. *)
Theorem cosine_similarity_symmetric (pow_half : Q -> Q) (v1 v2 : embedding) :
  Validator._cosine_similarity pow_half v1 v2
  = Validator._cosine_similarity pow_half v2 v1.
Proof.
  unfold Validator._cosine_similarity, Validator.sum. cbv zeta.
  rewrite (dot_product_comm v1 v2), orb_comm.
  rewrite (Qmult_comm_eq (pow_half _) (pow_half _)). reflexivity.
Qed.

Lemma shape_1_all_equal (embeddings : list embedding) (d : nat) :
  Validator.shape_1 embeddings = Some d <->
  embeddings <> [] /\ Forall (fun e => length e = d) embeddings.
Proof.
  unfold Validator.shape_1. destruct embeddings as [|e rest].
  - split; [discriminate|intros [H _]; congruence].
  - destruct (forallb (fun e' => (length e' =? length e)%nat) rest) eqn:E.
    + pose proof (proj1 (forallb_forall _ _) E) as E'. clear E.
      rename E' into E. split.
      * intros [= <-]. split; [discriminate|]. constructor; [reflexivity|].
        apply Forall_forall. intros e' He'. apply Nat.eqb_eq, E.
        apply list_elem_of_In, He'.
      * intros [_ H]. inversion H; subst. reflexivity.
    + split; [discriminate|]. intros [_ H]. inversion H as [|? ? He Hrest]; subst.
      assert (forallb (fun e' => (length e' =? length e)%nat) rest = true);
        [|congruence].
      apply forallb_forall. intros e' He'. apply Nat.eqb_eq.
      rewrite Forall_forall in Hrest. apply Hrest, list_elem_of_In, He'.
Qed.

Section QualityRuns.

Variable client_embed : nat -> list string -> option (list embedding).
Variable cfg : Config.t.
Variable pow_half : Q -> Q.
Variable np_linalg_norm : embedding -> Q.
Variables np_mean np_std np_min np_max : list Q -> Q.
Variable np_shape_error : string.

Local Abbreviation validate :=
  (Validator.validate_embedding_quality client_embed cfg pow_half
     np_linalg_norm np_mean np_std np_min np_max np_shape_error).

(** X16.  The quality check reports [is_valid] exactly when there is at
    least one text, [embed_texts] returned one embedding per text, and
    every embedding has 1024 components; in any other case the flag is
    absent or [False]. *)
Theorem is_valid_characterised (calls : nat) (texts : list string) :
  Validator.get_is_valid (snd (validate calls texts)) = true <->
  texts <> []
  /\ exists embeddings,
       snd (Embedder.embed_texts client_embed cfg calls texts)
       = Some embeddings
       /\ length embeddings = length texts
       /\ Forall (fun e => length e = 1024%nat) embeddings.
Proof.
  unfold Validator.validate_embedding_quality.
  destruct texts as [|t ts].
  { cbn. split; [discriminate|intros [H _]; congruence]. }
  destruct (Embedder.embed_texts _ _ _ _) as [calls' [embeddings|]];
    cbn [snd].
  - destruct (Nat.eqb_spec (length embeddings) 0) as [H0|H0].
    { cbn. split; [discriminate|].
      intros (_ & l & [= <-] & Hlen & _). cbn in Hlen. lia. }
    destruct (Nat.eqb_spec (length embeddings) (length (t :: ts)))
      as [Hlen|Hlen]; cbn [negb orb snd].
    + change (default [] (Some embeddings)) with embeddings.
      destruct (Validator.shape_1 embeddings) as [d|] eqn:Hshape;
        cbn [snd Validator.get_is_valid Validator.is_valid].
      * apply shape_1_all_equal in Hshape as [Hne Hall].
        destruct (Nat.eqb_spec d 1024) as [->|Hd].
        -- split; [|reflexivity].
           intros _. split; [discriminate|]. exists embeddings. auto.
        -- split; [discriminate|]. intros (_ & l & [= <-] & _ & H1024).
           destruct embeddings as [|e rest]; [congruence|].
           inversion Hall; inversion H1024; subst. congruence.
      * split; [discriminate|]. intros (_ & l & [= <-] & _ & H1024).
        assert (Validator.shape_1 embeddings = Some 1024%nat);
          [|congruence].
        apply shape_1_all_equal. split; [|exact H1024].
        intros ->. cbn in H0. lia.
    + cbn. split; [discriminate|]. intros (_ & l & [= <-] & H & _).
      contradiction.
  - cbn. split; [discriminate|]. intros (_ & l & H & _). discriminate.
Qed.

End QualityRuns.

Lemma sum_zero_one (l : list Q) : forall acc : Q,
  Forall (fun q => q = (0 # 1) \/ q = (1 # 1)) l ->
  (acc <= fold_left Qplus l acc)%Q
  /\ (fold_left Qplus l acc <= acc + inject_Z (Z.of_nat (length l)))%Q.
Proof.
  induction l as [|q l IH]; intros acc Hall.
  - cbn. change (inject_Z (Z.of_nat 0)) with 0%Q. split; lra.
  - inversion Hall as [|? ? Hq Hl]; subst. cbn [fold_left length].
    destruct (IH (acc + q)%Q Hl) as [H1 H2].
    rewrite Nat2Z.inj_succ, <- Z.add_1_r, inject_Z_plus.
    change (inject_Z 1) with 1%Q.
    revert H1 H2. generalize (inject_Z (Z.of_nat (length l))).
    generalize (fold_left Qplus l (acc + q)%Q). intros s k H1 H2.
    destruct Hq as [-> | ->]; split; lra.
Qed.

Lemma query_accuracy_values (expected : string)
  (chunks : list QdrantStorage.chunk_info) :
  (Validator.query_accuracy expected chunks = (0 # 1)
   \/ Validator.query_accuracy expected chunks = (1 # 1))
  /\ (PyStr.contains expected
        (match chunks with
         | top :: _ => QdrantStorage.ci_url top
         | [] => EmptyString
         end) = true ->
      chunks <> [] ->
      Validator.query_accuracy expected chunks = (1 # 1)).
Proof.
  unfold Validator.query_accuracy. destruct chunks as [|top rest].
  - cbn. split; [left; reflexivity|congruence].
  - destruct (PyStr.contains expected (QdrantStorage.ci_url top)) eqn:E.
    + split; [right; reflexivity|reflexivity].
    + split; [|discriminate]. destruct (existsb _ _); auto.
Qed.

Section RetrievalRuns.

Variable client_embed : nat -> list string -> option (list embedding).
Variable query_points :
  embedding -> Z -> option (list QdrantStorage.ScoredPoint).

Local Abbreviation rbody :=
  (Validator.retrieval_body client_embed query_points).
Local Abbreviation rloop :=
  (Validator.retrieval_loop client_embed query_points).

Lemma metric_ok_later (n : nat) (m : Validator.accuracy_metric) :
  metric_ok n m -> metric_ok (S n) m.
Proof. intros (H1 & H2 & H3). repeat split; auto. Qed.

Lemma retrieval_body_ok (expected : option (list string))
  (st : Validator.retrieval_state) (i : nat) (query : string) :
  retrieval_ok i st ->
  retrieval_ok (S i) (rbody expected st i query)
  /\ Validator.rs_calls (rbody expected st i query)
     = S (Validator.rs_calls st).
Proof.
  intros (Hs & Hm & Hall).
  assert (Hlater : Forall (metric_ok (S i)) (Validator.rs_metrics st))
    by (eapply Forall_impl; [exact Hall|apply metric_ok_later]).
  unfold Validator.retrieval_body, Embedder.embed_single_text.
  destruct (client_embed _ [query]) as [[|e es]|];
    try (split; [repeat split; cbn; auto; lia|reflexivity]).
  destruct e as [|x e];
    try (split; [repeat split; cbn; auto; lia|reflexivity]).
  destruct (QdrantStorage.search_similar _ _ _) as [|top rest];
    try (split; [repeat split; cbn; auto; lia|reflexivity]).
  split; [|reflexivity]. unfold retrieval_ok.
  destruct expected as [[|u us]|]; try (cbn; repeat split; auto; lia).
  destruct (nth_error (u :: us) i) as [expected_url|];
    try (cbn; repeat split; auto; lia).
  cbn [Validator.rs_successful Validator.rs_metrics].
  repeat split; [lia|rewrite length_app; cbn; lia|].
  apply Forall_app. split; [exact Hlater|]. constructor; [|constructor].
  destruct (query_accuracy_values expected_url (top :: rest)) as [Hv Htop].
  repeat split; cbn; [exact Hv|lia|].
  intros H. apply Htop; [exact H|discriminate].
Qed.

Lemma retrieval_loop_ok (expected : option (list string))
  (queries : list string) : forall st i,
  retrieval_ok i st ->
  retrieval_ok (i + length queries) (rloop expected st i queries)
  /\ Validator.rs_calls (rloop expected st i queries)
     = (Validator.rs_calls st + length queries)%nat.
Proof.
  induction queries as [|query rest IH]; intros st i Hst.
  - cbn. rewrite !Nat.add_0_r. split; [exact Hst|reflexivity].
  - cbn [Validator.retrieval_loop length].
    destruct (retrieval_body_ok expected st i query Hst) as [Hok Hcalls].
    destruct (IH _ _ Hok) as [H1 H2]. rewrite H2, Hcalls.
    replace (i + S (length rest))%nat with (S i + length rest)%nat by lia.
    split; [exact H1|lia].
Qed.

(** X17.  A report of [validate_retrieval_accuracy] counts every query,
    counts as successful at most that many, and holds at most one
    accuracy entry per successful query; each entry's accuracy is 0 or 1,
    and 1 when the top result's URL contains the expected URL; the
    average recall lies between 0 and 1; and the embedder has been sent
    exactly one request per query. *)
Theorem retrieval_report_consistent (calls calls' : nat)
  (queries : list string) (expected : option (list string))
  (r : Validator.retrieval_results) :
  Validator.validate_retrieval_accuracy client_embed query_points calls
    queries expected = (calls', Validator.Retrieval r) ->
  Validator.query_count r = length queries
  /\ (Validator.successful_retrievals r <= Validator.query_count r)%nat
  /\ (length (Validator.accuracy_metrics r)
      <= Validator.successful_retrievals r)%nat
  /\ Forall (metric_ok (length queries)) (Validator.accuracy_metrics r)
  /\ (0 <= Validator.average_recall r)%Q
  /\ (Validator.average_recall r <= 1)%Q
  /\ calls' = (calls + length queries)%nat.
Proof.
  unfold Validator.validate_retrieval_accuracy.
  destruct queries as [|q qs]; [discriminate|].
  destruct (retrieval_loop_ok expected (q :: qs)
              (Validator.RetrievalState calls 0 []) 0)
    as [(Hs & Hm & Hall) Hcalls];
    [repeat split; cbn; auto|].
  cbn [Nat.add] in *. intros [= <- <-].
  cbn [Validator.query_count Validator.successful_retrievals
       Validator.accuracy_metrics Validator.average_recall].
  repeat split; try assumption.
  - destruct (Validator.rs_metrics _) as [|m ms] eqn:E; [lra|].
    destruct (sum_zero_one (map Validator.accuracy (m :: ms)) (0 # 1))
      as [H0 _].
    { apply Forall_map. eapply Forall_impl; [exact Hall|].
      intros ? (Hv & _). exact Hv. }
    apply Qle_shift_div_l; [|unfold Validator.sum; lra].
    unfold Qlt, inject_Z. cbn. lia.
  - destruct (Validator.rs_metrics _) as [|m ms] eqn:E; [lra|].
    destruct (sum_zero_one (map Validator.accuracy (m :: ms)) (0 # 1))
      as [_ H1].
    { apply Forall_map. eapply Forall_impl; [exact Hall|].
      intros ? (Hv & _). exact Hv. }
    apply Qle_shift_div_r; [unfold Qlt, inject_Z; cbn; lia|].
    rewrite length_map in H1. unfold Validator.sum. lra.
Qed.

End RetrievalRuns.

Section PipelineLoop.

Variable md5_hexdigest : string -> string.
Variable utcnow_isoformat : nat -> string.
Variable uuid5_dns : string -> string.
Variable upsert_error : nat -> option string.
Variable client_embed : nat -> list string -> option (list embedding).
Variable cfg : Config.t.
Variable extract_text_from_url :
  string -> option string * option string * option string.

Local Abbreviation process_one :=
  (BookEmbeddingPipeline.process_single_url md5_hexdigest utcnow_isoformat
     uuid5_dns upsert_error client_embed cfg extract_text_from_url).
Local Abbreviation process_all :=
  (BookEmbeddingPipeline.process_urls md5_hexdigest utcnow_isoformat
     uuid5_dns upsert_error client_embed cfg extract_text_from_url).

Lemma size_add_one (x : string) (X : gset string) :
  (size ({[x]} ∪ X) <= S (size X))%nat.
Proof.
  rewrite size_union_alt, size_singleton.
  assert (Hsub : X ∖ {[x]} ⊆ X)
    by (intros y Hy; apply elem_of_difference in Hy; tauto).
  apply subseteq_size in Hsub. lia.
Qed.

Lemma process_single_url_grows (fuel : nat)
  (st st' : BookEmbeddingPipeline.state) (url : string) (b : bool) :
  process_one fuel st url = Some (b, st') ->
  BookEmbeddingPipeline.processed_content st
    ⊆ BookEmbeddingPipeline.processed_content st'
  /\ (size (BookEmbeddingPipeline.processed_content st')
      <= size (BookEmbeddingPipeline.processed_content st)
         + (if b then 1 else 0))%nat.
Proof.
  unfold BookEmbeddingPipeline.process_single_url.
  assert (Hsame : forall b0 : bool,
            BookEmbeddingPipeline.processed_content st
              ⊆ BookEmbeddingPipeline.processed_content st
            /\ (size (BookEmbeddingPipeline.processed_content st)
                <= size (BookEmbeddingPipeline.processed_content st)
                   + (if b0 then 1 else 0))%nat)
    by (intros b0; split; [set_solver|destruct b0; lia]).
  destruct (extract_text_from_url url) as [[title [content|]] path];
    [|intros [= <- <-]; apply (Hsame false)].
  destruct (PyStr.is_empty content);
    [intros [= <- <-]; apply (Hsame false)|].
  destruct (BookEmbeddingPipeline._has_been_processed _ _);
    [intros [= <- <-]; apply (Hsame true)|].
  destruct (TextChunker.chunk_text _ _ _ _ _ _ _ _ _) as [[|chunk0 chunks]|];
    [intros [= <- <-]; apply (Hsame false)| |discriminate].
  destruct (Embedder.embed_texts _ _ _ _) as [calls [embeddings|]];
    [|intros [= <- <-]; apply (Hsame false)].
  destruct (_ || _); [intros [= <- <-]; apply (Hsame false)|].
  destruct (BookEmbeddingPipeline.save_all _ _ _ _) as [[[]|err] c];
    intros [= <- <-]; [|apply (Hsame false)].
  unfold BookEmbeddingPipeline._mark_as_processed.
  cbn [BookEmbeddingPipeline.processed_content].
  split; [apply union_subseteq_r|].
  pose proof (size_add_one
                (BookEmbeddingPipeline._generate_content_id md5_hexdigest url
                   content)
                (BookEmbeddingPipeline.processed_content st)). lia.
Qed.

(** X18.  When the URL loop of [run_pipeline] completes, every URL has
    been counted exactly once, as processed or as failed; no content id
    has been forgotten; and [processed_content] has grown by at most one
    id per URL counted as processed.  The loop completes on a non-empty
    list only if [RATE_LIMIT_DELAY] is not negative. *)
Theorem process_urls_counts (fuel : nat) (urls : list string) :
  forall (st st' : BookEmbeddingPipeline.state)
         (processed_count failed_count processed_count' failed_count' : nat),
  process_all fuel st urls processed_count failed_count
    = Some (Ok (processed_count', failed_count'), st') ->
  (processed_count' + failed_count'
   = processed_count + failed_count + length urls)%nat
  /\ (processed_count <= processed_count')%nat
  /\ (failed_count <= failed_count')%nat
  /\ BookEmbeddingPipeline.processed_content st
       ⊆ BookEmbeddingPipeline.processed_content st'
  /\ (size (BookEmbeddingPipeline.processed_content st')
      <= size (BookEmbeddingPipeline.processed_content st)
         + (processed_count' - processed_count))%nat
  /\ (urls <> [] -> sleep_returns (Config.RATE_LIMIT_DELAY cfg) = true).
Proof.
  induction urls as [|url rest IH]; intros st st' p f p' f'.
  - cbn. intros [= <- <- <-]. repeat split; try lia; [set_solver|congruence].
  - cbn [BookEmbeddingPipeline.process_urls length].
    destruct (process_one fuel st url) as [[b st1]|] eqn:Hone; [|discriminate].
    destruct (process_single_url_grows _ _ _ _ _ Hone) as [Hsub Hsize].
    destruct (sleep_returns _) eqn:Hsleep; [|destruct b; discriminate].
    destruct b; intros Hrest; destruct (IH _ _ _ _ _ _ Hrest)
      as (H1 & H2 & H3 & H4 & H5 & _);
      repeat split; try lia; try (etransitivity; eassumption);
      intros _; exact Hsleep.
Qed.

(** X19.  With a negative [RATE_LIMIT_DELAY] the URL loop of
    [run_pipeline] handles the first URL and then ends with the
    [ValueError] of [time.sleep]: no later URL is processed and no
    summary is produced. *)
Theorem process_urls_negative_delay (fuel : nat) (url : string)
  (rest : list string) (st st1 : BookEmbeddingPipeline.state) (b : bool)
  (processed_count failed_count : nat) :
  (Config.RATE_LIMIT_DELAY cfg < 0)%Q ->
  process_one fuel st url = Some (b, st1) ->
  process_all fuel st (url :: rest) processed_count failed_count
    = Some (Raise (ValueError "sleep length must be non-negative"), st1).
Proof.
  intros Hneg Hone. cbn [BookEmbeddingPipeline.process_urls]. rewrite Hone.
  assert (Hsleep : sleep_returns (Config.RATE_LIMIT_DELAY cfg) = false).
  { destruct (sleep_returns _) eqn:E; [|reflexivity].
    apply Qle_bool_iff in E. lra. }
  rewrite Hsleep. destruct b; reflexivity.
Qed.

End PipelineLoop.

(** X20.  The success rate of the summary is a percentage: it lies
    between 0 and 100, and it is 100 exactly when at least one URL was
    processed and none failed. *)
Theorem success_rate_percentage (processed_count failed_count : nat) :
  (0 <= BookEmbeddingPipeline.success_rate processed_count failed_count)%Q
  /\ (BookEmbeddingPipeline.success_rate processed_count failed_count
      <= 100 # 1)%Q
  /\ ((BookEmbeddingPipeline.success_rate processed_count failed_count
       == 100 # 1)%Q
      <-> (0 < processed_count)%nat /\ failed_count = 0%nat).
Proof.
  unfold BookEmbeddingPipeline.success_rate. cbv zeta.
  destruct (Nat.ltb_spec 0 (processed_count + failed_count)) as [Hpos|Hzero].
  - set (a := inject_Z (Z.of_nat processed_count)).
    set (t := inject_Z (Z.of_nat (processed_count + failed_count))).
    assert (Ha : (0 <= a)%Q)
      by (unfold a; change 0%Q with (inject_Z 0); rewrite <- Zle_Qle; lia).
    assert (Hat : (a <= t)%Q) by (unfold a, t; rewrite <- Zle_Qle; lia).
    assert (Ht : (0 < t)%Q)
      by (unfold t; change 0%Q with (inject_Z 0); rewrite <- Zlt_Qlt; lia).
    assert (H0 : (0 <= a / t)%Q) by (apply Qle_shift_div_l; lra).
    assert (H1 : (a / t <= 1)%Q) by (apply Qle_shift_div_r; lra).
    split; [lra|]. split; [lra|]. split.
    + intros Heq. assert (Hone : (a / t == 1)%Q) by lra.
      assert (Heqat : (a == t)%Q).
      { assert (Hnz : ~ (t == 0)%Q) by (intros E; lra).
        pose proof (Qmult_div_r a t Hnz) as Hmul.
        revert Hmul Hone. generalize (a / t)%Q. intros r Hmul Hone.
        rewrite Hone in Hmul. lra. }
      unfold a, t in Heqat. rewrite inject_Z_injective in Heqat. lia.
    + intros [Hp ->]. unfold a, t. rewrite Nat.add_0_r.
      field. change 0%Q with (inject_Z 0). rewrite inject_Z_injective. lia.
  - split; [lra|]. split; [lra|]. split; [intros H; lra|lia].
Qed.

(* ===================================================================== *)
(** * The conversation log *)
(* ===================================================================== *)

Section HistoryRuns.

Variable insert_fails : nat -> bool.
Variable row_timestamp : nat -> string.
Variable fetch_fails : nat -> bool.

Local Abbreviation history :=
  (NeonLogger.get_conversation_history row_timestamp fetch_fails).

(** X21.  [get_conversation_history] returns at most [limit] entries,
    each of them a row of the table with the conversation id asked for;
    it never returns more entries than there are rows. *)
Theorem history_lists_logged_rows (l : NeonLogger.t)
  (conversation_id : string) (limit : Z) :
  (Z.of_nat (length (history l conversation_id limit)) <= Z.max 0 limit)
  /\ (length (history l conversation_id limit)
      <= length (NeonLogger.conversations l))%nat
  /\ Forall (fun e =>
               NeonLogger.h_conversation_id e = conversation_id
               /\ exists position row,
                    NeonLogger.conversations l !! position = Some row
                    /\ NeonLogger.conversation_id row = conversation_id
                    /\ e = NeonLogger.entry_of row_timestamp position row)
            (history l conversation_id limit).
Proof.
  unfold NeonLogger.get_conversation_history.
  destruct (_ || _); [cbn; repeat split; [lia|lia|constructor]|].
  destruct (fetch_fails _); cbn [orb];
    [cbn; repeat split; [lia|lia|constructor]|].
  destruct (Z.ltb_spec limit 0) as [Hneg|Hpos];
    [cbn; repeat split; [lia|lia|constructor]|].
  set (rows := filter _ _).
  assert (Hrows : (length rows <= length (NeonLogger.conversations l))%nat).
  { unfold rows. etransitivity; [apply length_filter|].
    rewrite length_imap. reflexivity. }
  repeat split.
  - rewrite length_take. lia.
  - rewrite length_take, length_rev. lia.
  - apply Forall_take, Forall_rev, Forall_forall. intros e He.
    unfold rows in He.
    apply list_elem_of_filter in He. destruct He as [Hid He].
    apply elem_of_lookup_imap_1 in He. destruct He as (i & row & -> & Hrow).
    split; [exact Hid|]. exists i, row. repeat split; assumption.
Qed.


End HistoryRuns.

(* ===================================================================== *)
(** * The [/ask] endpoint, every path *)
(* ===================================================================== *)

Section AskRuns.

Variable client_embed : nat -> list string -> option (list embedding).
Variable query_points :
  embedding -> Z -> option (list QdrantStorage.ScoredPoint).
Variable insert_fails : nat -> bool.
Variable uuid4 : string.
Variable cohere_chat : string -> result string.
Variable now_isoformat : string.

Local Abbreviation ask :=
  (Api.ask_question client_embed query_points insert_fails uuid4 cohere_chat
     now_isoformat).

(** X23.  Every call of [ask_question] sends the embedder exactly one
    request.  A call that fails raises an [HTTPException] with status 500
    and leaves the conversation log as it was.  A call that answers
    echoes the question, keeps a non-empty conversation id of the
    caller (and otherwise uses a fresh UUID), and hands the logger
    exactly the conversation id, question, answer and sources it
    returns. *)
Theorem ask_question_effects (st : Api.state) (client_host : option string)
  (chat_message : Api.ChatMessage) :
  let '(outcome, st') := ask st client_host chat_message in
  Api.embed_calls st' = S (Api.embed_calls st)
  /\ match outcome with
     | Raise e =>
         (exists detail, e = HTTPException 500 detail)
         /\ Api.neon_logger st' = Api.neon_logger st
     | Ok r =>
         Api.query r = Api.message chat_message
         /\ (forall c, Api.conversation_id chat_message = Some c ->
                       PyStr.is_empty c = false ->
                       Api.rag_conversation_id r = c)
         /\ (Api.conversation_id chat_message = None
             \/ Api.conversation_id chat_message = Some EmptyString ->
             Api.rag_conversation_id r = uuid4)
         /\ exists metadata,
              Api.neon_logger st'
              = NeonLogger.log_interaction insert_fails (Api.neon_logger st)
                  (Api.rag_conversation_id r) (Api.query r) (Api.answer r)
                  (Some (Api.sources r)) client_host metadata
     end.
Proof.
  unfold Api.ask_question, Api.ask_question_try, Embedder.embed_single_text.
  assert (Hid : forall c,
            Api.conversation_id chat_message = Some c ->
            PyStr.is_empty c = false ->
            match Api.conversation_id chat_message with
            | Some c0 => if PyStr.is_empty c0 then uuid4 else c0
            | None => uuid4
            end = c)
    by (intros c -> ->; reflexivity).
  assert (Hfresh :
            Api.conversation_id chat_message = None
            \/ Api.conversation_id chat_message = Some EmptyString ->
            match Api.conversation_id chat_message with
            | Some c0 => if PyStr.is_empty c0 then uuid4 else c0
            | None => uuid4
            end = uuid4)
    by (intros [-> | ->]; reflexivity).
  destruct (client_embed _ _) as [[|[|x e] es]|];
    try (cbn; split; [reflexivity|split; [eexists; reflexivity|reflexivity]]).
  destruct (QdrantStorage.search_similar _ _ _) as [|top rest].
  - cbn. repeat split; auto. exists None. reflexivity.
  - destruct (cohere_chat _) as [text|err].
    + cbn. repeat split; auto. eexists (Some _). reflexivity.
    + cbn. split; [reflexivity|split; [eexists; reflexivity|reflexivity]].
Qed.

End AskRuns.

(* ===================================================================== *)
(** * URL discovery *)
(* ===================================================================== *)

Lemma mem_spec (x : string) (l : list string) :
  URLManager.mem x l = true <-> x ∈ l.
Proof.
  unfold URLManager.mem. induction l as [|y l IH]; cbn [existsb].
  - split; [discriminate|]. intros H. inversion H.
  - rewrite orb_true_iff, IH, elem_of_cons, String.eqb_eq. tauto.
Qed.

Section CrawlRuns.

Variable target_base_url : string.
Variable url_path : string -> string.
Variable page_links : string -> option (list string).

Local Abbreviation valid :=
  (URLManager._is_valid_content_url target_base_url url_path).
Local Abbreviation scan := (URLManager.scan_links target_base_url url_path).
Local Abbreviation body :=
  (URLManager.crawl_body target_base_url url_path page_links).
Local Abbreviation loop :=
  (URLManager.crawl_loop target_base_url url_path page_links).

Lemma valid_content_url (url : string) :
  valid url = true -> content_url target_base_url url.
Proof.
  unfold URLManager._is_valid_content_url, content_url.
  destruct (PyStr.startswith url target_base_url); [|discriminate].
  cbn [negb]. destruct (existsb _ URLManager.excluded_patterns) eqn:E;
    [discriminate|].
  intros _. split; [reflexivity|]. apply Forall_forall. intros pattern Hin.
  destruct (PyStr.contains pattern (PyStr.lower url)) eqn:Hc; [|reflexivity].
  assert (existsb (fun pattern => PyStr.contains pattern (PyStr.lower url))
            URLManager.excluded_patterns = true); [|congruence].
  apply existsb_exists. exists pattern. split; [|exact Hc].
  apply list_elem_of_In, Hin.
Qed.

Lemma scan_links_ok (max_urls : Z) (links : list string) :
  forall urls to_crawl,
  Z.of_nat (length urls) < max_urls ->
  NoDup urls ->
  Forall (fun u => valid u = true) urls ->
  NoDup (fst (scan max_urls links urls to_crawl))
  /\ Forall (fun u => valid u = true) (fst (scan max_urls links urls to_crawl))
  /\ Z.of_nat (length (fst (scan max_urls links urls to_crawl))) <= max_urls
  /\ (length urls <= length (fst (scan max_urls links urls to_crawl)))%nat
  /\ (length (snd (scan max_urls links urls to_crawl)) + length urls
      = length to_crawl + length (fst (scan max_urls links urls to_crawl)))%nat.
Proof.
  induction links as [|full_url rest IH]; intros urls to_crawl Hroom Hnd Hval;
    cbn [URLManager.scan_links].
  - cbn. repeat split; auto; lia.
  - destruct (_ && _) eqn:Hcond; cbv beta iota zeta;
      fold (scan max_urls).
    + apply andb_true_iff in Hcond. destruct Hcond as [Hcond Hnew].
      apply andb_true_iff in Hcond. destruct Hcond as [_ Hvalid].
      apply negb_true_iff in Hnew.
      assert (Hfresh : full_url ∉ urls).
      { intros Hin. apply mem_spec in Hin. congruence. }
      assert (Hnd' : NoDup (urls ++ [full_url])).
      { apply NoDup_app. repeat split; [exact Hnd| |apply NoDup_singleton].
        intros y Hy Hy'. apply list_elem_of_singleton in Hy'. subst y.
        contradiction. }
      assert (Hval' : Forall (fun u => valid u = true) (urls ++ [full_url])).
      { apply Forall_app. split; [exact Hval|]. repeat constructor.
        exact Hvalid. }
      assert (Hlen : length (urls ++ [full_url]) = S (length urls))
        by (rewrite length_app; cbn; lia).
      destruct (Z.leb_spec max_urls (Z.of_nat (length (urls ++ [full_url]))))
        as [Hfull|Hmore].
      * cbn [fst snd]. rewrite !length_app. cbn [length].
        repeat split; auto; lia.
      * destruct (IH (urls ++ [full_url]) (to_crawl ++ [full_url])
                    Hmore Hnd' Hval') as (H1 & H2 & H3 & H4 & H5).
        pose proof (length_app to_crawl [full_url]) as Hlen'.
        cbn [length] in Hlen'. repeat split; auto; lia.
    + destruct (Z.leb_spec max_urls (Z.of_nat (length urls))) as [Hfull|_];
        [lia|].
      apply IH; assumption.
Qed.

Lemma crawl_body_ok (max_urls : Z) (st : URLManager.crawl_state)
  (current_url : string) (rest : list string) :
  Z.of_nat (length (URLManager.urls st)) < max_urls ->
  crawl_ok target_base_url url_path max_urls (URLManager.urls st) ->
  crawl_ok target_base_url url_path max_urls
    (URLManager.urls (body max_urls st current_url rest))
  /\ (crawl_measure max_urls (body max_urls st current_url rest)
      <= length rest + (Z.to_nat max_urls - length (URLManager.urls st)))%nat
  /\ (forall v, v ∈ URLManager.visited_urls st ->
                v ∈ URLManager.visited_urls (body max_urls st current_url rest)).
Proof.
  intros Hroom (Hnd & Hval & Hlen).
  unfold URLManager.crawl_body, crawl_measure.
  destruct (_ || _).
  { cbn. repeat split; auto. }
  destruct (page_links current_url) as [links|].
  - pose proof (scan_links_ok max_urls links (URLManager.urls st) rest
                  Hroom Hnd Hval) as (H1 & H2 & H3 & H4 & H5).
    destruct (scan max_urls links (URLManager.urls st) rest)
      as [urls' to_crawl'].
    cbn [fst snd] in *. cbn. repeat split; auto; try lia.
    intros v Hv. apply elem_of_app. left. exact Hv.
  - cbn. repeat split; auto.
    intros v Hv. apply elem_of_app. left. exact Hv.
Qed.

Lemma crawl_loop_terminates (max_urls : Z) (fuel : nat) :
  forall st,
  crawl_ok target_base_url url_path max_urls (URLManager.urls st) ->
  (crawl_measure max_urls st <= fuel)%nat ->
  exists st',
    loop fuel max_urls st = Some st'
    /\ crawl_ok target_base_url url_path max_urls (URLManager.urls st')
    /\ (forall v, v ∈ URLManager.visited_urls st ->
                  v ∈ URLManager.visited_urls st').
Proof.
  induction fuel as [|fuel IH]; intros st Hok Hfuel;
    cbn [URLManager.crawl_loop]; unfold crawl_measure in Hfuel;
    destruct (URLManager.to_crawl st) as [|current_url rest] eqn:Hto;
    try (exists st; repeat split; auto; apply Hok);
    destruct (Z.ltb_spec (Z.of_nat (length (URLManager.urls st))) max_urls)
      as [Hroom|Hfull];
    try (exists st; repeat split; auto; apply Hok).
  - cbn [length] in Hfuel. lia.
  - destruct (crawl_body_ok max_urls st current_url rest Hroom Hok)
      as (Hok' & Hmeasure & Hvisited).
    destruct (IH (body max_urls st current_url rest) Hok')
      as (st' & Hrun & Hok'' & Hvisited').
    { cbn [length] in Hfuel. lia. }
    exists st'. repeat split; auto; apply Hok''.
Qed.

(** X24.  [crawl_for_urls] terminates: its loop is passed at most
    [max_urls + 1] times, whatever the pages link to.  It returns at
    most [max_urls] URLs, none of them twice, each one accepted by
    [_is_valid_content_url]; and it forgets no visited URL. *)
Theorem crawl_for_urls_terminates (fuel : nat) (visited : list string)
  (start_url : string) (max_urls : Z) :
  (Z.to_nat max_urls < fuel)%nat ->
  exists found visited',
    URLManager.crawl_for_urls target_base_url url_path page_links fuel
      visited start_url max_urls = Some (found, visited')
    /\ NoDup found
    /\ Forall (fun u => valid u = true) found
    /\ Z.of_nat (length found) <= Z.max 0 max_urls
    /\ (forall v, v ∈ visited -> v ∈ visited').
Proof.
  intros Hfuel. unfold URLManager.crawl_for_urls.
  destruct (crawl_loop_terminates max_urls fuel
              (URLManager.CrawlState visited [] [start_url]))
    as (st' & Hrun & (Hnd & Hval & Hlen) & Hvisited).
  - repeat split; cbn; [constructor|constructor|lia].
  - unfold crawl_measure. cbn. lia.
  - rewrite Hrun. exists (URLManager.urls st'), (URLManager.visited_urls st').
    repeat split; auto. lia.
Qed.

Variable list_of_set : list string -> list string.

(** X25.  [get_all_urls] always returns (the crawl it may start stops
    within 101 passes), and every URL it returns lies under the base URL
    and contains none of the excluded patterns, whatever the case of its
    letters, wherever it came from: the sitemap or the crawl. *)
Theorem get_all_urls_content_only (fuel : nat) (visited : list string)
  (sitemap_urls : list string) :
  (100 < fuel)%nat ->
  exists found visited',
    URLManager.get_all_urls target_base_url url_path page_links list_of_set
      fuel visited sitemap_urls = Some (found, visited')
    /\ Forall (content_url target_base_url) found
    /\ ((10 <= length sitemap_urls)%nat ->
        visited' = visited
        /\ (length found <= length sitemap_urls)%nat).
Proof.
  intros Hfuel. unfold URLManager.get_all_urls.
  assert (Hfilter : forall l,
            Forall (content_url target_base_url) (List.filter valid l)).
  { intros l. apply Forall_forall. intros u Hu.
    apply list_elem_of_In, filter_In in Hu. apply valid_content_url, Hu. }
  destruct (Nat.ltb_spec (length sitemap_urls) 10) as [Hfew|Hmany].
  - unfold URLManager.crawl_for_urls.
    destruct (crawl_loop_terminates 100 fuel
                (URLManager.CrawlState visited [] [target_base_url]))
      as (st' & Hrun & _).
    + repeat split; cbn; [constructor|constructor|lia].
    + unfold crawl_measure. cbn. lia.
    + rewrite Hrun. eexists _, _. repeat split; [apply Hfilter|lia|lia].
  - eexists _, _. repeat split; [apply Hfilter|].
    apply filter_length_le.
Qed.

End CrawlRuns.

(* ===================================================================== *)
(** * The hierarchy path of a page *)
(* ===================================================================== *)

Lemma split_on_nonempty (sep : ascii) (s : string) :
  PyStr.split_on sep s <> [].
Proof.
  destruct s as [|c s]; cbn [PyStr.split_on]; [discriminate|].
  destruct (Ascii.eqb c sep); [discriminate|].
  destruct (PyStr.split_on sep s); discriminate.
Qed.

(** A piece of [s.split(sep)] holds no separator: splitting it again
    gives the piece itself. *)
Lemma split_on_pieces (sep : ascii) (s : string) :
  Forall (fun w => PyStr.split_on sep w = [w]) (PyStr.split_on sep s).
Proof.
  induction s as [|c s IH]; cbn [PyStr.split_on].
  - repeat constructor.
  - destruct (Ascii.eqb c sep) eqn:E; [constructor; [reflexivity|exact IH]|].
    destruct (PyStr.split_on sep s) as [|w ws].
    + repeat constructor. cbn [PyStr.split_on]. rewrite E. reflexivity.
    + inversion IH as [|? ? Hw Hws]; subst. constructor; [|exact Hws].
      cbn [PyStr.split_on]. rewrite E, Hw. reflexivity.
Qed.

Lemma split_on_append (sep : ascii) (rest : string) : forall w : string,
  PyStr.split_on sep w = [w] ->
  PyStr.split_on sep (w ++ String sep rest)%string
  = w :: PyStr.split_on sep rest.
Proof.
  induction w as [|c w IH]; intros Hw.
  - change (EmptyString ++ String sep rest)%string with (String sep rest).
    cbn [PyStr.split_on]. rewrite Ascii.eqb_refl. reflexivity.
  - change (String c w ++ String sep rest)%string
      with (String c (w ++ String sep rest)%string).
    cbn [PyStr.split_on] in *.
    destruct (Ascii.eqb c sep); [discriminate|].
    destruct (PyStr.split_on sep w) as [|w1 ws1] eqn:E;
      [exfalso; exact (split_on_nonempty sep w E)|].
    injection Hw as -> ->. rewrite IH by reflexivity. reflexivity.
Qed.

(** Round trip of [join] and [split] on one separator character. *)
Lemma split_on_join (sep : ascii) (ws : list string) :
  ws <> [] ->
  Forall (fun w => PyStr.split_on sep w = [w]) ws ->
  PyStr.split_on sep (PyStr.join (String sep EmptyString) ws) = ws.
Proof.
  unfold PyStr.join. induction ws as [|w ws IH]; [congruence|].
  intros _ Hall. inversion Hall as [|? ? Hw Hws]; subst.
  destruct ws as [|w' ws]; [exact Hw|].
  change (String.concat (String sep EmptyString) (w :: w' :: ws))
    with (w ++ String sep (String.concat (String sep EmptyString)
                             (w' :: ws)))%string.
  rewrite split_on_append by exact Hw.
  rewrite IH by (congruence || exact Hws). reflexivity.
Qed.

Lemma path_parts_pieces (path : string) :
  Forall (fun p => p <> EmptyString /\ PyStr.split_on "/"%char p = [p])
    (URLManager.path_parts path).
Proof.
  unfold URLManager.path_parts. apply Forall_forall. intros p Hp.
  apply list_elem_of_filter in Hp. destruct Hp as [Hne Hp].
  split; [intros ->; discriminate|].
  pose proof (split_on_pieces "/"%char
                (PyStr.strip_char "/"%char path)) as Hall.
  rewrite Forall_forall in Hall. apply Hall, Hp.
Qed.

Section HierarchyRuns.

Variable url_path : string -> string.

(** X26.  The hierarchy path of a URL is never empty.  For a path of two
    or more segments it is the segments before the last, joined so that
    splitting it on [/] gives them back; for a single segment it is that
    segment; and for no segment it is [root]. *)
Theorem hierarchy_path_round_trip (url : string) :
  let path_parts := URLManager.path_parts (url_path url) in
  let hierarchy_path := TextExtractor._get_hierarchy_path url_path url in
  hierarchy_path <> EmptyString
  /\ match path_parts with
     | [] => hierarchy_path = "root"%string
     | [part] => hierarchy_path = part
     | _ =>
         PyStr.split_on "/"%char hierarchy_path
         = take (length path_parts - 1) path_parts
     end.
Proof.
  cbv zeta. unfold TextExtractor._get_hierarchy_path.
  pose proof (path_parts_pieces (url_path url)) as Hall.
  destruct (URLManager.path_parts (url_path url)) as [|p [|q rest]].
  - cbn. split; [discriminate|reflexivity].
  - cbn. inversion Hall as [|? ? [Hp _] _]; subst. split; [exact Hp|reflexivity].
  - assert (Hlen : (1 <? length (p :: q :: rest))%nat = true)
      by (apply Nat.ltb_lt; cbn; lia).
    rewrite Hlen.
    assert (Hround :
              PyStr.split_on "/"%char
                (PyStr.join "/" (take (length (p :: q :: rest) - 1)
                                   (p :: q :: rest)))
              = take (length (p :: q :: rest) - 1) (p :: q :: rest)).
    { apply split_on_join; [cbn; discriminate|].
      apply Forall_take. eapply Forall_impl; [exact Hall|].
      intros w [_ Hw]. exact Hw. }
    split; [|exact Hround].
    intros Hempty. rewrite Hempty in Hround. cbn in Hround.
    injection Hround as Hp _. inversion Hall as [|? ? [Hne _] _]; subst.
    apply Hne. reflexivity.
Qed.

End HierarchyRuns.

(* ===================================================================== *)
(** * Concrete scenarios for the further properties *)
(* ===================================================================== *)

Lemma overlap_with_next_bounds_witness :
  Forall (fun c =>
            0 <= ContentChunk.overlap_with_next c
            /\ ContentChunk.overlap_with_next c
               <= TextChunker.overlap_sentences cfg_quarter
                    (TextChunker._split_into_sentences abcd))
    abcd_chunks
  /\ forall c, last abcd_chunks = Some c ->
               ContentChunk.overlap_with_next c = 0.
Proof.
  exact (overlap_with_next_bounds demo_md5 demo_clock cfg_quarter
           "content_9e107d9d372b" "https://example.org/docs/intro"
           (Some "Intro") (Some "docs") 4 abcd abcd_chunks
           ltac:(discriminate) ltac:(vm_compute; reflexivity)).
Defined.

Lemma chunk_ids_distinct_witness :
  NoDup (map ContentChunk.id abcd_chunks).
Proof.
  apply (chunk_ids_distinct demo_md5 demo_clock cfg_quarter
           "content_9e107d9d372b" "https://example.org/docs/intro"
           (Some "Intro") (Some "docs") (fun s => eq_refl) 4 abcd abcd_chunks).
  left. vm_compute. reflexivity.
Defined.

Lemma sliding_window_covers_witness :
  exists chunks windows,
    TextChunker.chunk_with_sliding_window demo_md5 demo_clock cfg_quarter
      "content_9e107d9d372b" "https://example.org/docs/intro"
      (Some "Intro") (Some "docs") 4 abcd = Some chunks
    /\ map (fun c => PyStr.split (ContentChunk.chunk_text c)) chunks
       = map (fun w => PyList.slice (PyStr.split abcd) (fst w) (snd w))
           windows
    /\ concat (fresh_portions (PyStr.split abcd) 0 windows)
       = PyStr.split abcd.
Proof.
  apply (sliding_window_covers demo_md5 demo_clock cfg_quarter
           "content_9e107d9d372b" "https://example.org/docs/intro"
           (Some "Intro") (Some "docs") 4 abcd).
  - vm_compute. discriminate.
  - discriminate.
  - reflexivity.
  - vm_compute. lia.
Defined.



Lemma batch_fallback_equivalence_witness :
  snd (Embedder.embed_texts (fun _ texts => demo_client 0 texts) cfg_default 0
         ["alpha"; "bad"; "c"])
  = Some (omap (fun t =>
                  snd (Embedder.embed_single_text
                         (fun _ texts => demo_client 0 texts) 0 t))
            ["alpha"; "bad"; "c"]).
Proof.
  apply (batch_fallback_equivalence (demo_client 0) cfg_default
           (demo_client_one_vector_per_text 0%nat) ltac:(discriminate) 0%nat
           ["alpha"; "bad"; "c"]).
  - discriminate.
  - change (batches_of Embedder.max_batch_size ["alpha"; "bad"; "c"])
      with [["alpha"; "bad"; "c"]].
    constructor; [reflexivity|constructor].
Defined.


Lemma batch_equals_one_by_one_witness :
  let one_by_one :=
    snd (BookEmbeddingPipeline.save_all demo_uuid5 accept_all empty_client
           (zip abcd_chunks [[1 # 1]; [2 # 1]; [3 # 1]])) in
  let batch :=
    snd (QdrantStorage.save_chunks_batch demo_uuid5 accept_all empty_client
           abcd_chunks [[1 # 1]; [2 # 1]; [3 # 1]]) in
  QdrantStorage.collection one_by_one = QdrantStorage.collection batch
  /\ length (QdrantStorage.upsert_requests one_by_one)
     = (length (QdrantStorage.upsert_requests empty_client)
        + length abcd_chunks)%nat
  /\ length (QdrantStorage.upsert_requests batch)
     = S (length (QdrantStorage.upsert_requests empty_client)).
Proof.
  cbv zeta.
  apply (batch_equals_one_by_one demo_uuid5 accept_all empty_client _ _
           abcd_chunks [[1 # 1]; [2 # 1]; [3 # 1]]).
  - vm_compute. reflexivity.
  - vm_compute. reflexivity.
Defined.

Lemma processed_iff_success_witness :
  (true = true
   <-> BookEmbeddingPipeline._generate_content_id demo_md5
         "https://example.org/docs/intro" demo_page
       ∈ BookEmbeddingPipeline.processed_content processed_pipeline)
  /\ BookEmbeddingPipeline.processed_content fresh_pipeline
     ⊆ BookEmbeddingPipeline.processed_content processed_pipeline
  /\ (true = false ->
      BookEmbeddingPipeline.processed_content processed_pipeline
      = BookEmbeddingPipeline.processed_content fresh_pipeline).
Proof.
  apply (processed_iff_success demo_md5 demo_clock demo_uuid5 accept_all
           accepting_client cfg_single demo_extract 2 fresh_pipeline
           processed_pipeline "https://example.org/docs/intro"
           (Some "Intro") (Some "docs") demo_page true).
  - reflexivity.
  - reflexivity.
  - vm_compute. reflexivity.
Defined.


Lemma reprocessing_is_skipped_witness :
  BookEmbeddingPipeline.process_single_url demo_md5 demo_clock demo_uuid5
    accept_all accepting_client cfg_single demo_extract 2 processed_pipeline
    "https://example.org/docs/intro"
  = Some (true, processed_pipeline).
Proof.
  apply (reprocessing_is_skipped demo_md5 demo_clock demo_uuid5 accept_all
           accepting_client cfg_single demo_extract demo_extract 2 2
           fresh_pipeline processed_pipeline "https://example.org/docs/intro"
           (Some "Intro") (Some "Intro") (Some "docs") (Some "docs")
           demo_page demo_page).
  - reflexivity.
  - reflexivity.
  - reflexivity.
  - reflexivity.
  - vm_compute. reflexivity.
Defined.

Lemma create_collection_recreates_witness :
  let db := QdrantStorage.Database (Some 1024%nat) empty_client 0 in
  let out := QdrantStorage.create_collection accept_all db 768 in
  fst out = Ok tt
  /\ QdrantStorage.vector_size (snd out) = Some 768%nat
  /\ QdrantStorage.collection (QdrantStorage.points (snd out)) = ∅
  /\ QdrantStorage.upsert_requests (QdrantStorage.points (snd out))
     = QdrantStorage.upsert_requests (QdrantStorage.points db)
  /\ fst (QdrantStorage.collection_exists accept_all (snd out)) = true
  /\ fst (QdrantStorage.count_points accept_all (snd out)) = 0%nat.
Proof.
  exact (create_collection_recreates accept_all (fun request => eq_refl)
           (QdrantStorage.Database (Some 1024%nat) empty_client 0) 768).
Defined.

Lemma retrieval_report_consistent_witness :
  Validator.query_count demo_retrieval = 2%nat
  /\ (Validator.successful_retrievals demo_retrieval
      <= Validator.query_count demo_retrieval)%nat
  /\ (length (Validator.accuracy_metrics demo_retrieval)
      <= Validator.successful_retrievals demo_retrieval)%nat
  /\ Forall (metric_ok 2) (Validator.accuracy_metrics demo_retrieval)
  /\ (0 <= Validator.average_recall demo_retrieval)%Q
  /\ (Validator.average_recall demo_retrieval <= 1)%Q
  /\ 2%nat = (0 + 2)%nat.
Proof.
  apply (retrieval_report_consistent accepting_client demo_search 0 2
           ["what is A?"; "what is B?"] (Some ["/docs/intro"; "/docs/setup"])
           demo_retrieval).
  vm_compute. reflexivity.
Defined.

Lemma process_urls_counts_witness :
  (2 + 0 = 0 + 0 + 2)%nat
  /\ (0 <= 2)%nat
  /\ (0 <= 0)%nat
  /\ BookEmbeddingPipeline.processed_content fresh_pipeline
     ⊆ BookEmbeddingPipeline.processed_content processed_pipeline
  /\ (size (BookEmbeddingPipeline.processed_content processed_pipeline)
      <= size (BookEmbeddingPipeline.processed_content fresh_pipeline)
         + (2 - 0))%nat
  /\ (["https://example.org/docs/intro"; "https://example.org/docs/setup"]
      <> [] ->
      sleep_returns (Config.RATE_LIMIT_DELAY cfg_single) = true).
Proof.
  apply (process_urls_counts demo_md5 demo_clock demo_uuid5 accept_all
           accepting_client cfg_single demo_extract 2
           ["https://example.org/docs/intro"; "https://example.org/docs/setup"]
           fresh_pipeline processed_pipeline 0 0 2 0).
  vm_compute. reflexivity.
Defined.

Lemma process_urls_negative_delay_witness :
  BookEmbeddingPipeline.process_urls demo_md5 demo_clock demo_uuid5
    accept_all accepting_client cfg_negative_delay demo_extract 2
    fresh_pipeline
    ["https://example.org/docs/intro"; "https://example.org/docs/setup"] 0 0
  = Some (Raise (ValueError "sleep length must be non-negative"),
          hurried_pipeline).
Proof.
  apply (process_urls_negative_delay demo_md5 demo_clock demo_uuid5
           accept_all accepting_client cfg_negative_delay demo_extract 2
           "https://example.org/docs/intro"
           ["https://example.org/docs/setup"] fresh_pipeline hurried_pipeline
           false 0 0).
  - reflexivity.
  - vm_compute. reflexivity.
Defined.


Lemma crawl_for_urls_terminates_witness :
  exists found visited',
    URLManager.crawl_for_urls demo_base demo_url_path demo_links 101 []
      demo_base 100 = Some (found, visited')
    /\ NoDup found
    /\ Forall (fun u =>
                 URLManager._is_valid_content_url demo_base demo_url_path u
                 = true) found
    /\ Z.of_nat (length found) <= Z.max 0 100
    /\ (forall v, v ∈ [] -> v ∈ visited').
Proof.
  apply (crawl_for_urls_terminates demo_base demo_url_path demo_links 101 []
           demo_base 100).
  vm_compute. lia.
Defined.

(** The crawl of the demo site: the image, the other site and the
    second link to the introduction are left out, and the page that
    cannot be fetched is still reported. *)
Example crawl_of_the_demo_site :
  URLManager.crawl_for_urls demo_base demo_url_path demo_links 101 []
    demo_base 100
  = Some ([ "https://example.org/docs/intro";
            "https://example.org/docs/setup" ],
          [ "https://example.org"; "https://example.org/docs/intro";
            "https://example.org/docs/setup" ]).
Proof. vm_compute. reflexivity. Qed.

Lemma get_all_urls_content_only_witness :
  exists found visited',
    URLManager.get_all_urls demo_base demo_url_path demo_links (fun l => l)
      101 [] [] = Some (found, visited')
    /\ Forall (content_url demo_base) found
    /\ ((10 <= length (@nil string))%nat ->
        visited' = [] /\ (length found <= length (@nil string))%nat).
Proof.
  apply (get_all_urls_content_only demo_base demo_url_path demo_links
           (fun l => l) 101 [] []).
  lia.
Defined.
